(** * CareCrew: retrieval-and-verification core

    A shallow embedding of the Python sources
      - [data_analyze.py]      (chunker, drug-safety lookup, KB index cache,
                                semantic retriever),
      - [fda_server_logic.py]  (direct public lookup, server side),
      - [mcp_server_fda.py]    (tool functions of the FDA tool server),
      - [agents/kb_agent.py]   (guideline dispatcher and passage cleaning),
    followed by the properties of the specification, each stated against the
    embedded functions.

    Conventions of the embedding.
      - Python [str] is [string]; a character is one code point below 256.
      - Python [int] is [Z]; list positions are [Z] where the source computes
        with them (slices, [list.index]).
      - A parsed JSON body is a [json] tree; Python [None] is [JNull].
      - A Python call either returns, raises or never returns: [outcome].
      - Everything outside the process (HTTP peers, the file system, the
        language model) lives in an explicit [World] that is threaded through
        the calls; requests and storage operations are logged there. *)

From Stdlib Require Import ZArith List String Ascii Bool Lia Arith.
From Stdlib Require Import Sorting.Sorted Sorting.Permutation.
Import ListNotations.

Local Open Scope string_scope.
Local Open Scope Z_scope.

(* ================================================================= *)
(** ** Python values and control *)

Module Py.

(** Exceptions the modelled code can meet. *)
Inductive exn : Type :=
| FileNotFoundError
| UnpicklingError
| AssertionError
| ConnectionError          (* requests: timeout, refused connection *)
| JSONDecodeError          (* resp.json() on a body that is not JSON *)
| StatusError (code : Z)   (* the explicit raise on a non-200 status *)
| AttributeError
| KeyError
| IndexError
| TypeError
| ValueError
| ValidationError          (* pydantic model construction *)
| LLMError.

(** Result of running a piece of Python. *)
Inductive outcome (A : Type) : Type :=
| Ret (a : A)
| Raise (e : exn)
| Diverge.
Arguments Ret {A} a.
Arguments Raise {A} e.
Arguments Diverge {A}.

Definition obind {A B} (o : outcome A) (k : A -> outcome B) : outcome B :=
  match o with
  | Ret a => k a
  | Raise e => Raise e
  | Diverge => Diverge
  end.

(** JSON trees, as produced by [resp.json()].  An object is the list of its
    entries, keys pairwise distinct. *)
#[warnings="-register-all"]
Inductive json : Type :=
| JNull
| JBool (b : bool)
| JNum (n : Z)
| JStr (s : string)
| JArr (l : list json)
| JObj (m : list (string * json)).

Fixpoint assoc (k : string) (m : list (string * json)) : option json :=
  match m with
  | [] => None
  | (k', v) :: m' => if String.eqb k k' then Some v else assoc k m'
  end.

(** [isinstance(v, dict)] *)
Definition is_dict (v : json) : bool :=
  match v with JObj _ => true | _ => false end.

(** [bool(v)] *)
Definition truthy (v : json) : bool :=
  match v with
  | JNull => false
  | JBool b => b
  | JNum n => negb (n =? 0)
  | JStr s => negb (String.eqb s "")
  | JArr l => match l with [] => false | _ => true end
  | JObj m => match m with [] => false | _ => true end
  end.

(** [d.get(k, default)]; only a dict has [.get]. *)
Definition get (d : json) (k : string) (default : json) : outcome json :=
  match d with
  | JObj m => Ret (match assoc k m with Some v => v | None => default end)
  | _ => Raise AttributeError
  end.

(** [k in d] followed by [d[k]], for a dict [d]. *)
Definition has_key (d : json) (k : string) : bool :=
  match d with
  | JObj m => match assoc k m with Some _ => true | None => false end
  | _ => false
  end.

(** [v[0]] *)
Definition index0 (v : json) : outcome json :=
  match v with
  | JArr (x :: _) => Ret x
  | JArr [] => Raise IndexError
  | JStr (String c _) => Ret (JStr (String c ""))
  | JStr EmptyString => Raise IndexError
  | JObj _ => Raise KeyError        (* JSON keys are strings, never [0] *)
  | JNull | JBool _ | JNum _ => Raise TypeError
  end.

(** [for x in v] *)
Definition iter (v : json) : outcome (list json) :=
  match v with
  | JArr l => Ret l
  | JStr s => Ret (map (fun c => JStr (String c "")) (list_ascii_of_string s))
  | JObj m => Ret (map (fun kv => JStr (fst kv)) m)
  | JNull | JBool _ | JNum _ => Raise TypeError
  end.

(** *** Strings *)

Definition chars : string -> list ascii := list_ascii_of_string.
Definition str : list ascii -> string := string_of_list_ascii.

(** [len(s)] *)
Definition len (s : string) : Z := Z.of_nat (String.length s).

(** [c.isspace()] for a code point below 256. *)
Definition is_space (c : ascii) : bool :=
  let n := nat_of_ascii c in
  (((9 <=? n) && (n <=? 13)) || ((28 <=? n) && (n <=? 32))
   || (n =? 133) || (n =? 160))%nat.

Fixpoint lstrip_chars (cs : list ascii) : list ascii :=
  match cs with
  | c :: cs' => if is_space c then lstrip_chars cs' else cs
  | [] => []
  end.

Definition strip_chars (cs : list ascii) : list ascii :=
  rev (lstrip_chars (rev (lstrip_chars cs))).

(** [s.strip()] *)
Definition strip (s : string) : string := str (strip_chars (chars s)).

(** [s[:n]] for [n >= 0] *)
Definition prefix (n : nat) (s : string) : string :=
  str (firstn n (chars s)).

Definition space : ascii := " "%char.

Fixpoint after_first_space (r : list ascii) : option (list ascii) :=
  match r with
  | [] => None
  | c :: r' => if Ascii.eqb c space then Some r' else after_first_space r'
  end.

Definition rsplit1_head_chars (cs : list ascii) : list ascii :=
  match after_first_space (rev cs) with
  | Some r' => rev r'
  | None => cs
  end.

(** [s.rsplit(" ", 1)[0]]: what precedes the last blank, or all of [s]. *)
Definition rsplit1_head (s : string) : string :=
  str (rsplit1_head_chars (chars s)).

(** [sep.join(parts)] *)
Fixpoint join (sep : string) (parts : list string) : string :=
  match parts with
  | [] => ""
  | [p] => p
  | p :: rest => p ++ sep ++ join sep rest
  end.

(** [s.split()]: maximal runs of non-blank characters.  [cur] is the run
    being read. *)
Fixpoint split_chars (cs cur : list ascii) : list (list ascii) :=
  match cs with
  | [] => match cur with [] => [] | _ => [cur] end
  | c :: cs' =>
      if is_space c
      then match cur with
           | [] => split_chars cs' []
           | _ => cur :: split_chars cs' []
           end
      else split_chars cs' (cur ++ [c])
  end.

Definition split (s : string) : list string :=
  map str (split_chars (chars s) []).

(** A run of characters without a blank; a token is a non-empty one. *)
Definition solid (t : list ascii) : Prop :=
  forallb (fun c => negb (is_space c)) t = true.

Definition token_chars (t : list ascii) : Prop := t <> [] /\ solid t.

(** *** Lists *)

(** Normalisation of a slice bound against a length, as [slice.indices]. *)
Definition clamp (n i : Z) : Z :=
  if i <? 0 then Z.max 0 (i + n) else Z.min i n.

(** [l[lo:hi]] *)
Definition slice {A} (l : list A) (lo hi : Z) : list A :=
  let n := Z.of_nat (List.length l) in
  let lo' := clamp n lo in
  let hi' := clamp n hi in
  firstn (Z.to_nat (hi' - lo')) (skipn (Z.to_nat lo') l).

(** [l.index(x)] on a list of integers: first position of [x]. *)
Fixpoint index_of (x : Z) (l : list Z) : outcome Z :=
  match l with
  | [] => Raise ValueError
  | y :: l' => if x =? y then Ret 0
               else obind (index_of x l') (fun p => Ret (p + 1))
  end.

End Py.

Import Py.

(* ================================================================= *)
(** ** Chunker ([data_analyze.chunk_text]) *)

Module Chunker.

(** The [while i < len(tokens)] loop.  [fuel] bounds the number of times
    the loop test is evaluated; [None] means the loop is still running when
    the fuel is spent. *)
Fixpoint chunk_loop (fuel : nat) (tokens : list string)
         (chunk_size overlap : Z) (i : Z) (chunks : list string)
  : option (list string) :=
  match fuel with
  | O => None
  | S fuel' =>
      if i <? Z.of_nat (List.length tokens)
      then
        let chunk := slice tokens i (i + chunk_size) in
        chunk_loop fuel' tokens chunk_size overlap
                   (i + (chunk_size - overlap))
                   (chunks ++ [join " " chunk])%list
      else Some chunks
  end.

(** [chunk_text(text, chunk_size, overlap)], run with a budget of
    [len(tokens) + 1] loop tests.  The budget is enough whenever the loop
    terminates at all, and when it is not enough no amount of fuel is
    ([ChunkerFacts.chunk_text_returns], [ChunkerFacts.chunk_text_diverges]),
    so [Diverge] stands for a call that never returns. *)
Definition chunk_text (text : string) (chunk_size overlap : Z)
  : outcome (list string) :=
  let tokens := split text in
  match chunk_loop (S (List.length tokens)) tokens chunk_size overlap 0 [] with
  | Some chunks => Ret chunks
  | None => Diverge
  end.

(** The token windows the loop visits from position [i] on. *)
Fixpoint windows (fuel : nat) (tokens : list string)
         (chunk_size overlap : Z) (i : Z) : list (list string) :=
  match fuel with
  | O => []
  | S fuel' =>
      if i <? Z.of_nat (List.length tokens)
      then slice tokens i (i + chunk_size)
           :: windows fuel' tokens chunk_size overlap
                      (i + (chunk_size - overlap))
      else []
  end.

(** A token: non-empty and free of blanks. *)
Definition is_token (t : string) : bool :=
  match chars t with
  | [] => false
  | cs => forallb (fun c => negb (is_space c)) cs
  end.

(** Undo the overlap: keep the first chunk whole and drop the first
    [overlap] tokens of every later chunk. *)
Definition remove_overlap (overlap : Z) (chunks : list string)
  : list string :=
  match chunks with
  | [] => []
  | c :: rest =>
      (split c
       ++ List.concat (map (fun c' => skipn (Z.to_nat overlap) (split c')) rest))%list
  end.

(** The chunk count the specification states:
    [ceil(max(n - o, 0) / (w - o))]. *)
Definition ceil_div (a b : Z) : Z := (a + b - 1) / b.

Definition spec_chunk_count (n w o : Z) : Z :=
  ceil_div (Z.max (n - o) 0) (w - o).

End Chunker.

(* ================================================================= *)
(** ** The world outside the process *)

Module Env.

(** What one HTTP request comes back with: the call itself raises (timeout,
    refused connection), or a reply with a status and a body; the body is
    [None] when it is not JSON, so that [resp.json()] raises. *)
Inductive http_result : Type :=
| NetError
| Reply (status_code : Z) (body : option json).

Inductive http_method : Type := POST | GET.

Record request : Type := mkRequest {
  req_method : http_method;
  req_url : string;
  req_data : json                  (* [json=] payload or [params=] *)
}.

(** An embedding vector.  The encoder and the distances are exact integers
    here instead of 32-bit floats. *)
Definition vec : Type := list Z.

(** The pickled object [{"index": ..., "passages": ...}]; a flat index is
    the list of the vectors added to it, in insertion order. *)
Record kb_data : Type := mkKb {
  kb_index : list vec;
  kb_passages : list string
}.

(** State of [kb_index.pkl] on disk. *)
Inductive pickle_state : Type :=
| PickleAbsent
| PickleCorrupt
| PickleHolds (d : kb_data).

Inductive io_event : Type :=
| IoExists (path : string)
| IoReadPickle (path : string)
| IoWritePickle (path : string)
| IoReadPdf (path : string).

Record World : Type := mkWorld {
  http_tape : list http_result;    (* outcomes of the coming requests *)
  http_log : list request;         (* requests sent so far, oldest first *)
  kb_index_data : option kb_data;  (* the module global of data_analyze *)
  pickle_file : pickle_state;      (* kb_index.pkl *)
  pdf_pages : option (list string);(* page texts of the guideline PDF *)
  storage_log : list io_event;     (* storage operations, oldest first *)
  llm_tape : list (option string); (* coming chat completions; [None] raises *)
  llm_log : list string            (* prompts sent so far *)
}.

(** Computations over the world. *)
Definition M (A : Type) : Type := World -> outcome A * World.

Definition ret {A} (a : A) : M A := fun w => (Ret a, w).
Definition raise {A} (e : exn) : M A := fun w => (Raise e, w).
Definition lift {A} (o : outcome A) : M A := fun w => (o, w).

Definition bind {A B} (m : M A) (k : A -> M B) : M B :=
  fun w =>
    match m w with
    | (Ret a, w') => k a w'
    | (Raise e, w') => (Raise e, w')
    | (Diverge, w') => (Diverge, w')
    end.

(** [try: body  except Exception: handler] *)
Definition try_except {A} (body : M A) (handler : exn -> M A) : M A :=
  fun w =>
    match body w with
    | (Raise e, w') => handler e w'
    | r => r
    end.

Declare Scope world_scope.
Delimit Scope world_scope with world.
Notation "x <- m ;; k" := (bind m (fun x => k))
  (at level 61, m at next level, right associativity) : world_scope.
Notation "m ;;; k" := (bind m (fun _ => k))
  (at level 61, right associativity) : world_scope.

Local Open Scope world_scope.

(** Run [f] on every element in turn, left to right. *)
Fixpoint mapM {A B} (f : A -> M B) (l : list A) : M (list B) :=
  match l with
  | [] => ret []
  | x :: l' => y <- f x ;; ys <- mapM f l' ;; ret (y :: ys)
  end.

(** One request: the next outcome on the tape, the request logged.  An
    exhausted tape is an unreachable peer. *)
Definition send (r : request) : M http_result :=
  fun w =>
    let res := match http_tape w with [] => NetError | x :: _ => x end in
    (Ret res,
     mkWorld (tl (http_tape w)) (http_log w ++ [r])
             (kb_index_data w) (pickle_file w) (pdf_pages w)
             (storage_log w) (llm_tape w) (llm_log w)).

Record response : Type := mkResponse {
  status_code : Z;
  resp_body : option json
}.

Definition receive (r : request) : M response :=
  fun w =>
    match send r w with
    | (Ret NetError, w') => (Raise ConnectionError, w')
    | (Ret (Reply c b), w') => (Ret (mkResponse c b), w')
    | (Raise e, w') => (Raise e, w')
    | (Diverge, w') => (Diverge, w')
    end.

(** [requests.post(url, json=payload, timeout=...)] *)
Definition requests_post (url : string) (payload : json) : M response :=
  receive (mkRequest POST url payload).

(** [requests.get(url, params=params, timeout=...)] *)
Definition requests_get (url : string) (params : json) : M response :=
  receive (mkRequest GET url params).

(** [resp.json()] *)
Definition resp_json (r : response) : outcome json :=
  match resp_body r with
  | Some j => Ret j
  | None => Raise JSONDecodeError
  end.

Definition log_io (e : io_event) : M unit :=
  fun w =>
    (Ret tt,
     mkWorld (http_tape w) (http_log w) (kb_index_data w) (pickle_file w)
             (pdf_pages w) (storage_log w ++ [e]) (llm_tape w) (llm_log w)).

Definition set_kb_index_data (d : option kb_data) : M unit :=
  fun w =>
    (Ret tt,
     mkWorld (http_tape w) (http_log w) d (pickle_file w)
             (pdf_pages w) (storage_log w) (llm_tape w) (llm_log w)).

Definition write_pickle (d : kb_data) : M unit :=
  fun w =>
    (Ret tt,
     mkWorld (http_tape w) (http_log w) (kb_index_data w) (PickleHolds d)
             (pdf_pages w) (storage_log w) (llm_tape w) (llm_log w)).

(** [client.chat.completions.create(...)] followed by
    [.choices[0].message.content] *)
Definition chat_completion (prompt : string) : M string :=
  fun w =>
    let w' :=
      mkWorld (http_tape w) (http_log w) (kb_index_data w) (pickle_file w)
              (pdf_pages w) (storage_log w) (tl (llm_tape w))
              (llm_log w ++ [prompt]) in
    match llm_tape w with
    | Some reply :: _ => (Ret reply, w')
    | _ => (Raise LLMError, w')
    end.

End Env.

Import Env.
Local Open Scope world_scope.

(* ================================================================= *)
(** ** Drug-safety lookup, client side ([data_analyze.py]) *)

Module Fda.

Definition OPENFDA_BASE : string := "https://api.fda.gov/drug/label.json".
Definition FDA_MCP_URL : string := "http://127.0.0.1:8001/invoke_tool".

(** The dict with the keys [drug_name], [brand], [generic], [warnings],
    [found].  The three middle values are whatever the peer's JSON held. *)
Record DrugSafetyRecord : Type := mkRecord {
  drug_name : string;
  brand : json;
  generic : json;
  warnings : json;
  found : bool
}.

Definition not_found_record (name : string) : DrugSafetyRecord :=
  mkRecord name (JStr "N/A") (JStr "N/A") (JStr "No data found.") false.

Definition mcp_payload (name : string) : json :=
  JObj [("tool_name", JStr "check_drug_safety");
        ("arguments", JObj [("drug_name", JStr name)])].

(** Body of the first [try:] of [get_openfda_warnings].  [Some r]: the
    [return] was reached; [None]: control fell out of the [if]. *)
Definition mcp_attempt (name : string) : M (option DrugSafetyRecord) :=
  resp <- requests_post FDA_MCP_URL (mcp_payload name) ;;
  if status_code resp =? 200 then
    body <- lift (resp_json resp) ;;
    data <- lift (get body "result" (JObj [])) ;;
    if is_dict data then
      b <- lift (get data "brand" (JStr "N/A")) ;;
      g <- lift (get data "generic" (JStr "N/A")) ;;
      wn <- lift (get data "warnings" (JStr "No warnings available.")) ;;
      ret (Some (mkRecord name b g wn true))
    else ret None
  else raise (StatusError (status_code resp)).

Definition openfda_params (key name : string) : json :=
  JObj [("search", JStr ("openfda." ++ key ++ ":" ++ name));
        ("limit", JNum 1)].

(** Body of [for key in [...]] inside the second [try:]. *)
Fixpoint openfda_loop (keys : list string) (name : string)
  : M (option DrugSafetyRecord) :=
  match keys with
  | [] => ret None
  | key :: keys' =>
      resp <- requests_get OPENFDA_BASE (openfda_params key name) ;;
      if status_code resp =? 200 then
        body <- lift (resp_json resp) ;;
        data <- lift (get body "results" (JArr [])) ;;
        if truthy data then
          entry <- lift (index0 data) ;;
          o1 <- lift (get entry "openfda" (JObj [])) ;;
          bl <- lift (get o1 "brand_name" (JArr [JStr "N/A"])) ;;
          b <- lift (index0 bl) ;;
          o2 <- lift (get entry "openfda" (JObj [])) ;;
          gl <- lift (get o2 "generic_name" (JArr [JStr "N/A"])) ;;
          g <- lift (index0 gl) ;;
          wl <- lift (get entry "warnings" (JArr [JStr "No warnings available."])) ;;
          wn <- lift (index0 wl) ;;
          ret (Some (mkRecord name b g wn true))
        else openfda_loop keys' name
      else openfda_loop keys' name
  end.

Definition openfda_attempt (name : string) : M (option DrugSafetyRecord) :=
  openfda_loop ["brand_name"; "generic_name"] name.

(** Steps 2 and 3 of [get_openfda_warnings]: the public lookup, then the
    sentinel record. *)
Definition public_lookup (name : string) : M DrugSafetyRecord :=
  r <- try_except (openfda_attempt name) (fun _ => ret None) ;;
  match r with
  | Some rec => ret rec
  | None => ret (not_found_record name)
  end.

Definition get_openfda_warnings (name : string) : M DrugSafetyRecord :=
  r <- try_except (mcp_attempt name) (fun _ => ret None) ;;
  match r with
  | Some rec => ret rec
  | None => public_lookup name
  end.

Record BatchReport : Type := mkReport {
  status : string;
  count : Z;
  results : list DrugSafetyRecord
}.

(** The [for drug in medicine_list] loop, [results] being the list built so
    far. *)
Fixpoint batch_loop (lookup : string -> M DrugSafetyRecord)
         (medicine_list : list string) (results : list DrugSafetyRecord)
  : M (list DrugSafetyRecord) :=
  match medicine_list with
  | [] => ret results
  | drug :: rest =>
      let clean_name := strip drug in
      if String.eqb clean_name ""
      then batch_loop lookup rest results
      else
        result <- lookup clean_name ;;
        batch_loop lookup rest (results ++ [result])
  end.

Definition report_of (results : list DrugSafetyRecord) : BatchReport :=
  mkReport (match results with [] => "no_data" | _ => "success" end)
           (Z.of_nat (List.length results))
           results.

Definition get_openfda_warnings_batch (medicine_list : list string)
  : M BatchReport :=
  results <- batch_loop get_openfda_warnings medicine_list [] ;;
  ret (report_of results).

End Fda.

(* ================================================================= *)
(** ** The FDA tool server ([fda_server_logic.py], [mcp_server_fda.py]) *)

Module FdaServer.

Import Fda.

(** [_call_openfda_api]: the same public lookup as the client's steps 2-3. *)
Definition _call_openfda_api (name : string) : M DrugSafetyRecord :=
  r <- try_except (openfda_attempt name) (fun _ => ret None) ;;
  match r with
  | Some rec => ret rec
  | None => ret (not_found_record name)
  end.

Definition _call_openfda_api_batch (medicine_list : list string)
  : M BatchReport :=
  results <- batch_loop _call_openfda_api medicine_list [] ;;
  ret (report_of results).

(** [FdaSingleDrugOutput]: a pydantic model whose text fields are [str]. *)
Record FdaSingleDrugOutput : Type := mkSingle {
  out_drug_name : string;
  out_brand : string;
  out_generic : string;
  out_warnings : string;
  out_found : bool
}.

Record FdaBatchOutput : Type := mkBatch {
  out_status : string;
  out_count : Z;
  out_results : list FdaSingleDrugOutput
}.

(** Validation of a [str] field. *)
Definition as_str (v : json) : outcome string :=
  match v with
  | JStr s => Ret s
  | _ => Raise ValidationError
  end.

Definition make_single (name : string) (r : DrugSafetyRecord)
  : outcome FdaSingleDrugOutput :=
  obind (as_str (brand r)) (fun b =>
  obind (as_str (generic r)) (fun g =>
  obind (as_str (warnings r)) (fun wn =>
  Ret (mkSingle name b g wn (found r))))).

Definition check_drug_safety (name : string) : M FdaSingleDrugOutput :=
  if String.eqb name "" || String.eqb (strip name) ""
  then ret (mkSingle "N/A" "N/A" "N/A"
                     "Invalid or empty drug name provided." false)
  else
    result <- _call_openfda_api name ;;
    lift (make_single name result).

Fixpoint make_results (rs : list DrugSafetyRecord)
  : outcome (list FdaSingleDrugOutput) :=
  match rs with
  | [] => Ret []
  | e :: rs' =>
      obind (make_single (drug_name e) e) (fun x =>
      obind (make_results rs') (fun xs => Ret (x :: xs)))
  end.

(** [any(d.strip() for d in drug_list)] *)
Definition any_nonblank (drug_list : list string) : bool :=
  existsb (fun d => negb (String.eqb (strip d) "")) drug_list.

Definition check_multiple_drugs (drug_list : list string) : M FdaBatchOutput :=
  if match drug_list with [] => true | _ => false end
     || negb (any_nonblank drug_list)
  then ret (mkBatch "error" 0 [])
  else
    batch_result <- _call_openfda_api_batch drug_list ;;
    rs <- lift (make_results (results batch_result)) ;;
    ret (mkBatch (status batch_result) (Z.of_nat (List.length rs)) rs).

(** [result.model_dump()] of a single-drug output. *)
Definition dump_single (r : FdaSingleDrugOutput) : json :=
  JObj [("drug_name", JStr (out_drug_name r));
        ("brand", JStr (out_brand r));
        ("generic", JStr (out_generic r));
        ("warnings", JStr (out_warnings r));
        ("found", JBool (out_found r))].

End FdaServer.

(* ================================================================= *)
(** ** Exhaustive L2 index ([faiss.IndexFlatL2]) *)

Module Faiss.

Definition l2sq (a b : vec) : Z :=
  fold_left (fun acc xy => acc + (fst xy - snd xy) * (fst xy - snd xy))
            (combine a b) 0.

(** Labels [0 .. n-1]. *)
Definition labels (n : nat) : list Z := map Z.of_nat (seq 0 n).

Fixpoint insert (x : Z * Z) (l : list (Z * Z)) : list (Z * Z) :=
  match l with
  | [] => [x]
  | y :: l' => if fst x <=? fst y then x :: l else y :: insert x l'
  end.

Definition rank (l : list (Z * Z)) : list (Z * Z) :=
  fold_right insert [] l.

(** Order of two scored labels: by distance. *)
Definition by_dist (x y : Z * Z) : Prop := fst x <= fst y.

(** Distance stored in the unused result slots. *)
Definition HUGE : Z := 340282346638528859811704183484516925440.

(** Modelled from the spec: [index.search(q, k)] of [faiss.IndexFlatL2],
    an external library whose code is not among the sources.  Section 4.4:
    exhaustive L2 distance to every vector of the index, the [k] nearest in
    ascending distance order, ties by original passage order.  The value is
    the pair of rows [D[0]] and [I[0]], padded to width [k] with label [-1]
    when the index holds fewer than [k] vectors; the library asserts
    [k > 0].  Distances are squared, as the library returns them, and exact
    integers here instead of 32-bit floats. *)
Definition search (index : list vec) (q : vec) (k : Z)
  : outcome (list Z * list Z) :=
  if k <=? 0 then Raise AssertionError
  else
    let scored := combine (map (l2sq q) index) (labels (List.length index)) in
    let best := firstn (Z.to_nat k) (rank scored) in
    let row := (best ++ repeat (HUGE, -1) (Z.to_nat k - List.length best))%list in
    Ret (map fst row, map snd row).

End Faiss.

(* ================================================================= *)
(** ** KB index cache and semantic retriever ([data_analyze.py]) *)

Module Kb.

Definition STG_PDF : string := "standard-treatment-guidelines.pdf".
Definition KB_INDEX_PICKLE : string := "kb_index.pkl".

Definition newline : ascii := ascii_of_nat 10.

(** [os.path.exists(KB_INDEX_PICKLE)] *)
Definition pickle_exists : M bool :=
  log_io (IoExists KB_INDEX_PICKLE) ;;;
  fun w =>
    (Ret (match pickle_file w with PickleAbsent => false | _ => true end), w).

(** [os.path.exists(STG_PDF)] *)
Definition pdf_exists : M bool :=
  log_io (IoExists STG_PDF) ;;;
  fun w => (Ret (match pdf_pages w with None => false | Some _ => true end), w).

(** [extract_text_from_pdf(STG_PDF)] *)
Definition extract_text_from_pdf : M string :=
  e <- pdf_exists ;;
  if negb e then raise FileNotFoundError
  else
    log_io (IoReadPdf STG_PDF) ;;;
    fun w =>
      match pdf_pages w with
      | Some pages => (Ret (join (String newline "") pages), w)
      | None => (Raise FileNotFoundError, w)
      end.

(** [re.sub(r"\n{2,}", "\n", text)] *)
Fixpoint collapse_newlines_chars (cs : list ascii) : list ascii :=
  match cs with
  | [] => []
  | c :: cs' =>
      if Ascii.eqb c newline
      then match cs' with
           | c' :: _ => if Ascii.eqb c' newline
                        then collapse_newlines_chars cs'
                        else c :: collapse_newlines_chars cs'
           | [] => [c]
           end
      else c :: collapse_newlines_chars cs'
  end.

Definition collapse_newlines (s : string) : string :=
  str (collapse_newlines_chars (chars s)).

(** [load_kb_index(KB_INDEX_PICKLE)]; [None] is Python's [None]. *)
Definition load_kb_index : M (option kb_data) :=
  e <- pickle_exists ;;
  if negb e then ret None
  else
    log_io (IoReadPickle KB_INDEX_PICKLE) ;;;
    fun w =>
      match pickle_file w with
      | PickleHolds d => (Ret (Some d), w)
      | PickleCorrupt => (Raise UnpicklingError, w)
      | PickleAbsent => (Raise FileNotFoundError, w)
      end.

(** A retrieval hit: [{"passage": ..., "score": ...}]. *)
Record hit : Type := mkHit {
  passage : string;
  score : Z
}.

(** [l[i]] *)
Definition getitem {A} (l : list A) (i : Z) : outcome A :=
  let n := Z.of_nat (List.length l) in
  let j := if i <? 0 then i + n else i in
  if (j <? 0) || (n <=? j) then Raise IndexError
  else match nth_error l (Z.to_nat j) with
       | Some x => Ret x
       | None => Raise IndexError
       end.

(** The [for idx in I[0]] loop of [rag_lookup_kb]; [todo] is the part of
    [I[0]] still to visit. *)
Fixpoint collect_hits (todo : list Z) (D I : list Z) (passages : list string)
         (results : list hit) : outcome (list hit) :=
  match todo with
  | [] => Ret results
  | idx :: todo' =>
      if (0 <=? idx) && (idx <? Z.of_nat (List.length passages))
      then
        obind (getitem passages idx) (fun p =>
        obind (index_of idx I) (fun pos =>
        obind (getitem D pos) (fun s =>
        collect_hits todo' D I passages (results ++ [mkHit p s]))))
      else collect_hits todo' D I passages results
  end.

(** [embeddings.shape[1]]: the row length of the array of embeddings.  The
    array encoded from no passage at all has the shape [(0,)], which has no
    second entry. *)
Definition shape1 (embeddings : list vec) : outcome Z :=
  match embeddings with
  | [] => Raise IndexError
  | v :: _ => Ret (Z.of_nat (List.length v))
  end.

Section WithEmbedder.

(** [SentenceTransformer(EMBED_MODEL_NAME).encode]: the same model is used
    for the corpus and for the query.  It is taken as a total function. *)
Variable embed : string -> vec.

(** [build_kb_index(STG_PDF, KB_INDEX_PICKLE)].  The dimension read off
    the embeddings only sizes the index; the flat index is the list of the
    vectors added to it. *)
Definition build_kb_index : M kb_data :=
  e <- pdf_exists ;;
  if negb e then raise FileNotFoundError
  else
    text <- extract_text_from_pdf ;;
    let text := collapse_newlines text in
    passages <- lift (Chunker.chunk_text text 300 50) ;;
    let embeddings := map embed passages in
    lift (shape1 embeddings) ;;;
    let d := mkKb embeddings passages in
    log_io (IoWritePickle KB_INDEX_PICKLE) ;;;
    write_pickle d ;;;
    ret d.

(** [ensure_kb_index()] *)
Definition ensure_kb_index : M (option kb_data) :=
  fun w =>
    match kb_index_data w with
    | None =>
        (data <- load_kb_index ;;
         match data with
         | None =>
             e <- pdf_exists ;;
             if e then
               d <- build_kb_index ;;
               set_kb_index_data (Some d) ;;;
               ret (Some d)
             else ret None
         | Some d =>
             set_kb_index_data (Some d) ;;;
             ret (Some d)
         end) w
    | Some d => (Ret (Some d), w)
    end.

(** [rag_lookup_kb(query, top_k)] *)
Definition rag_lookup_kb (query : string) (top_k : Z) : M (list hit) :=
  kb <- ensure_kb_index ;;
  match kb with
  | None => ret []
  | Some kb_data =>
      let emb := embed query in
      DI <- lift (Faiss.search (kb_index kb_data) emb top_k) ;;
      let D := fst DI in
      let I := snd DI in
      lift (collect_hits I D I (kb_passages kb_data) [])
  end.

End WithEmbedder.

End Kb.

(* ================================================================= *)
(** ** Guideline dispatcher ([agents/kb_agent.py]) *)

Module KbAgent.

Import Kb.

Definition KB_MCP_URL : string := "http://127.0.0.1:8002/invoke_tool".

Definition kb_payload (query_text : string) : json :=
  JObj [("tool_name", JStr "search_medical_guidelines");
        ("arguments", JObj [("query", JStr query_text)])].

(** [_fetch_kb_via_mcp]; the Python [None] is [JNull]. *)
Definition _fetch_kb_via_mcp (query_text : string) : M json :=
  try_except
    (resp <- requests_post KB_MCP_URL (kb_payload query_text) ;;
     if status_code resp =? 200 then
       body <- lift (resp_json resp) ;;
       data <- lift (get body "result" (JObj [])) ;;
       if is_dict data && has_key data "guideline_snippets"
       then lift (get data "guideline_snippets" JNull)
       else ret JNull
     else ret JNull)
    (fun _ => ret JNull).

(** Text returned when neither path has a passage (the source prefixes it
    with a warning sign). *)
Definition NO_PASSAGES : string :=
  "No guideline passages found in KB (both MCP & local).".

(** Text returned when the formatting call raises (the source prefixes it
    with a cross mark and appends the exception text). *)
Definition FORMAT_ERROR : string := "Error formatting KB output".

(** The list comprehension over [local_hits]. *)
Definition local_passages (local_hits : list hit) : list string :=
  map (fun h => strip (passage h))
      (filter (fun h => negb (String.eqb (passage h) "")) local_hits).

(** Body of the [for passage in hits] loop (step 3), for one element. *)
Definition clean_passage (p : json) : outcome string :=
  match p with
  | JStr s =>
      if 1000 <? len s
      then Ret (strip (rsplit1_head (prefix 950 s) ++ "..."))
      else Ret (strip s)
  | JArr l =>
      (* a list has [len] and slices, but neither [rsplit] nor [strip] *)
      Raise AttributeError
  | JObj m =>
      if 1000 <? Z.of_nat (List.length m)
      then Raise TypeError            (* a dict cannot be sliced *)
      else Raise AttributeError
  | JNull | JBool _ | JNum _ => Raise TypeError   (* no [len] *)
  end.

Fixpoint clean_loop (hits : list json) (raw_passages : list string)
  : outcome (list string) :=
  match hits with
  | [] => Ret raw_passages
  | p :: hits' =>
      obind (clean_passage p) (fun s =>
      clean_loop hits' (raw_passages ++ [s]))
  end.

Definition clean_hits (hits : json) : outcome (list string) :=
  obind (iter hits) (fun l => clean_loop l []).

Definition prompt_of (language combined_text : string) : string :=
  let nl := String newline "" in
  nl ++ "Summarize the following medical guideline passages into clear, evidence-based bullet points." ++ nl
  ++ "Each bullet point should be concise and informative." ++ nl
  ++ "Focus on diagnosis, treatment, and follow-up recommendations." ++ nl
  ++ "Generate the summary in " ++ language ++ "." ++ nl
  ++ nl
  ++ "Passages:" ++ nl
  ++ combined_text ++ nl.

Section WithEmbedder.

Variable embed : string -> vec.

(** [search_medical_guidelines] of [mcp_server_kb.py]: the [result] body the
    guideline tool server answers with.  The text of the error snippet is
    abbreviated. *)
Definition search_medical_guidelines (query : string) (top_k : Z) : M json :=
  try_except
    (hits <- rag_lookup_kb embed query top_k ;;
     ret (JObj [("guideline_snippets", JArr (map (fun h => JStr (passage h)) hits));
                ("query_used", JStr query)]))
    (fun _ =>
     ret (JObj [("guideline_snippets", JArr [JStr "Error during search"]);
                ("query_used", JStr query)])).

(** Steps 1 and 2 of [kb_agent]: which hits go on to cleaning.  [None] is
    the early [return] of the no-passage message. *)
Definition select_hits (query_text : string) (top_k : Z) : M (option json) :=
  hits <- _fetch_kb_via_mcp query_text ;;
  if negb (truthy hits) then
    local_hits <- rag_lookup_kb embed query_text top_k ;;
    match local_hits with
    | [] => ret None
    | _ => ret (Some (JArr (map JStr (local_passages local_hits))))
    end
  else ret (Some hits).

(** [kb_agent(query_text, top_k, language)] *)
Definition kb_agent (query_text : string) (top_k : Z) (language : string)
  : M string :=
  sel <- select_hits query_text top_k ;;
  match sel with
  | None => ret NO_PASSAGES
  | Some hits =>
      raw_passages <- lift (clean_hits hits) ;;
      let combined_text := join (String newline (String newline "")) raw_passages in
      let prompt := prompt_of language combined_text in
      try_except
        (formatted_output <- chat_completion prompt ;;
         ret (strip formatted_output))
        (fun _ => ret FORMAT_ERROR)
  end.

End WithEmbedder.

End KbAgent.

(* ================================================================= *)
(** ** Vocabulary of the statements *)

Module Obs.

Import Fda.

(** What the next request will come back with. *)
Definition next_result (w : World) : http_result :=
  match http_tape w with [] => NetError | x :: _ => x end.

(** The world after one more request. *)
Definition after_request (r : request) (w : World) : World :=
  snd (send r w).

(** The request of the primary drug-safety path. *)
Definition mcp_request (name : string) : request :=
  mkRequest POST FDA_MCP_URL (mcp_payload name).

(** The primary path answers: status 200 and a body whose [result] is a
    dict (an absent [result] counts as the empty dict, as in the source). *)
Definition primary_result (w : World) : option (list (string * json)) :=
  match next_result w with
  | Reply c (Some body) =>
      if c =? 200 then
        match get body "result" (JObj []) with
        | Ret (JObj m) => Some m
        | _ => None
        end
      else None
  | _ => None
  end.

(** [m.get(k, default)] on the entries of a dict. *)
Definition field (m : list (string * json)) (k : string) (default : json)
  : json :=
  match assoc k m with Some v => v | None => default end.

(** The public lookup finds the drug: the record of its first hit. *)
Definition public_hit (name : string) (w : World) : option DrugSafetyRecord :=
  match openfda_attempt name w with
  | (Ret (Some r), _) => Some r
  | _ => None
  end.

(** The request of the primary guideline path. *)
Definition kb_request (query_text : string) : request :=
  mkRequest POST KbAgent.KB_MCP_URL (KbAgent.kb_payload query_text).

(** The primary guideline path answers: status 200 and a [result] dict
    that has the key [guideline_snippets]; the value under that key. *)
Definition kb_primary_result (w : World) : option json :=
  match next_result w with
  | Reply c (Some body) =>
      if c =? 200 then
        match get body "result" (JObj []) with
        | Ret (JObj m) => assoc "guideline_snippets" m
        | _ => None
        end
      else None
  | _ => None
  end.

(** What a record says about the name it was looked up for: it carries
    the name, and is a hit or the not-found sentinel. *)
Definition answers (name : string) (r : DrugSafetyRecord) : Prop :=
  drug_name r = name /\ (found r = true \/ r = not_found_record name).

(** The hit the retriever builds for a (distance, label) pair. *)
Definition hit_of (passages : list string) (x : Z * Z) : Kb.hit :=
  Kb.mkHit (nth (Z.to_nat (snd x)) passages "") (fst x).

(** [n] calls in a row. *)
Definition repeat_call {A} (n : nat) (m : M A) : M (list A) :=
  mapM (fun _ : unit => m) (repeat tt n).

(** The secondary guideline path: the local retriever, its passages put in
    the shape of the primary snippets; [None] when it has no hit. *)
Definition local_selection (embed : string -> vec) (query_text : string)
           (top_k : Z) : M (option json) :=
  bind (Kb.rag_lookup_kb embed query_text top_k) (fun local_hits =>
    match local_hits with
    | [] => ret None
    | _ => ret (Some (JArr (map JStr (KbAgent.local_passages local_hits))))
    end).

(** The names a batch looks up: trimmed, blanks dropped, order kept. *)
Definition clean_names (names : list string) : list string :=
  filter (fun s => negb (String.eqb s "")) (map strip names).

End Obs.

(* ================================================================= *)
(** ** Concrete worlds *)

Module Scenario.

Import FdaServer.

(** A process with nothing cached, no files, and the given replies to come. *)
Definition with_replies (tape : list http_result) : World :=
  mkWorld tape [] None PickleAbsent None [] [] [].

(** As [with_replies], with a persisted snapshot on disk. *)
Definition with_snapshot (d : kb_data) (tape : list http_result) : World :=
  mkWorld tape [] None (PickleHolds d) None [] [] [].

(** As [with_replies], with a snapshot file on disk that cannot be
    unpickled. *)
Definition with_unreadable_snapshot (tape : list http_result) : World :=
  mkWorld tape [] None PickleCorrupt None [] [] [].

(** Reply of the public source when nothing matches. *)
Definition openfda_no_match : http_result :=
  Reply 404 (Some (JObj [("error", JObj [("code", JStr "NOT_FOUND")])])).

(** Reply of the public source with one label. *)
Definition openfda_label (b g wn : string) : http_result :=
  Reply 200
    (Some (JObj [("results",
       JArr [JObj [("openfda", JObj [("brand_name", JArr [JStr b]);
                                     ("generic_name", JArr [JStr g])]);
                   ("warnings", JArr [JStr wn])]])])).

(** Reply of the public source with one label that names no brand. *)
Definition openfda_unbranded (g wn : string) : http_result :=
  Reply 200
    (Some (JObj [("meta", JObj [("last_updated", JStr "2024-01-01")]);
                 ("results",
       JArr [JObj [("openfda", JObj [("brand_name", JArr []);
                                     ("generic_name", JArr [JStr g])]);
                   ("warnings", JArr [JStr wn])]])])).

(** Reply of the tool server's [/invoke_tool] carrying a single-drug
    result: [{"success": True, "result": result.model_dump()}]. *)
Definition tool_reply (r : FdaSingleDrugOutput) : http_result :=
  Reply 200 (Some (JObj [("success", JBool true); ("result", dump_single r)])).

Definition unknown_result : FdaSingleDrugOutput :=
  mkSingle "unknownxyz123" "N/A" "N/A" "No data found." false.

Definition aspirin_result : FdaSingleDrugOutput :=
  mkSingle "aspirin" "Bayer" "ASPIRIN" "Reye syndrome." true.

(** A warning text of 1100 characters. *)
Definition long_warning : string := join "" (repeat "word " 220).

(** A one-dimensional encoder: the length of the text. *)
Definition length_embed (s : string) : vec := [Z.of_nat (String.length s)].

Definition small_kb : kb_data :=
  mkKb [[5]; [3]; [3]; [9]] ["aaaaa"; "bbb"; "ccc"; "ddddddddd"].

(** Reply of the guideline tool server carrying the given snippets. *)
Definition kb_reply (snippets : list string) (q : string) : http_result :=
  Reply 200
    (Some (JObj [("success", JBool true);
                 ("result", JObj [("guideline_snippets", JArr (map JStr snippets));
                                  ("query_used", JStr q)])])).

End Scenario.

(* ================================================================= *)
(** ** Further vocabulary *)

Module Obs2.

Import Fda Obs.

(** The two queries of the public lookup. *)
Definition brand_query (name : string) : request :=
  mkRequest GET OPENFDA_BASE (openfda_params "brand_name" name).

Definition generic_query (name : string) : request :=
  mkRequest GET OPENFDA_BASE (openfda_params "generic_name" name).

(** A query came back without raising and without a match: a status other
    than 200, or a JSON dict whose [results] are absent or falsy. *)
Definition no_match (res : http_result) : bool :=
  match res with
  | NetError => false
  | Reply c body =>
      if c =? 200 then
        match body with
        | Some b =>
            match get b "results" (JArr []) with
            | Ret data => negb (truthy data)
            | _ => false
            end
        | None => false
        end
      else true
  end.

(** No blank at either end. *)
Definition trimmed_chars (cs : list ascii) : Prop :=
  lstrip_chars cs = cs /\ lstrip_chars (rev cs) = rev cs.

Definition trimmed (s : string) : Prop := trimmed_chars (chars s).

(** What the cleaning step of [kb_agent] makes of a passage text. *)
Definition clean_text (s : string) : string :=
  if 1000 <? len s
  then strip (rsplit1_head (prefix 950 s) ++ "...")
  else strip s.

(** The body the guideline tool server sends for a result. *)
Definition kb_ok_reply (result : json) : http_result :=
  Reply 200 (Some (JObj [("success", JBool true); ("result", result)])).

(** Adjacent elements of a list. *)
Fixpoint adjacent {A} (l : list A) : list (A * A) :=
  match l with
  | x :: ((y :: _) as l') => (x, y) :: adjacent l'
  | _ => []
  end.

End Obs2.

(* ================================================================= *)
(** ** Language helper ([data_analyze.build_ai_prompt]) *)

Module Lang.

Definition SUPPORTED_LANGUAGES : list string :=
  ["English"; "Hindi"; "Marathi"; "Tamil"; "Telugu"; "Kannada"].

(** [language in SUPPORTED_LANGUAGES] *)
Definition supported (language : string) : bool :=
  existsb (String.eqb language) SUPPORTED_LANGUAGES.

(** [build_ai_prompt(base_text, language)] *)
Definition build_ai_prompt (base_text language : string) : string :=
  let language := if supported language then language else "English" in
  base_text ++ String Kb.newline "" ++ "Please generate the output in "
            ++ language ++ ".".

End Lang.

(* ================================================================= *)
(** ** Drug extraction ([agents/treatment_planner_agent.py]) *)

Module Planner.

(** [c.lower()] for a code point below 256. *)
Definition lower_char (c : ascii) : ascii :=
  let n := nat_of_ascii c in
  if (((65 <=? n) && (n <=? 90))
      || ((192 <=? n) && (n <=? 222) && negb (n =? 215)))%nat
  then ascii_of_nat (n + 32)
  else c.

(** [s.lower()] *)
Definition lower (s : string) : string := str (map lower_char (chars s)).

Definition comma : ascii := ","%char.

Definition is_sep (c : ascii) : bool :=
  Ascii.eqb c comma || Ascii.eqb c Kb.newline.

(** [re.split(r"[,\n]+", s)]: the pieces between the maximal runs of commas
    and newlines, the empty pieces at either end included.  [cur] is the
    piece being read, [after_sep] tells that the run of separators before it
    is not over. *)
Fixpoint re_split_chars (cs cur : list ascii) (after_sep : bool)
  : list (list ascii) :=
  match cs with
  | [] => [cur]
  | c :: cs' =>
      if is_sep c
      then if after_sep
           then re_split_chars cs' [] true
           else cur :: re_split_chars cs' [] true
      else re_split_chars cs' (cur ++ [c]) false
  end.

Definition re_split (s : string) : list string :=
  map str (re_split_chars (chars s) [] false).

Definition extract_prompt (text : string) : string :=
  let nl := String Kb.newline "" in
  nl ++ "You are a medical NLP assistant." ++ nl
  ++ "Extract ONLY medicine or drug names mentioned in the following text." ++ nl
  ++ "Ignore dosage, form (mg, tablet, syrup, injection), and instructions." ++ nl
  ++ "Return a comma-separated list of drug names in ENGLISH only." ++ nl
  ++ nl
  ++ "Text:" ++ nl
  ++ text ++ nl.

(** The list comprehension over the pieces of the reply. *)
Definition drugs_of (output : string) : list string :=
  map (fun d => lower (strip d))
      (filter (fun d => negb (String.eqb (strip d) "")) (re_split output)).

(** [extract_drugs_with_groq(text)] *)
Definition extract_drugs_with_groq (text : string) : M (list string) :=
  try_except
    (reply <- chat_completion (extract_prompt text) ;;
     let output := strip reply in
     ret (drugs_of output))
    (fun _ => ret []).

End Planner.

(* ================================================================= *)
(** ** The [/invoke_tool] endpoint of the FDA tool server
       ([mcp_server_fda.invoke_tool]) *)

Module FdaEndpoint.

Import Fda FdaServer.

(** [check_drug_safety(drug_name)] on the raw argument value: a falsy value
    of any type is an invalid name, a truthy value that is not a string has
    no [strip]. *)
Definition check_drug_safety_any (v : json) : M FdaSingleDrugOutput :=
  match v with
  | JStr s => check_drug_safety s
  | _ => if truthy v then raise AttributeError else check_drug_safety ""
  end.

(** [len(v)] is defined. *)
Definition has_len (v : json) : bool :=
  match v with
  | JStr _ | JArr _ | JObj _ => true
  | JNull | JBool _ | JNum _ => false
  end.

(** [any(d.strip() for d in l)]: stops at the first non-blank string. *)
Fixpoint any_strip (l : list json) : outcome bool :=
  match l with
  | [] => Ret false
  | JStr s :: l' => if String.eqb (strip s) "" then any_strip l' else Ret true
  | _ :: _ => Raise AttributeError
  end.

(** The loop of [_call_openfda_api_batch] over raw elements. *)
Fixpoint batch_loop_any (lookup : string -> M DrugSafetyRecord)
         (medicine_list : list json) (results : list DrugSafetyRecord)
  : M (list DrugSafetyRecord) :=
  match medicine_list with
  | [] => ret results
  | JStr drug :: rest =>
      let clean_name := strip drug in
      if String.eqb clean_name ""
      then batch_loop_any lookup rest results
      else
        result <- lookup clean_name ;;
        batch_loop_any lookup rest (results ++ [result])
  | _ :: _ => raise AttributeError
  end.

(** [check_multiple_drugs(drug_list)] on the raw argument value. *)
Definition check_multiple_drugs_any (v : json) : M FdaBatchOutput :=
  if negb (has_len v) then raise TypeError
  else if negb (truthy v) then ret (mkBatch "error" 0 [])
  else
    l <- lift (iter v) ;;
    nonblank <- lift (any_strip l) ;;
    if negb nonblank then ret (mkBatch "error" 0 [])
    else
      results <- batch_loop_any _call_openfda_api l [] ;;
      let batch_result := report_of results in
      rs <- lift (make_results (Fda.results batch_result)) ;;
      ret (mkBatch (status batch_result) (Z.of_nat (List.length rs)) rs).

(** [result.model_dump()] of a batch output. *)
Definition dump_batch (b : FdaBatchOutput) : json :=
  JObj [("status", JStr (out_status b));
        ("count", JNum (out_count b));
        ("results", JArr (map dump_single (out_results b)))].

(** The body FastAPI sends for a returned dict. *)
Definition ok_reply (result : json) : http_result :=
  Reply 200 (Some (JObj [("success", JBool true); ("result", result)])).

(** The reply for [HTTPException(status_code=500, detail=str(e))]; the text
    of the detail is not modelled. *)
Definition error_reply (e : exn) : http_result :=
  Reply 500 (Some (JObj [("detail", JStr "error")])).

(** [invoke_tool(invocation)], as the HTTP reply the client sees.  The
    exception for an unknown tool is raised inside the [try] and so caught by
    its [except Exception]. *)
Definition invoke_tool (tool_name : string) (arguments : list (string * json))
  : M http_result :=
  try_except
    (if String.eqb tool_name "check_drug_safety" then
       result <- check_drug_safety_any (Obs.field arguments "drug_name" (JStr "")) ;;
       ret (ok_reply (dump_single result))
     else if String.eqb tool_name "check_multiple_drugs" then
       result <- check_multiple_drugs_any (Obs.field arguments "drug_list" (JArr [])) ;;
       ret (ok_reply (dump_batch result))
     else raise (StatusError 400))
    (fun e => ret (error_reply e)).

End FdaEndpoint.

(* ================================================================= *)
(** ** Stage wrapper of the crew ([crew_orchestrator.safe_task]) *)

Module Crew.

(** Text returned for a failed task (the source prefixes a cross mark and
    appends the exception text). *)
Definition TASK_FAILED (task_name : string) : string :=
  "Task failed: " ++ task_name.

(** [safe_task(callback, task_name)] *)
Definition safe_task (callback : M string) (task_name : string) : M string :=
  try_except callback (fun _ => ret (TASK_FAILED task_name)).

(** The KB stage of [run_medical_crew]:
    [safe_task(lambda _: kb_logic(reasoning_output, language=language), "KB Lookup")]. *)
Definition kb_lookup_stage (embed : string -> vec)
           (reasoning_output language : string) : M string :=
  safe_task (KbAgent.kb_agent embed reasoning_output 4 language) "KB Lookup".

End Crew.

(* ================================================================= *)
(** * Properties *)

(** ** Strings and lists *)

Module PyFacts.

Import Chunker.

Lemma chars_str (l : list ascii) : chars (str l) = l.
Proof. apply list_ascii_of_string_of_list_ascii. Qed.

Lemma str_chars (s : string) : str (chars s) = s.
Proof. apply string_of_list_ascii_of_string. Qed.

Lemma length_str (l : list ascii) : String.length (str l) = List.length l.
Proof. induction l as [|c l IH]; simpl; [reflexivity | now rewrite IH]. Qed.

Lemma length_chars (s : string) : List.length (chars s) = String.length s.
Proof. rewrite <- (str_chars s) at 2. now rewrite length_str. Qed.

Lemma chars_app (a b : string) : chars (a ++ b) = (chars a ++ chars b)%list.
Proof. induction a as [|c a IH]; simpl; [reflexivity | now rewrite IH]. Qed.

Lemma str_inj (a b : list ascii) : str a = str b -> a = b.
Proof. intro H. rewrite <- (chars_str a), <- (chars_str b). now rewrite H. Qed.

(** *** strip *)

Lemma lstrip_length (cs : list ascii) :
  (List.length (lstrip_chars cs) <= List.length cs)%nat.
Proof.
  induction cs as [|c cs IH]; simpl; [lia|].
  destruct (is_space c); simpl; lia.
Qed.

Lemma strip_chars_length (cs : list ascii) :
  (List.length (strip_chars cs) <= List.length cs)%nat.
Proof.
  unfold strip_chars. rewrite length_rev.
  etransitivity; [apply lstrip_length|].
  rewrite length_rev. apply lstrip_length.
Qed.

Lemma lstrip_app_solid (cs tail : list ascii) (c : ascii) :
  is_space c = false ->
  lstrip_chars (cs ++ c :: tail) = (lstrip_chars cs ++ c :: tail)%list.
Proof.
  intro Hc. induction cs as [|x cs IH]; simpl.
  - now rewrite Hc.
  - destruct (is_space x); [exact IH | reflexivity].
Qed.

(** Stripping a text that ends in a non-blank only strips its front. *)
Lemma strip_chars_solid_end (cs : list ascii) (c : ascii) :
  is_space c = false ->
  strip_chars (cs ++ [c]) = (lstrip_chars cs ++ [c])%list.
Proof.
  intro Hc. unfold strip_chars.
  rewrite (lstrip_app_solid cs [] c Hc).
  rewrite rev_app_distr. simpl. rewrite Hc.
  change (c :: rev (lstrip_chars cs)) with (rev [c] ++ rev (lstrip_chars cs))%list.
  rewrite <- rev_app_distr. apply rev_involutive.
Qed.

(** *** rsplit *)

Lemma after_first_space_some (r r' : list ascii) :
  after_first_space r = Some r' ->
  exists pre, r = (pre ++ space :: r')%list /\ ~ In space pre.
Proof.
  revert r'. induction r as [|c r IH]; simpl; intros r' H; [discriminate|].
  destruct (Ascii.eqb c space) eqn:E.
  - apply Ascii.eqb_eq in E. subst c. inversion H; subst.
    exists []. split; [reflexivity | intros []].
  - destruct (IH _ H) as [pre [-> Hpre]].
    exists (c :: pre). split; [reflexivity|].
    intros [Hc | Hin]; [|contradiction].
    subst c. now rewrite Ascii.eqb_refl in E.
Qed.

Lemma after_first_space_none (r : list ascii) :
  after_first_space r = None -> ~ In space r.
Proof.
  induction r as [|c r IH]; simpl; intros H; [intros []|].
  destruct (Ascii.eqb c space) eqn:E; [discriminate|].
  intros [Hc | Hin]; [|now apply IH].
  subst c. now rewrite Ascii.eqb_refl in E.
Qed.

(** [rsplit(" ", 1)[0]] cuts at the last blank, and keeps everything when
    there is none. *)
Lemma rsplit1_head_chars_spec (cs : list ascii) :
  (exists tail, cs = (rsplit1_head_chars cs ++ space :: tail)%list
                /\ ~ In space tail)
  \/ (~ In space cs /\ rsplit1_head_chars cs = cs).
Proof.
  unfold rsplit1_head_chars.
  destruct (after_first_space (rev cs)) as [r'|] eqn:E.
  - left. destruct (after_first_space_some _ _ E) as [pre [Hrev Hpre]].
    exists (rev pre). split.
    + rewrite <- (rev_involutive cs), Hrev, rev_app_distr. simpl.
      now rewrite <- app_assoc.
    + intro Hin. apply Hpre. now apply in_rev.
  - right. split; [|reflexivity].
    intro Hin. apply (after_first_space_none _ E). now apply -> in_rev.
Qed.

Lemma rsplit1_head_chars_length (cs : list ascii) :
  (List.length (rsplit1_head_chars cs) <= List.length cs)%nat.
Proof.
  destruct (rsplit1_head_chars_spec cs) as [[tail [H _]] | [_ H]].
  - rewrite H at 2. rewrite length_app. lia.
  - rewrite H. lia.
Qed.

(** *** split and join *)

Lemma split_chars_solid (t rest cur : list ascii) :
  solid t ->
  split_chars (t ++ rest) cur = split_chars rest (cur ++ t).
Proof.
  revert cur. induction t as [|c t IH]; intros cur Ht; simpl.
  - now rewrite app_nil_r.
  - unfold solid in Ht. simpl in Ht. apply andb_true_iff in Ht as [Hc Ht].
    apply negb_true_iff in Hc. rewrite Hc.
    rewrite IH by exact Ht. now rewrite <- app_assoc.
Qed.

Lemma split_chars_tokens (cs cur : list ascii) :
  solid cur -> Forall token_chars (split_chars cs cur).
Proof.
  revert cur. induction cs as [|c cs IH]; intros cur Hcur; simpl.
  - destruct cur; constructor; [|constructor].
    split; [discriminate | exact Hcur].
  - destruct (is_space c) eqn:E.
    + destruct cur.
      * apply IH. reflexivity.
      * constructor; [split; [discriminate | exact Hcur]|].
        apply IH. reflexivity.
    + apply IH. unfold solid. rewrite forallb_app, Hcur. simpl.
      now rewrite E.
Qed.

Lemma is_token_chars (t : string) : is_token t = true <-> token_chars (chars t).
Proof.
  unfold is_token, token_chars, solid.
  destruct (chars t) as [|c cs]; split; intro H.
  - discriminate.
  - now destruct H.
  - split; [discriminate | exact H].
  - apply H.
Qed.

Lemma split_tokens (text : string) :
  Forall (fun t => is_token t = true) (split text).
Proof.
  unfold split. apply Forall_map.
  eapply Forall_impl; [|apply (split_chars_tokens (chars text) []); reflexivity].
  intros t Ht. apply is_token_chars. now rewrite chars_str.
Qed.

Lemma split_join (ts : list string) :
  Forall (fun t => is_token t = true) ts ->
  split (join " " ts) = ts.
Proof.
  unfold split. induction 1 as [|t ts Ht Hts IH]; [reflexivity|].
  apply is_token_chars in Ht. destruct Ht as [Hne Hsolid].
  destruct ts as [|t' ts].
  - cbn [join].
    replace (chars t) with (chars t ++ [])%list by apply app_nil_r.
    rewrite split_chars_solid by exact Hsolid. cbn [split_chars app].
    destruct (chars t) eqn:E; [contradiction|].
    cbn [map]. now rewrite <- E, str_chars.
  - change (join " " (t :: t' :: ts)) with (t ++ " " ++ join " " (t' :: ts)).
    rewrite !chars_app, split_chars_solid by exact Hsolid.
    change (chars " ") with [space].
    cbn [split_chars app]. change (is_space space) with true. cbv iota.
    destruct (chars t) eqn:E; [contradiction|].
    cbn [map]. rewrite <- E, str_chars. f_equal. exact IH.
Qed.

(** *** slices *)

Lemma slice_window {A} (l : list A) (i w : Z) :
  0 <= i -> 0 <= w ->
  slice l i (i + w) = firstn (Z.to_nat w) (skipn (Z.to_nat i) l).
Proof.
  intros Hi Hw. unfold slice, clamp.
  destruct (i <? 0) eqn:E1; [lia|].
  destruct (i + w <? 0) eqn:E2; [lia|].
  set (n := Z.of_nat (List.length l)).
  destruct (Z_le_gt_dec n i) as [Hge | Hlt].
  - rewrite !skipn_all2 by lia. now rewrite !firstn_nil.
  - replace (Z.min i n) with i by lia.
    destruct (Z_le_gt_dec (i + w) n) as [Hle | Hgt].
    + f_equal. lia.
    + replace (Z.min (i + w) n) with n by lia.
      rewrite !firstn_all2; try reflexivity; rewrite length_skipn; lia.
Qed.

Lemma in_firstn {A} (k : nat) (l : list A) (x : A) :
  In x (firstn k l) -> In x l.
Proof.
  intro H. rewrite <- (firstn_skipn k l). apply in_or_app. now left.
Qed.

Lemma in_skipn {A} (k : nat) (l : list A) (x : A) :
  In x (skipn k l) -> In x l.
Proof.
  intro H. rewrite <- (firstn_skipn k l). apply in_or_app. now right.
Qed.

End PyFacts.

(* ================================================================= *)
(** ** Chunker *)

Module ChunkerFacts.

Import Chunker PyFacts.

Section Loop.

Variable tokens : list string.
Variables chunk_size overlap : Z.

Local Abbreviation n := (Z.of_nat (List.length tokens)).
Local Abbreviation step := (chunk_size - overlap).

(** With a positive step the loop returns the joined windows, for any fuel
    above the distance still to go. *)
Lemma chunk_loop_windows (fuel : nat) (i : Z) (chunks : list string) :
  1 <= step -> Z.max (n - i) 0 < Z.of_nat fuel ->
  chunk_loop fuel tokens chunk_size overlap i chunks
  = Some (chunks ++ map (join " ") (windows fuel tokens chunk_size overlap i))%list.
Proof.
  intros Hstep. revert i chunks.
  induction fuel as [|fuel IH]; intros i chunks Hfuel; [lia|].
  cbn [chunk_loop windows].
  destruct (i <? n) eqn:E.
  - rewrite IH by lia.
    cbn [map]. now rewrite <- app_assoc.
  - cbn [map]. now rewrite app_nil_r.
Qed.

(** The windows do not depend on the fuel once it is enough. *)
Lemma windows_stable (f1 f2 : nat) (i : Z) :
  1 <= step -> Z.max (n - i) 0 < Z.of_nat f1 -> Z.max (n - i) 0 < Z.of_nat f2 ->
  windows f1 tokens chunk_size overlap i = windows f2 tokens chunk_size overlap i.
Proof.
  intros Hstep. revert f2 i.
  induction f1 as [|f1 IH]; intros f2 i H1 H2; [lia|].
  destruct f2 as [|f2]; [lia|].
  cbn [windows].
  destruct (i <? n) eqn:E; [|reflexivity].
  f_equal. apply IH; lia.
Qed.

Lemma ceil_div_step (a : Z) :
  1 <= step -> 0 < a ->
  Chunker.ceil_div (Z.max (a - step) 0) step + 1 = Chunker.ceil_div a step.
Proof.
  intros Hstep Ha. unfold ceil_div.
  destruct (Z_le_gt_dec a step) as [Hle | Hgt].
  - replace (Z.max (a - step) 0) with 0 by lia.
    rewrite Z.div_small by lia.
    replace (a + step - 1) with ((a - 1) + 1 * step) by lia.
    rewrite Z.div_add by lia. rewrite Z.div_small by lia. reflexivity.
  - replace (Z.max (a - step) 0) with (a - step) by lia.
    replace (a + step - 1) with ((a - step + step - 1) + 1 * step) by lia.
    rewrite Z.div_add by lia. reflexivity.
Qed.

(** Number of windows: one per step needed to pass the last token. *)
Lemma windows_count (fuel : nat) (i : Z) :
  1 <= step -> Z.max (n - i) 0 < Z.of_nat fuel ->
  Z.of_nat (List.length (windows fuel tokens chunk_size overlap i))
  = ceil_div (Z.max (n - i) 0) step.
Proof.
  intros Hstep. revert i.
  induction fuel as [|fuel IH]; intros i Hfuel; [lia|].
  cbn [windows].
  destruct (i <? n) eqn:E.
  - cbn [List.length]. rewrite Nat2Z.inj_succ.
    rewrite IH by lia.
    replace (n - (i + (chunk_size - overlap))) with ((n - i) - step)
      by lia.
    replace (Z.max (n - i) 0) with (n - i) by lia.
    rewrite <- (ceil_div_step (n - i)) by lia. lia.
  - cbn [List.length]. replace (Z.max (n - i) 0) with 0 by lia.
    unfold ceil_div. rewrite Z.div_small by lia. reflexivity.
Qed.

(** Dropping the overlap of every window from [i] on leaves the tokens from
    [i + overlap] on. *)
Lemma windows_overlap (fuel : nat) (i : Z) :
  0 <= i -> 0 <= overlap < chunk_size -> Z.max (n - i) 0 < Z.of_nat fuel ->
  List.concat (map (skipn (Z.to_nat overlap))
                   (windows fuel tokens chunk_size overlap i))
  = skipn (Z.to_nat (i + overlap)) tokens.
Proof.
  intros Hi Ho. revert i Hi.
  induction fuel as [|fuel IH]; intros i Hi Hfuel; [lia|].
  cbn [windows].
  destruct (i <? n) eqn:E.
  - cbn [map List.concat].
    rewrite IH by lia.
    rewrite slice_window by lia.
    rewrite skipn_firstn_comm, skipn_skipn.
    replace (Z.to_nat overlap + Z.to_nat i)%nat with (Z.to_nat (i + overlap)) by lia.
    replace (Z.to_nat (i + (chunk_size - overlap) + overlap))
      with (Z.to_nat (chunk_size - overlap) + Z.to_nat (i + overlap))%nat by lia.
    replace (Z.to_nat chunk_size - Z.to_nat overlap)%nat
      with (Z.to_nat (chunk_size - overlap)) by lia.
    rewrite <- skipn_skipn. apply firstn_skipn.
  - cbn [map List.concat]. symmetry. apply skipn_all2. lia.
Qed.

(** Every window is a list of tokens when the input is. *)
Lemma windows_tokens (fuel : nat) (i : Z) :
  Forall (fun t => is_token t = true) tokens ->
  Forall (Forall (fun t => is_token t = true))
         (windows fuel tokens chunk_size overlap i).
Proof.
  intros Htok. revert i.
  induction fuel as [|fuel IH]; intros i; cbn [windows]; [constructor|].
  destruct (i <? _); constructor; [|apply IH].
  unfold slice. apply Forall_forall. intros x Hx.
  apply in_firstn, in_skipn in Hx.
  revert x Hx. now apply Forall_forall.
Qed.

(** With a step that is zero or negative the loop test stays true. *)
Lemma chunk_loop_stuck (fuel : nat) (i : Z) (chunks : list string) :
  step <= 0 -> i < n ->
  chunk_loop fuel tokens chunk_size overlap i chunks = None.
Proof.
  intros Hstep. revert i chunks.
  induction fuel as [|fuel IH]; intros i chunks Hi; [reflexivity|].
  cbn [chunk_loop].
  destruct (i <? n) eqn:E; [|lia].
  apply IH. lia.
Qed.

End Loop.

Lemma Ret_inj {A} (a b : A) : Ret a = Ret b -> a = b.
Proof. congruence. Qed.

(** Re-tokenising the joined windows gives the windows back. *)
Lemma split_joined (o : nat) (wins : list (list string)) :
  Forall (Forall (fun t => is_token t = true)) wins ->
  map (fun c => skipn o (split c)) (map (join " ") wins) = map (skipn o) wins.
Proof.
  induction 1 as [|x wins Hx Hw IH]; [reflexivity|].
  cbn [map]. rewrite split_join by exact Hx. now rewrite IH.
Qed.

(** What [chunk_text] returns for a positive step. *)
Lemma chunk_text_returns (text : string) (w o : Z) :
  1 <= w - o ->
  let tokens := split text in
  let wins := windows (S (List.length tokens)) tokens w o 0 in
  chunk_text text w o = Ret (map (join " ") wins)
  /\ forall fuel, (List.length tokens < fuel)%nat ->
       chunk_loop fuel tokens w o 0 [] = Some (map (join " ") wins).
Proof.
  intros Hstep tokens wins. split.
  - unfold chunk_text. fold tokens.
    rewrite chunk_loop_windows by lia. reflexivity.
  - intros fuel Hfuel. rewrite chunk_loop_windows by lia.
    cbn [app]. do 2 f_equal. apply windows_stable; lia.
Qed.

(** [Diverge] is only reported for a loop that no fuel completes. *)
Lemma chunk_text_diverges (text : string) (w o : Z) :
  chunk_text text w o = Diverge ->
  forall fuel, chunk_loop fuel (split text) w o 0 [] = None.
Proof.
  intros H fuel.
  destruct (Z_le_gt_dec 1 (w - o)) as [Hstep | Hstep].
  - destruct (chunk_text_returns text w o Hstep) as [Hret _].
    rewrite Hret in H. discriminate H.
  - destruct (split text) as [|t ts] eqn:E.
    + unfold chunk_text in H. rewrite E in H. cbn in H. discriminate H.
    + apply chunk_loop_stuck; [lia | cbn [List.length]; lia].
Qed.

(** What the stated count formula misses: the loop also emits the windows
    that start inside the last [o] tokens. *)
Lemma chunk_text_count (text : string) (w o : Z) (chunks : list string) :
  1 <= w - o ->
  chunk_text text w o = Ret chunks ->
  Z.of_nat (List.length chunks)
  = ceil_div (Z.of_nat (List.length (split text))) (w - o).
Proof.
  intros Hstep H.
  destruct (chunk_text_returns text w o Hstep) as [Hret _].
  rewrite Hret in H. apply Ret_inj in H. subst chunks.
  rewrite length_map, windows_count by lia.
  f_equal. lia.
Qed.

Lemma chunk_text_reconstructs (text : string) (w o : Z) (chunks : list string) :
  0 <= o < w ->
  chunk_text text w o = Ret chunks ->
  remove_overlap o chunks = split text.
Proof.
  intros Ho H.
  destruct (chunk_text_returns text w o) as [Hret _]; [lia|].
  rewrite Hret in H. apply Ret_inj in H. subst chunks. clear Hret.
  pose proof (split_tokens text) as Htok.
  pose proof (windows_tokens (split text) w o (S (List.length (split text))) 0 Htok) as Hw.
  pose proof (windows_overlap (split text) w o (List.length (split text)) (0 + (w - o))) as Hov.
  revert Hw. cbn [windows]. 
  destruct (0 <? Z.of_nat (List.length (split text))) eqn:E.
  - apply Z.ltb_lt in E.
    intros Hw. inversion Hw as [|x l Hx Hl]; subst.
    cbn [map remove_overlap].
    rewrite split_join by exact Hx.
    rewrite split_joined by exact Hl.
    rewrite Hov by lia.
    rewrite slice_window by lia.
    replace (Z.to_nat (0 + (w - o) + o)) with (Z.to_nat w) by lia.
    cbn [Z.to_nat skipn]. apply firstn_skipn.
  - intros _. cbn [map remove_overlap].
    apply Z.ltb_ge in E.
    destruct (split text); [reflexivity | cbn [List.length] in E; lia].
Qed.

End ChunkerFacts.

(* ================================================================= *)
(** ** Claims about the chunker *)

Import Chunker.

(** C3 (as stated) fails: on the three tokens [a b c] with window 2 and
    overlap 1 the chunker returns three chunks, the last one made of the
    overlap alone, where the stated formula
    [ceil(max(n - o, 0) / (w - o))] gives two. *)
Lemma chunk_count_formula_counterexample :
  chunk_text "a b c" 2 1 = Ret ["a b"; "b c"; "c"]
  /\ Z.of_nat (List.length (split "a b c")) = 3
  /\ spec_chunk_count 3 2 1 = 2
  /\ Z.of_nat (List.length ["a b"; "b c"; "c"]) <> spec_chunk_count 3 2 1.
Proof. repeat split; vm_compute; congruence. Qed.

(** C3 (amended): for window [w] and overlap [o] with [0 <= o < w], the
    chunker returns exactly [ceil(n / (w - o))] chunks for a text of [n]
    tokens, and re-tokenising the chunks, keeping the first whole and
    dropping the first [o] tokens of every later one, gives back the token
    sequence of the text. *)
Theorem chunk_text_count_and_reconstruction (text : string) (w o : Z) :
  0 <= o < w ->
  exists chunks,
    chunk_text text w o = Ret chunks
    /\ Z.of_nat (List.length chunks)
       = ceil_div (Z.of_nat (List.length (split text))) (w - o)
    /\ remove_overlap o chunks = split text.
Proof.
  intros Ho.
  destruct (ChunkerFacts.chunk_text_returns text w o) as [Hret _]; [lia|].
  eexists. split; [exact Hret|]. split.
  - apply (ChunkerFacts.chunk_text_count text w o); [lia | exact Hret].
  - apply (ChunkerFacts.chunk_text_reconstructs text w o); [exact Ho | exact Hret].
Qed.

Lemma chunk_text_count_and_reconstruction_witness :
  0 <= 1 < 2
  /\ exists chunks,
       chunk_text "a b c" 2 1 = Ret chunks
       /\ Z.of_nat (List.length chunks)
          = ceil_div (Z.of_nat (List.length (split "a b c"))) (2 - 1)
       /\ remove_overlap 1 chunks = split "a b c".
Proof.
  split; [lia | apply (chunk_text_count_and_reconstruction "a b c" 2 1); lia].
Defined.

(** C4 (as stated) fails: with overlap equal to the window on a one-token
    text the call neither raises a validation error nor returns; the loop
    test stays true for every amount of fuel. *)
Lemma chunk_text_no_validation_counterexample :
  chunk_text "a" 1 1 = Diverge
  /\ chunk_text "a" 1 1 <> Raise ValidationError
  /\ forall fuel, chunk_loop fuel (split "a") 1 1 0 [] = None.
Proof.
  split; [reflexivity|]. split; [discriminate|].
  intro fuel. apply ChunkerFacts.chunk_loop_stuck; [lia|].
  vm_compute. reflexivity.
Qed.

(** C4 (amended): [chunk_text] validates nothing and raises nothing.  On a
    text with at least one token it returns exactly when [o < w]; for
    [o >= w] the window start never advances and the loop never exits. *)
Theorem chunk_text_terminates_iff (text : string) (w o : Z) :
  split text <> [] ->
  (o < w ->
   exists chunks,
     chunk_text text w o = Ret chunks
     /\ forall fuel, (List.length (split text) < fuel)%nat ->
          chunk_loop fuel (split text) w o 0 [] = Some chunks)
  /\ (w <= o ->
      chunk_text text w o = Diverge
      /\ forall fuel, chunk_loop fuel (split text) w o 0 [] = None)
  /\ (forall e, chunk_text text w o <> Raise e).
Proof.
  intros Hne. split; [|split].
  - intros Hlt.
    destruct (ChunkerFacts.chunk_text_returns text w o) as [Hret Hfuel]; [lia|].
    eexists. split; [exact Hret | exact Hfuel].
  - intros Hge.
    assert (Hstuck : forall fuel, chunk_loop fuel (split text) w o 0 [] = None).
    { intro fuel. apply ChunkerFacts.chunk_loop_stuck; [lia|].
      destruct (split text); [contradiction | cbn [List.length]; lia]. }
    split; [|exact Hstuck].
    unfold chunk_text. now rewrite Hstuck.
  - intros e. unfold chunk_text.
    destruct (chunk_loop _ _ _ _ _ _); discriminate.
Qed.

Lemma chunk_text_terminates_iff_witness :
  split "a" <> []
  /\ chunk_text "a" 1 1 = Diverge
  /\ exists chunks, chunk_text "a" 2 1 = Ret chunks.
Proof.
  assert (Hne : split "a" <> []) by (vm_compute; discriminate).
  split; [exact Hne|]. split.
  - destruct (chunk_text_terminates_iff "a" 1 1 Hne) as [_ [H _]].
    apply H. lia.
  - destruct (chunk_text_terminates_iff "a" 2 1 Hne) as [H _].
    destruct H as [chunks [H _]]; [lia|].
    exists chunks. exact H.
Defined.

(* ================================================================= *)
(** ** Drug-safety lookup *)

Module FdaFacts.

Import Fda Obs.

#[local] Arguments get : simpl never.
#[local] Arguments index0 : simpl never.
#[local] Arguments truthy : simpl never.

Lemma get_halts (d : json) (k : string) (v : json) : get d k v <> Diverge.
Proof. unfold get. destruct d; discriminate. Qed.

Lemma index0_halts (v : json) : index0 v <> Diverge.
Proof. unfold index0. destruct v as [| | |[]|[]|]; discriminate. Qed.

Ltac no_diverge :=
  match goal with
  | H : get _ _ _ = Diverge |- _ => exfalso; exact (get_halts _ _ _ H)
  | H : index0 _ = Diverge |- _ => exfalso; exact (index0_halts _ H)
  end.

(** Case analysis of one computation step. *)
Ltac step_outcome :=
  match goal with
  | |- context [match ?x with _ => _ end] =>
      match type of x with
      | outcome _ => destruct x eqn:?
      | option _ => destruct x eqn:?
      | bool => destruct x eqn:?
      | http_result => destruct x eqn:?
      | list _ => destruct x eqn:?
      | json => destruct x eqn:?
      | prod _ _ => destruct x eqn:?
      end
  end.

Ltac run_world :=
  unfold bind, try_except, lift, ret, raise, requests_post, requests_get,
    receive, send, resp_json in *; cbn in *.

(** The primary path answered: its record is returned after the single
    request to the tool server. *)
Lemma get_openfda_warnings_primary (name : string) (w : World)
      (m : list (string * json)) :
  primary_result w = Some m ->
  get_openfda_warnings name w
  = (Ret (mkRecord name
                   (field m "brand" (JStr "N/A"))
                   (field m "generic" (JStr "N/A"))
                   (field m "warnings" (JStr "No warnings available."))
                   true),
     after_request (mcp_request name) w).
Proof.
  unfold primary_result, next_result, get_openfda_warnings, mcp_attempt,
    after_request, mcp_request, field.
  intros H. run_world.
  destruct (http_tape w) as [|[|c [body|]] tape]; cbn in *; try discriminate.
  destruct (c =? 200) eqn:Ec; [|discriminate]. cbn in *.
  destruct (get body "result" (JObj [])) as [[]| |] eqn:Eg; try discriminate.
  injection H as ->. cbn. reflexivity.
Qed.

(** The primary path did not answer: the call is the public lookup, run
    after the request to the tool server. *)
Lemma get_openfda_warnings_fallback (name : string) (w : World) :
  primary_result w = None ->
  get_openfda_warnings name w
  = public_lookup name (after_request (mcp_request name) w).
Proof.
  unfold primary_result, next_result, get_openfda_warnings, mcp_attempt,
    after_request, mcp_request.
  intros H. run_world.
  destruct (http_tape w) as [|[|c [body|]] tape]; cbn in *; try reflexivity.
  - destruct (c =? 200) eqn:Ec; cbn in *; [|reflexivity].
    destruct (get body "result" (JObj [])) as [[]| |] eqn:Eg;
      cbn; try reflexivity; try discriminate H.
    no_diverge.
  - destruct (c =? 200); reflexivity.
Qed.

(** The loop over the two search keys returns or raises. *)
Lemma openfda_loop_halts (keys : list string) (name : string) (w : World) :
  fst (openfda_loop keys name w) <> Diverge.
Proof.
  revert w. induction keys as [|key keys IH]; intros w; [discriminate|].
  cbn [openfda_loop]. run_world.
  destruct (http_tape w) as [|[|c body] tape]; cbn; try discriminate.
  destruct (c =? 200); [|apply IH].
  destruct body as [body|]; cbn; [|discriminate].
  destruct (get body "results" (JArr [])) as [data| |] eqn:Eg; cbn;
    try discriminate; try no_diverge.
  destruct (truthy data); [|apply IH].
  repeat (step_outcome; cbn; try discriminate; try no_diverge).
Qed.

(** A record from the loop is a hit for the queried name. *)
Lemma openfda_loop_hit (keys : list string) (name : string) (w w' : World)
      (r : DrugSafetyRecord) :
  openfda_loop keys name w = (Ret (Some r), w') ->
  drug_name r = name /\ found r = true.
Proof.
  revert w. induction keys as [|key keys IH]; intros w; [discriminate|].
  cbn [openfda_loop]. run_world.
  destruct (http_tape w) as [|[|c body] tape]; cbn; try discriminate.
  destruct (c =? 200); [|apply IH].
  destruct body as [body|]; cbn; [|discriminate].
  destruct (get body "results" (JArr [])) as [data| |] eqn:Eg; cbn;
    try discriminate; try no_diverge.
  destruct (truthy data); [|apply IH].
  repeat (step_outcome; cbn; try discriminate; try no_diverge).
  intros H. injection H as <- _. split; reflexivity.
Qed.

(** The public lookup always returns a record: a hit, or the sentinel. *)
Lemma public_lookup_returns (name : string) (w : World) :
  exists r w',
    public_lookup name w = (Ret r, w')
    /\ drug_name r = name
    /\ (found r = true \/ r = not_found_record name).
Proof.
  unfold public_lookup, openfda_attempt.
  pose proof (openfda_loop_halts ["brand_name"; "generic_name"] name w) as Hh.
  pose proof (openfda_loop_hit ["brand_name"; "generic_name"] name w) as Hhit.
  unfold bind, try_except, ret.
  destruct (openfda_loop _ name w) as [[[r|]|e|] w'] eqn:E; cbn in *.
  - exists r, w'. destruct (Hhit w' r eq_refl) as [Hn Hf]. auto.
  - exists (not_found_record name), w'. auto.
  - exists (not_found_record name), w'. auto.
  - contradiction.
Qed.

(** No exception escapes [get_openfda_warnings]. *)
Lemma get_openfda_warnings_returns (name : string) (w : World) :
  exists r w',
    get_openfda_warnings name w = (Ret r, w')
    /\ drug_name r = name
    /\ (found r = true \/ r = not_found_record name).
Proof.
  destruct (primary_result w) as [m|] eqn:E.
  - rewrite (get_openfda_warnings_primary name w m E).
    eexists _, _. split; [reflexivity|]. cbn. auto.
  - rewrite (get_openfda_warnings_fallback name w E).
    apply public_lookup_returns.
Qed.

End FdaFacts.

(* ================================================================= *)
(** ** Batch verification *)

Module BatchFacts.

Import Fda FdaServer Obs.

(** The loop is a left-to-right traversal of the cleaned names. *)
Lemma batch_loop_mapM (lookup : string -> M DrugSafetyRecord)
      (names : list string) (acc : list DrugSafetyRecord) (w : World) :
  batch_loop lookup names acc w
  = bind (mapM lookup (clean_names names)) (fun rs => ret (acc ++ rs)%list) w.
Proof.
  revert acc w. unfold clean_names.
  induction names as [|drug rest IH]; intros acc w.
  - cbn. unfold bind, ret. now rewrite app_nil_r.
  - cbn [batch_loop map filter].
    destruct (String.eqb (strip drug) "") eqn:E; cbn [negb].
    + apply IH.
    + cbn [mapM]. unfold bind at 1 2 3.
      destruct (lookup (strip drug) w) as [[r|e|] w1]; try reflexivity.
      rewrite IH. unfold bind, ret.
      destruct (mapM lookup _ w1) as [[rs|e|] w2]; try reflexivity.
      now rewrite <- app_assoc.
Qed.

(** A traversal with a lookup that always returns, returns one result per
    element, in order. *)
Lemma mapM_returns {A B} (f : A -> M B) (P : A -> B -> Prop) :
  (forall x w, exists r w', f x w = (Ret r, w') /\ P x r) ->
  forall l w, exists rs w', mapM f l w = (Ret rs, w') /\ Forall2 P l rs.
Proof.
  intros Hf. induction l as [|x l IH]; intros w.
  - exists [], w. split; [reflexivity | constructor].
  - destruct (Hf x w) as [r [w1 [Hr HP]]].
    destruct (IH w1) as [rs [w2 [Hrs HPs]]].
    exists (r :: rs), w2. split; [|now constructor].
    cbn [mapM]. unfold bind, ret. now rewrite Hr, Hrs.
Qed.

Lemma batch_returns (lookup : string -> M DrugSafetyRecord)
      (names : list string) (w : World) :
  (forall x w, exists r w', lookup x w = (Ret r, w') /\ answers x r) ->
  exists rs w',
    batch_loop lookup names [] w = (Ret rs, w')
    /\ Forall2 answers (clean_names names) rs.
Proof.
  intros Hl. rewrite batch_loop_mapM.
  destruct (mapM_returns lookup answers Hl (clean_names names) w)
    as [rs [w' [Hrs HP]]].
  exists rs, w'. split; [|exact HP].
  unfold bind, ret. now rewrite Hrs.
Qed.

Lemma get_openfda_warnings_batch_returns (names : list string) (w : World) :
  exists rs w',
    get_openfda_warnings_batch names w = (Ret (report_of rs), w')
    /\ Forall2 answers (clean_names names) rs.
Proof.
  destruct (batch_returns get_openfda_warnings names w) as [rs [w' [H HP]]].
  { intros x w0.
    destruct (FdaFacts.get_openfda_warnings_returns x w0) as [r [w1 H]].
    exists r, w1. exact H. }
  exists rs, w'. split; [|exact HP].
  unfold get_openfda_warnings_batch, bind, ret. now rewrite H.
Qed.

Lemma _call_openfda_api_returns (name : string) (w : World) :
  exists r w', _call_openfda_api name w = (Ret r, w') /\ answers name r.
Proof.
  destruct (FdaFacts.public_lookup_returns name w) as [r [w' H]].
  exists r, w'. exact H.
Qed.

Lemma _call_openfda_api_batch_returns (names : list string) (w : World) :
  exists rs w',
    _call_openfda_api_batch names w = (Ret (report_of rs), w')
    /\ Forall2 answers (clean_names names) rs.
Proof.
  destruct (batch_returns _call_openfda_api names w) as [rs [w' [H HP]]].
  { apply _call_openfda_api_returns. }
  exists rs, w'. split; [|exact HP].
  unfold _call_openfda_api_batch, bind, ret. now rewrite H.
Qed.

Lemma status_of_report (rs : list DrugSafetyRecord) :
  (status (report_of rs) = "no_data" <-> rs = [])
  /\ (status (report_of rs) = "success" <-> rs <> [])
  /\ count (report_of rs) = Z.of_nat (List.length rs)
  /\ results (report_of rs) = rs.
Proof.
  destruct rs; cbn; repeat split; intros; congruence.
Qed.

Lemma make_results_length (rs : list DrugSafetyRecord)
      (xs : list FdaSingleDrugOutput) :
  make_results rs = Ret xs -> List.length xs = List.length rs.
Proof.
  revert xs. induction rs as [|r rs IH]; intros xs H; cbn in H.
  - injection H as <-. reflexivity.
  - destruct (make_single (drug_name r) r); try discriminate. cbn in H.
    destruct (make_results rs) as [ys| |]; try discriminate. cbn in H.
    injection H as <-. cbn. now rewrite (IH ys).
Qed.

Lemma any_nonblank_clean (names : list string) :
  any_nonblank names = true <-> clean_names names <> [].
Proof.
  unfold any_nonblank, clean_names.
  induction names as [|d names IH]; cbn.
  - split; [discriminate | congruence].
  - destruct (String.eqb (strip d) ""); cbn.
    + exact IH.
    + split; [discriminate | reflexivity].
Qed.

End BatchFacts.

(** The record of one entry of a batch. *)

Module BatchItems.

Import Fda FdaServer Obs.

(** The server's lookup: the hit of the public source, or the sentinel. *)
Lemma _call_openfda_api_cases (name : string) (w : World) :
  _call_openfda_api name w
  = (Ret (match public_hit name w with
          | Some r => r
          | None => not_found_record name
          end),
     snd (openfda_attempt name w)).
Proof.
  pose proof (FdaFacts.openfda_loop_halts ["brand_name"; "generic_name"] name w)
    as Hh.
  unfold _call_openfda_api, public_hit, openfda_attempt, bind, try_except, ret.
  destruct (openfda_loop _ name w) as [[[r|]|e|] w']; cbn in *;
    try reflexivity.
  contradiction.
Qed.

(** The same for steps 2 and 3 of the client. *)
Lemma public_lookup_cases (name : string) (w : World) :
  public_lookup name w
  = (Ret (match public_hit name w with
          | Some r => r
          | None => not_found_record name
          end),
     snd (openfda_attempt name w)).
Proof. exact (_call_openfda_api_cases name w). Qed.

Lemma batch_loop_app (lookup : string -> M DrugSafetyRecord)
      (pre post : list string) (acc : list DrugSafetyRecord) (w : World) :
  batch_loop lookup (pre ++ post)%list acc w
  = bind (batch_loop lookup pre acc) (fun rs => batch_loop lookup post rs) w.
Proof.
  revert acc w. induction pre as [|d pre IH]; intros acc w.
  - cbn [app]. unfold bind. reflexivity.
  - cbn [app batch_loop].
    destruct (String.eqb (strip d) ""); [apply IH|].
    unfold bind.
    destruct (lookup (strip d) w) as [[r|e|] w1]; try reflexivity.
    rewrite IH. reflexivity.
Qed.

Lemma batch_loop_acc (lookup : string -> M DrugSafetyRecord)
      (names : list string) (acc : list DrugSafetyRecord) (w : World) :
  batch_loop lookup names acc w
  = bind (batch_loop lookup names []) (fun rs => ret (acc ++ rs)%list) w.
Proof.
  unfold bind. rewrite !BatchFacts.batch_loop_mapM. unfold bind, ret.
  destruct (mapM lookup (clean_names names) w) as [[rs|e|] w']; reflexivity.
Qed.

(** The record of an entry sits behind the records of the entries before
    it, and is looked up in the world they leave. *)
Lemma batch_loop_entry (lookup : string -> M DrugSafetyRecord)
      (pre : list string) (d : string) (post : list string) (w : World) :
  (forall x w, exists r w', lookup x w = (Ret r, w') /\ answers x r) ->
  strip d <> "" ->
  exists rs1 w1 r w1' rs2 w2,
    batch_loop lookup pre [] w = (Ret rs1, w1)
    /\ List.length rs1 = List.length (clean_names pre)
    /\ lookup (strip d) w1 = (Ret r, w1')
    /\ batch_loop lookup post [] w1' = (Ret rs2, w2)
    /\ batch_loop lookup (pre ++ d :: post)%list [] w
       = (Ret (rs1 ++ r :: rs2)%list, w2).
Proof.
  intros Hl Hd.
  destruct (BatchFacts.batch_returns lookup pre w Hl) as [rs1 [w1 [H1 HP]]].
  destruct (Hl (strip d) w1) as [r [w1' [Hr _]]].
  destruct (BatchFacts.batch_returns lookup post w1' Hl) as [rs2 [w2 [H2 _]]].
  exists rs1, w1, r, w1', rs2, w2.
  split; [exact H1|].
  split; [symmetry; exact (Forall2_length HP)|].
  split; [exact Hr|]. split; [exact H2|].
  rewrite batch_loop_app. unfold bind at 1. rewrite H1.
  cbn [batch_loop].
  destruct (String.eqb (strip d) "") eqn:E;
    [apply String.eqb_eq in E; contradiction|].
  unfold bind at 1. rewrite Hr.
  rewrite batch_loop_acc. unfold bind, ret. rewrite H2.
  now rewrite <- app_assoc.
Qed.

Lemma any_nonblank_entry (pre : list string) (d : string)
      (post : list string) :
  strip d <> "" -> any_nonblank (pre ++ d :: post)%list = true.
Proof.
  intros Hd. unfold any_nonblank. rewrite existsb_app. cbn [existsb].
  destruct (String.eqb (strip d) "") eqn:E;
    [apply String.eqb_eq in E; contradiction|].
  cbn [negb orb]. apply orb_true_r.
Qed.

(** Validation turns the sentinel record into the sentinel output. *)
Lemma make_single_sentinel (name : string) :
  make_single name (not_found_record name)
  = Ret (mkSingle name "N/A" "N/A" "No data found." false).
Proof. reflexivity. Qed.

Lemma make_single_raises (name : string) (r : DrugSafetyRecord) (e : exn) :
  make_single name r = Raise e -> e = ValidationError.
Proof.
  unfold make_single, as_str.
  destruct (brand r); cbn; try congruence.
  destruct (generic r); cbn; try congruence.
  destruct (warnings r); cbn; congruence.
Qed.

Lemma make_results_entry (rs1 : list DrugSafetyRecord) (r : DrugSafetyRecord)
      (rs2 : list DrugSafetyRecord) (xs : list FdaSingleDrugOutput) :
  make_results (rs1 ++ r :: rs2)%list = Ret xs ->
  exists x,
    make_single (drug_name r) r = Ret x
    /\ nth_error xs (List.length rs1) = Some x.
Proof.
  revert xs. induction rs1 as [|r1 rs1 IH]; intros xs H;
    cbn [app make_results] in H.
  - destruct (make_single (drug_name r) r) as [x| |]; try discriminate H.
    cbn [obind] in H.
    destruct (make_results rs2) as [ys| |]; try discriminate H.
    cbn [obind] in H. injection H as <-. exists x. split; reflexivity.
  - destruct (make_single (drug_name r1) r1) as [x1| |]; try discriminate H.
    cbn [obind] in H.
    destruct (make_results (rs1 ++ r :: rs2)) as [ys| |]; try discriminate H.
    cbn [obind] in H. injection H as <-.
    destruct (IH ys eq_refl) as [x [Hx Hn]].
    exists x. split; [exact Hx | exact Hn].
Qed.

(** Validation of the results fails only at a record that fails it. *)
Lemma make_results_raises (rs : list DrugSafetyRecord) (e : exn) :
  make_results rs = Raise e ->
  exists r, In r rs /\ make_single (drug_name r) r = Raise e.
Proof.
  induction rs as [|r rs IH]; cbn [make_results]; [discriminate|].
  destruct (make_single (drug_name r) r) as [x|e'|] eqn:Ex; cbn [obind].
  - destruct (make_results rs) as [ys|e'|]; cbn [obind]; try discriminate.
    intros H. destruct (IH H) as [r' [Hin Hr]].
    exists r'. split; [now right | exact Hr].
  - intros H. injection H as <-. exists r. split; [now left | exact Ex].
  - discriminate.
Qed.

End BatchItems.

(* ================================================================= *)
(** ** Claims about the drug-safety lookup and the batch verifier *)

Import Fda FdaServer Obs.

(** C2 (code defect): the batch does drop the blank entry, keep the order
    and let no exception escape, but a drug the tool server reports as not
    found comes out with [found = true].  The server's
    [check_drug_safety], asked about a name the public source does not
    know, produces [found = false] with the sentinel values; the client,
    given the 200 reply that carries this result for the third name of
    ["aspirin"; ""; "unknownxyz123"], files the record with the sentinels
    and [found = true]. *)
Theorem batch_unknown_drug_reported_found :
  fst (check_drug_safety "unknownxyz123"
         (Scenario.with_replies
            [Scenario.openfda_no_match; Scenario.openfda_no_match]))
  = Ret Scenario.unknown_result
  /\ fst (get_openfda_warnings_batch
            ["aspirin"; ""; "unknownxyz123"]
            (Scenario.with_replies
               [Scenario.tool_reply Scenario.aspirin_result;
                Scenario.tool_reply Scenario.unknown_result]))
     = Ret (mkReport "success" 2
              [mkRecord "aspirin" (JStr "Bayer") (JStr "ASPIRIN")
                        (JStr "Reye syndrome.") true;
               mkRecord "unknownxyz123" (JStr "N/A") (JStr "N/A")
                        (JStr "No data found.") true]).
Proof. split; vm_compute; reflexivity. Qed.

(** C8 (as stated) fails: the batch tool of the server reports an empty
    list with status [error], not [no_data]. *)
Lemma batch_status_error_counterexample :
  fst (check_multiple_drugs [] (Scenario.with_replies []))
  = Ret (mkBatch "error" 0 [])
  /\ out_results (mkBatch "error" 0 []) = []
  /\ out_status (mkBatch "error" 0 []) <> "no_data".
Proof. repeat split; vm_compute; congruence. Qed.

(** C8 (amended): the reports of [get_openfda_warnings_batch] and of
    [_call_openfda_api_batch] have status [no_data] exactly when their
    results are empty and [success] otherwise, with one record per
    non-blank name; a record with [found = false] is the sentinel record
    and sits in a [success] report.  The server tool
    [check_multiple_drugs] answers a list without a non-blank name with
    status [error], count 0 and no results, and otherwise, when it returns,
    with status [success] and one result per non-blank name; it never
    reports [no_data].  A drug that is not found contributes a record with
    [found = false] under status [success]: for an entry [d] of the list
    with a non-blank name, looked up in the world the entries before it
    leave, when the public lookup has no hit the report of
    [_call_openfda_api_batch] holds the sentinel record for the trimmed
    name at the entry's position, and so does the result of
    [check_multiple_drugs]; the same holds for
    [get_openfda_warnings_batch] when the primary path does not answer for
    that drug.  A failure of [check_multiple_drugs] is a validation error at
    the record of a drug that was found, never at a sentinel record. *)
Theorem batch_report_status (names : list string) (w : World) :
  (exists rs w',
     get_openfda_warnings_batch names w = (Ret (report_of rs), w')
     /\ Forall2 answers (clean_names names) rs
     /\ (status (report_of rs) = "no_data" <-> results (report_of rs) = [])
     /\ (status (report_of rs) = "success" <-> results (report_of rs) <> [])
     /\ (forall r, In r rs -> found r = false ->
           status (report_of rs) = "success"
           /\ r = not_found_record (drug_name r)))
  /\ (exists rs w',
        _call_openfda_api_batch names w = (Ret (report_of rs), w')
        /\ Forall2 answers (clean_names names) rs
        /\ (status (report_of rs) = "no_data" <-> results (report_of rs) = [])
        /\ (status (report_of rs) = "success" <-> results (report_of rs) <> [])
        /\ (forall r, In r rs -> found r = false ->
              status (report_of rs) = "success"
              /\ r = not_found_record (drug_name r)))
  /\ (clean_names names = [] ->
      check_multiple_drugs names w = (Ret (mkBatch "error" 0 []), w))
  /\ (forall rep w',
        check_multiple_drugs names w = (Ret rep, w') ->
        out_status rep <> "no_data"
        /\ (clean_names names <> [] ->
            out_status rep = "success"
            /\ List.length (out_results rep) = List.length (clean_names names)))
  /\ (forall pre d post,
        names = (pre ++ d :: post)%list ->
        strip d <> "" ->
        exists rs1 w1,
          _call_openfda_api_batch pre w = (Ret (report_of rs1), w1)
          /\ List.length rs1 = List.length (clean_names pre)
          /\ (public_hit (strip d) w1 = None ->
              (exists rs2 w2,
                 _call_openfda_api_batch names w
                 = (Ret (report_of
                           (rs1 ++ not_found_record (strip d) :: rs2)%list), w2)
                 /\ status (report_of
                              (rs1 ++ not_found_record (strip d) :: rs2)%list)
                    = "success"
                 /\ found (not_found_record (strip d)) = false)
              /\ (forall rep w2,
                    check_multiple_drugs names w = (Ret rep, w2) ->
                    out_status rep = "success"
                    /\ nth_error (out_results rep) (List.length rs1)
                       = Some (mkSingle (strip d) "N/A" "N/A"
                                        "No data found." false))))
  /\ (forall pre d post,
        names = (pre ++ d :: post)%list ->
        strip d <> "" ->
        exists rs1 w1,
          get_openfda_warnings_batch pre w = (Ret (report_of rs1), w1)
          /\ List.length rs1 = List.length (clean_names pre)
          /\ (primary_result w1 = None ->
              public_hit (strip d) (after_request (mcp_request (strip d)) w1)
              = None ->
              exists rs2 w2,
                get_openfda_warnings_batch names w
                = (Ret (report_of
                          (rs1 ++ not_found_record (strip d) :: rs2)%list), w2)
                /\ status (report_of
                             (rs1 ++ not_found_record (strip d) :: rs2)%list)
                   = "success"
                /\ found (not_found_record (strip d)) = false))
  /\ (forall e w',
        check_multiple_drugs names w = (Raise e, w') ->
        e = ValidationError
        /\ exists rs r,
             _call_openfda_api_batch names w = (Ret (report_of rs), w')
             /\ In r rs
             /\ found r = true
             /\ make_single (drug_name r) r = Raise ValidationError).
Proof.
  assert (Hrep : forall rs,
             Forall2 answers (clean_names names) rs ->
             (status (report_of rs) = "no_data" <-> results (report_of rs) = [])
             /\ (status (report_of rs) = "success" <-> results (report_of rs) <> [])
             /\ (forall r, In r rs -> found r = false ->
                   status (report_of rs) = "success"
                   /\ r = not_found_record (drug_name r))).
  { intros rs HP.
    destruct (BatchFacts.status_of_report rs) as [H1 [H2 [_ H4]]].
    rewrite H4. split; [exact H1|]. split; [exact H2|].
    intros r Hin Hf. split.
    - apply H2. intro E. rewrite E in Hin. contradiction.
    - clear H1 H2 H4. induction HP as [|x y l l' Hxy _ IH]; [contradiction|].
      destruct Hin as [-> | Hin]; [|now apply IH].
      destruct Hxy as [Hn [Ht | Hs]]; [congruence|].
      rewrite Hs. reflexivity. }
  assert (Hempty : clean_names names = [] ->
                   check_multiple_drugs names w = (Ret (mkBatch "error" 0 []), w)).
  { intros Hc. unfold check_multiple_drugs.
    destruct (any_nonblank names) eqn:Ea.
    - apply BatchFacts.any_nonblank_clean in Ea. contradiction.
    - now rewrite orb_true_r. }
  assert (Hmid : forall rs1 r rs2,
             status (report_of (rs1 ++ r :: rs2)%list) = "success").
  { intros rs1 r rs2. destruct rs1; reflexivity. }
  split; [|split; [|split; [|split; [|split; [|split]]]]].
  - destruct (BatchFacts.get_openfda_warnings_batch_returns names w)
      as [rs [w' [H HP]]].
    exists rs, w'. split; [exact H|]. split; [exact HP|]. now apply Hrep.
  - destruct (BatchFacts._call_openfda_api_batch_returns names w)
      as [rs [w' [H HP]]].
    exists rs, w'. split; [exact H|]. split; [exact HP|]. now apply Hrep.
  - exact Hempty.
  - intros rep w' H.
    destruct (list_eq_dec string_dec (clean_names names) []) as [Hc | Hc].
    + rewrite (Hempty Hc) in H. injection H as <- _.
      split; [discriminate | contradiction].
    + assert (Ea : any_nonblank names = true)
        by now apply BatchFacts.any_nonblank_clean.
      unfold check_multiple_drugs in H. rewrite Ea in H.
      destruct names as [|d names]; [now cbn in Hc|]. cbn [orb negb] in H.
      destruct (BatchFacts._call_openfda_api_batch_returns (d :: names) w)
        as [rs [w1 [Hb HP]]].
      unfold bind, lift, ret in H. rewrite Hb in H.
      rewrite (proj2 (proj2 (proj2 (BatchFacts.status_of_report rs)))) in H.
      destruct (make_results rs) as [xs| |] eqn:Em; try discriminate.
      injection H as <- _. cbn [out_status out_results].
      pose proof (Forall2_length HP) as Hlen.
      pose proof (BatchFacts.make_results_length rs xs Em) as Hxs.
      assert (Hrs : rs <> []).
      { intro E. rewrite E in Hlen. cbn in Hlen.
        apply length_zero_iff_nil in Hlen. contradiction. }
      destruct rs; [contradiction|]. cbn [report_of status].
      split; [discriminate|]. intros _. split; [reflexivity|]. congruence.
  - intros pre d post Hn Hd. clear Hrep Hempty. subst names.
    destruct (BatchItems.batch_loop_entry
                _call_openfda_api pre d post w
                BatchFacts._call_openfda_api_returns Hd)
      as [rs1 [w1 [r [w1' [rs2 [w2 [H1 [Hl [Hr [H2 H3]]]]]]]]]].
    exists rs1, w1.
    split; [unfold _call_openfda_api_batch, bind, ret; now rewrite H1|].
    split; [exact Hl|].
    intros Hnf. rewrite BatchItems._call_openfda_api_cases, Hnf in Hr.
    assert (Er : r = not_found_record (strip d)) by congruence.
    subst r. split.
    + exists rs2, w2.
      split; [unfold _call_openfda_api_batch, bind, ret; now rewrite H3|].
      split; [apply Hmid | reflexivity].
    + intros rep w2' Hc. unfold check_multiple_drugs in Hc.
      rewrite (BatchItems.any_nonblank_entry pre d post Hd) in Hc.
      assert (Eg : match (pre ++ d :: post)%list with
                   | [] => true | _ => false end = false)
        by (destruct pre; reflexivity).
      rewrite Eg in Hc. cbn [orb negb] in Hc.
      unfold _call_openfda_api_batch in Hc.
      unfold bind, lift, ret in Hc. rewrite H3 in Hc.
      cbn [results report_of] in Hc.
      destruct (make_results (rs1 ++ not_found_record (strip d) :: rs2))
        as [xs| |] eqn:Em; try discriminate.
      injection Hc as <- _. cbn [out_status out_results].
      split; [apply Hmid|].
      destruct (BatchItems.make_results_entry _ _ _ _ Em) as [x [Hx Hnth]].
      cbn in Hx. injection Hx as <-. exact Hnth.
  - intros pre d post Hn Hd. clear Hrep Hempty. subst names.
    destruct (BatchItems.batch_loop_entry
                get_openfda_warnings pre d post w)
      as [rs1 [w1 [r [w1' [rs2 [w2 [H1 [Hl [Hr [H2 H3]]]]]]]]]].
    { intros x w0.
      destruct (FdaFacts.get_openfda_warnings_returns x w0) as [r [w1 H]].
      exists r, w1. exact H. }
    { exact Hd. }
    exists rs1, w1.
    split; [unfold get_openfda_warnings_batch, bind, ret; now rewrite H1|].
    split; [exact Hl|].
    intros Hprim Hnf.
    rewrite (FdaFacts.get_openfda_warnings_fallback _ _ Hprim) in Hr.
    rewrite BatchItems.public_lookup_cases, Hnf in Hr.
    assert (Er : r = not_found_record (strip d)) by congruence.
    subst r. exists rs2, w2.
    split; [unfold get_openfda_warnings_batch, bind, ret; now rewrite H3|].
    split; [apply Hmid | reflexivity].
  - intros e w' H.
    destruct (list_eq_dec string_dec (clean_names names) []) as [Hc | Hc];
      [rewrite (Hempty Hc) in H; discriminate H|].
    assert (Ea : any_nonblank names = true)
      by now apply BatchFacts.any_nonblank_clean.
    unfold check_multiple_drugs in H. rewrite Ea in H.
    destruct names as [|d names]; [now cbn in Hc|]. cbn [orb negb] in H.
    destruct (BatchFacts._call_openfda_api_batch_returns (d :: names) w)
      as [rs [w1 [Hb HP]]].
    unfold bind, lift, ret in H. rewrite Hb in H.
    cbn [results report_of] in H.
    destruct (make_results rs) as [xs|e'|] eqn:Em; try discriminate H.
    assert (Ee : e' = e /\ w1 = w') by (split; congruence).
    destruct Ee as [-> ->].
    destruct (BatchItems.make_results_raises rs e Em) as [r [Hin Hr]].
    pose proof (BatchItems.make_single_raises _ _ _ Hr) as ->.
    split; [reflexivity|].
    exists rs, r. split; [exact Hb|]. split; [exact Hin|].
    split; [|exact Hr].
    clear Hb Em Hc Ea Hrep Hempty.
    induction HP as [|x y l l' Hxy _ IH]; [contradiction|].
    destruct Hin as [-> | Hin]; [|now apply IH].
    destruct Hxy as [Hname [Ht | Hs]]; [exact Ht|].
    rewrite Hs in Hr. cbn in Hr. discriminate Hr.
Qed.

Lemma batch_report_status_witness :
  exists rs1 rs2 w2,
    _call_openfda_api_batch
      ["aspirin"; " "; " unknownxyz123 "]
      (Scenario.with_replies
         [Scenario.openfda_label "Bayer" "ASPIRIN" "Reye syndrome.";
          Scenario.openfda_no_match; Scenario.openfda_no_match])
    = (Ret (report_of
              (rs1 ++ not_found_record "unknownxyz123" :: rs2)%list), w2)
    /\ List.length rs1 = 1%nat.
Proof.
  destruct (batch_report_status
              ["aspirin"; " "; " unknownxyz123 "]
              (Scenario.with_replies
                 [Scenario.openfda_label "Bayer" "ASPIRIN" "Reye syndrome.";
                  Scenario.openfda_no_match; Scenario.openfda_no_match]))
    as [_ [_ [_ [_ [H _]]]]].
  destruct (H ["aspirin"; " "] " unknownxyz123 " [] eq_refl)
    as [rs1 [w1 [Hb [Hl Hnf]]]].
  { vm_compute. discriminate. }
  assert (Hw1 : w1 = snd (_call_openfda_api_batch
                            ["aspirin"; " "]
                            (Scenario.with_replies
                               [Scenario.openfda_label "Bayer" "ASPIRIN"
                                                       "Reye syndrome.";
                                Scenario.openfda_no_match;
                                Scenario.openfda_no_match])))
    by (rewrite Hb; reflexivity).
  assert (Hhit : public_hit (strip " unknownxyz123 ") w1 = None)
    by (rewrite Hw1; vm_compute; reflexivity).
  destruct (Hnf Hhit) as [[rs2 [w2 [Hr _]]] _].
  exists rs1, rs2, w2. split; [exact Hr | exact Hl].
Defined.

(** C10: whenever the primary path answers with status 200 and a dict
    result body, [get_openfda_warnings] returns the record built from that
    body with [found = true], whatever the body says about [found]; and the
    call always returns a record, whose [found] is false exactly when the
    primary path did not answer that way and the public lookup found
    nothing, in which case it is the sentinel record. *)
Theorem found_flag_of_lookup (name : string) (w : World) :
  exists r w',
    get_openfda_warnings name w = (Ret r, w')
    /\ (forall m, primary_result w = Some m ->
          r = mkRecord name (field m "brand" (JStr "N/A"))
                       (field m "generic" (JStr "N/A"))
                       (field m "warnings" (JStr "No warnings available."))
                       true)
    /\ (found r = false <->
        primary_result w = None
        /\ public_hit name (after_request (mcp_request name) w) = None)
    /\ (found r = false -> r = not_found_record name).
Proof.
  destruct (primary_result w) as [m|] eqn:E.
  - rewrite (FdaFacts.get_openfda_warnings_primary name w m E).
    eexists _, _. split; [reflexivity|]. split; [|split].
    + intros m' Hm. injection Hm as <-. reflexivity.
    + cbn. split; [discriminate | intros [H _]; discriminate H].
    + cbn. discriminate.
  - rewrite (FdaFacts.get_openfda_warnings_fallback name w E).
    set (w1 := after_request (mcp_request name) w).
    pose proof (FdaFacts.openfda_loop_halts ["brand_name"; "generic_name"] name w1) as Hh.
    pose proof (FdaFacts.openfda_loop_hit ["brand_name"; "generic_name"] name w1) as Hhit.
    unfold public_hit, public_lookup, openfda_attempt, bind, try_except, ret.
    destruct (openfda_loop _ name w1) as [[[r|]|e|] w'] eqn:El; cbn in *.
    + destruct (Hhit w' r eq_refl) as [_ Hf].
      exists r, w'. split; [reflexivity|]. split; [discriminate|].
      rewrite Hf. split; [split; [discriminate | intros [_ H]; discriminate H]
                         | discriminate].
    + exists (not_found_record name), w'. cbn. repeat split; discriminate.
    + exists (not_found_record name), w'. cbn. repeat split; discriminate.
    + contradiction.
Qed.

(* ================================================================= *)
(** ** Exhaustive search *)

Module FaissFacts.

Import Faiss.

Lemma insert_perm (x : Z * Z) (l : list (Z * Z)) :
  Permutation (x :: l) (insert x l).
Proof.
  induction l as [|y l IH]; cbn; [reflexivity|].
  destruct (fst x <=? fst y); [reflexivity|].
  rewrite perm_swap. now constructor.
Qed.

Lemma rank_perm (l : list (Z * Z)) : Permutation l (rank l).
Proof.
  induction l as [|x l IH]; cbn; [constructor|].
  rewrite <- insert_perm. now constructor.
Qed.

Lemma insert_sorted (x : Z * Z) (l : list (Z * Z)) :
  StronglySorted by_dist l -> StronglySorted by_dist (insert x l).
Proof.
  induction 1 as [|y l Hl IH Hy]; cbn.
  - repeat constructor.
  - destruct (fst x <=? fst y) eqn:E.
    + apply Z.leb_le in E. constructor; [now constructor|].
      constructor; [exact E|].
      eapply Forall_impl; [|exact Hy].
      unfold by_dist. intros z Hz. lia.
    + apply Z.leb_gt in E. constructor; [exact IH|].
      rewrite <- insert_perm. constructor; [unfold by_dist; lia | exact Hy].
Qed.

Lemma rank_sorted (l : list (Z * Z)) : StronglySorted by_dist (rank l).
Proof.
  induction l as [|x l IH]; cbn; [constructor | now apply insert_sorted].
Qed.

Lemma sorted_app (l1 l2 : list (Z * Z)) :
  StronglySorted by_dist (l1 ++ l2) ->
  StronglySorted by_dist l1
  /\ Forall (fun x => Forall (by_dist x) l2) l1.
Proof.
  induction l1 as [|x l1 IH]; cbn; intros H.
  - split; constructor.
  - apply StronglySorted_inv in H as [H Hx].
    destruct (IH H) as [H1 H2].
    apply Forall_app in Hx as [Hx1 Hx2].
    split; constructor; assumption.
Qed.

Lemma sorted_map_fst (l : list (Z * Z)) :
  StronglySorted by_dist l -> StronglySorted Z.le (map fst l).
Proof.
  induction 1 as [|x l Hl IH Hx]; cbn; constructor; [exact IH|].
  apply Forall_map. exact Hx.
Qed.

Lemma NoDup_map_of_nat (l : list nat) : NoDup l -> NoDup (map Z.of_nat l).
Proof.
  induction 1 as [|x l Hx Hl IH]; cbn; constructor; [|exact IH].
  intros Hin. apply in_map_iff in Hin as [y [Hy Hin]].
  apply Nat2Z.inj in Hy. now subst y.
Qed.

Lemma labels_NoDup (n : nat) : NoDup (labels n).
Proof. apply NoDup_map_of_nat, seq_NoDup. Qed.

Lemma map_snd_combine {A B} (l1 : list A) (l2 : list B) :
  List.length l1 = List.length l2 -> map snd (combine l1 l2) = l2.
Proof.
  revert l2. induction l1 as [|a l1 IH]; intros [|b l2] H; cbn in *;
    try discriminate; [reflexivity|].
  f_equal. apply IH. lia.
Qed.

(** The scored labels pair every stored vector with its position. *)
Lemma scored_spec (f : vec -> Z) (l : list vec) (s : nat) (d id : Z) :
  In (d, id) (combine (map f l) (map Z.of_nat (seq s (List.length l))))
  <-> exists j v, id = Z.of_nat (s + j) /\ nth_error l j = Some v /\ d = f v.
Proof.
  revert s. induction l as [|x l IH]; intros s; cbn.
  - split; [intros [] | intros [[|j] [v [_ [H _]]]]; discriminate H].
  - split.
    + intros [H | H].
      * injection H as <- <-. exists 0%nat, x.
        rewrite Nat.add_0_r. auto.
      * apply IH in H as [j [v [Hid [Hj Hd]]]].
        exists (S j), v. split; [|auto]. rewrite Hid. f_equal. lia.
    + intros [[|j] [v [Hid [Hj Hd]]]]; cbn in Hj.
      * injection Hj as <-. left. rewrite Hid, Hd. f_equal. f_equal. lia.
      * right. apply IH. exists j, v. split; [|auto]. rewrite Hid. f_equal. lia.
Qed.

Section Search.

Variable index : list vec.
Variable q : vec.
Variable k : Z.
Hypothesis k_pos : 0 < k.

Local Abbreviation n := (List.length index).
Local Abbreviation scored := (combine (map (l2sq q) index) (labels n)).
Local Abbreviation best := (firstn (Z.to_nat k) (rank scored)).
Local Abbreviation pad := (Z.to_nat k - List.length best)%nat.

Lemma search_rows :
  search index q k
  = Ret ((map fst best ++ repeat HUGE pad)%list,
         (map snd best ++ repeat (-1) pad)%list).
Proof.
  unfold search. destruct (k <=? 0) eqn:E; [lia|].
  rewrite !map_app, !map_repeat. reflexivity.
Qed.

Lemma best_length : List.length best = Nat.min (Z.to_nat k) n.
Proof.
  rewrite length_firstn. f_equal.
  rewrite <- (Permutation_length (rank_perm scored)).
  rewrite length_combine, length_map. unfold labels.
  rewrite length_map, length_seq. lia.
Qed.

Lemma best_sorted : StronglySorted by_dist best.
Proof.
  pose proof (rank_sorted scored) as H.
  rewrite <- (firstn_skipn (Z.to_nat k) (rank scored)) in H.
  now apply sorted_app in H.
Qed.

Lemma best_labels_NoDup : NoDup (map snd best).
Proof.
  assert (H : NoDup (map snd (rank scored))).
  { eapply Permutation_NoDup; [apply Permutation_map, rank_perm|].
    rewrite map_snd_combine; [apply labels_NoDup|].
    unfold labels. now rewrite !length_map, length_seq. }
  rewrite <- (firstn_skipn (Z.to_nat k) (rank scored)), map_app in H.
  now apply NoDup_app_remove_r in H.
Qed.

(** Every selected pair is a stored vector with its true distance. *)
Lemma best_in (d id : Z) :
  In (d, id) best ->
  exists j v, id = Z.of_nat j /\ nth_error index j = Some v /\ d = l2sq q v.
Proof.
  intros H. apply PyFacts.in_firstn in H.
  apply (Permutation_in _ (Permutation_sym (rank_perm scored))) in H.
  apply (scored_spec (l2sq q) index 0) in H. exact H.
Qed.

(** Nothing left out is nearer than something selected. *)
Lemma best_nearest (j : nat) (v : vec) :
  nth_error index j = Some v ->
  ~ In (Z.of_nat j) (map snd best) ->
  Forall (fun x => fst x <= l2sq q v) best.
Proof.
  intros Hj Hout.
  assert (Hin : In (l2sq q v, Z.of_nat j) (rank scored)).
  { apply (Permutation_in _ (rank_perm scored)).
    apply (scored_spec (l2sq q) index 0). exists j, v. auto. }
  pose proof (rank_sorted scored) as Hs.
  rewrite <- (firstn_skipn (Z.to_nat k) (rank scored)) in Hs, Hin.
  apply sorted_app in Hs as [_ Hs].
  apply in_app_or in Hin as [Hin | Hin].
  - exfalso. apply Hout. apply in_map_iff. now exists (l2sq q v, Z.of_nat j).
  - eapply Forall_impl; [|exact Hs].
    intros x Hx. rewrite Forall_forall in Hx. exact (Hx _ Hin).
Qed.

End Search.

End FaissFacts.

(* ================================================================= *)
(** ** Index cache and retriever *)

Module KbFacts.

Import Kb Obs.

Lemma index_of_first (x : Z) (l1 l2 : list Z) :
  ~ In x l1 ->
  index_of x (l1 ++ x :: l2) = Ret (Z.of_nat (List.length l1)).
Proof.
  induction l1 as [|y l1 IH]; intros Hx; cbn [app index_of].
  - now rewrite Z.eqb_refl.
  - destruct (x =? y) eqn:E.
    + apply Z.eqb_eq in E. exfalso. apply Hx. now left.
    + rewrite IH by (intro H; apply Hx; now right).
      cbn [obind List.length]. f_equal. lia.
Qed.

Lemma getitem_nth_error {A} (l : list A) (i : nat) (x : A) :
  nth_error l i = Some x -> getitem l (Z.of_nat i) = Ret x.
Proof.
  intros H. unfold getitem.
  assert (Hi : (i < List.length l)%nat) by (apply nth_error_Some; congruence).
  destruct (Z.of_nat i <? 0) eqn:E1; [lia|].
  destruct (Z.of_nat i <? 0) eqn:E2; [lia|].
  destruct (Z.of_nat (List.length l) <=? Z.of_nat i) eqn:E3; [lia|].
  cbn [orb]. now rewrite Nat2Z.id, H.
Qed.

Lemma getitem_middle {A} (l1 l2 : list A) (x : A) :
  getitem (l1 ++ x :: l2) (Z.of_nat (List.length l1)) = Ret x.
Proof.
  apply getitem_nth_error. rewrite nth_error_app2 by lia.
  now rewrite Nat.sub_diag.
Qed.

Lemma collect_hits_padding (pad : nat) (D I : list Z)
      (passages : list string) (acc : list hit) :
  collect_hits (repeat (-1) pad) D I passages acc = Ret acc.
Proof.
  revert acc. induction pad as [|pad IH]; intros acc; [reflexivity|].
  cbn [repeat collect_hits].
  replace (0 <=? -1) with false by reflexivity. cbn [andb]. apply IH.
Qed.

(** The loop pairs every valid label with the distance stored at the same
    position, provided the valid labels are pairwise distinct; the padding
    labels are skipped. *)
Lemma collect_hits_paired (passages : list string) (pad : nat) (filler : Z)
      (pre suf : list (Z * Z)) (acc : list hit) :
  NoDup (map snd (pre ++ suf)) ->
  Forall (fun x => 0 <= snd x < Z.of_nat (List.length passages)) suf ->
  collect_hits (map snd suf ++ repeat (-1) pad)
               (map fst (pre ++ suf) ++ repeat filler pad)
               (map snd (pre ++ suf) ++ repeat (-1) pad)
               passages acc
  = Ret (acc ++ map (hit_of passages) suf)%list.
Proof.
  revert pre acc. induction suf as [|[d id] suf IH]; intros pre acc Hnd Hr.
  - cbn [map app]. rewrite collect_hits_padding.
    now rewrite (app_nil_r acc).
  - apply Forall_cons_iff in Hr as [Hid Hr]. cbn [snd] in Hid.
    cbn [map app collect_hits fst snd].
    destruct (0 <=? id) eqn:E1; [|lia].
    destruct (id <? Z.of_nat (List.length passages)) eqn:E2; [|lia].
    cbn [andb].
    assert (Hp : getitem passages id
                 = Ret (nth (Z.to_nat id) passages "")).
    { rewrite <- (Z2Nat.id id) at 1 by lia.
      apply getitem_nth_error.
      apply nth_error_nth'. lia. }
    rewrite Hp. cbn [obind].
    rewrite !map_app in *. cbn [map fst snd] in *.
    rewrite <- !app_assoc. cbn [app].
    rewrite index_of_first.
    2:{ apply NoDup_remove_2 in Hnd. intro H. apply Hnd.
        apply in_or_app. now left. }
    cbn [obind]. rewrite length_map, <- (length_map fst pre).
    rewrite getitem_middle. cbn [obind].
    specialize (IH (pre ++ [(d, id)])%list (acc ++ [hit_of passages (d, id)])%list).
    rewrite !map_app in IH. cbn [map fst snd] in IH.
    rewrite <- !app_assoc in IH. cbn [app] in IH.
    apply IH; [exact Hnd | exact Hr].
Qed.

Section WithEmbedder.

Variable embed : string -> vec.

(** A cached index is returned as it is, and the world is not touched. *)
Lemma ensure_cached (w : World) (d : kb_data) :
  kb_index_data w = Some d ->
  ensure_kb_index embed w = (Ret (Some d), w).
Proof. intros H. unfold ensure_kb_index. now rewrite H. Qed.

(** First call with a snapshot on disk: one existence test, one read. *)
Lemma ensure_loads (w : World) (d : kb_data) :
  kb_index_data w = None -> pickle_file w = PickleHolds d ->
  ensure_kb_index embed w
  = (Ret (Some d),
     mkWorld (http_tape w) (http_log w) (Some d) (pickle_file w) (pdf_pages w)
             (storage_log w ++ [IoExists KB_INDEX_PICKLE;
                                IoReadPickle KB_INDEX_PICKLE])
             (llm_tape w) (llm_log w)).
Proof.
  intros Hc Hp. unfold ensure_kb_index. rewrite Hc.
  unfold load_kb_index, pickle_exists, bind, log_io, set_kb_index_data, ret.
  cbn. rewrite Hp. cbn. now rewrite <- app_assoc.
Qed.

(** Neither snapshot nor document: nothing is cached, [None] is returned. *)
Lemma ensure_unavailable (w : World) :
  kb_index_data w = None -> pickle_file w = PickleAbsent -> pdf_pages w = None ->
  ensure_kb_index embed w
  = (Ret None,
     mkWorld (http_tape w) (http_log w) None (pickle_file w) (pdf_pages w)
             (storage_log w ++ [IoExists KB_INDEX_PICKLE; IoExists STG_PDF])
             (llm_tape w) (llm_log w)).
Proof.
  intros Hc Hp Hd. unfold ensure_kb_index. rewrite Hc.
  unfold load_kb_index, pickle_exists, pdf_exists, bind, log_io, ret.
  cbn. rewrite Hp. cbn. rewrite Hd. cbn. rewrite ?Hc. now rewrite <- app_assoc.
Qed.

(** A snapshot file that cannot be unpickled: the exception of
    [pickle.load] leaves [ensure_kb_index], whatever else is on disk. *)
Lemma ensure_unreadable (w : World) :
  kb_index_data w = None -> pickle_file w = PickleCorrupt ->
  ensure_kb_index embed w
  = (Raise UnpicklingError,
     mkWorld (http_tape w) (http_log w) None (pickle_file w) (pdf_pages w)
             (storage_log w ++ [IoExists KB_INDEX_PICKLE;
                                IoReadPickle KB_INDEX_PICKLE])
             (llm_tape w) (llm_log w)).
Proof.
  intros Hc Hp. unfold ensure_kb_index. rewrite Hc.
  unfold load_kb_index, pickle_exists, bind, log_io, ret.
  cbn. rewrite Hp. cbn. rewrite ?Hp, ?Hc. now rewrite <- ?app_assoc.
Qed.

(** [None] is returned in that state only. *)
Lemma ensure_none_inv (w w' : World) :
  ensure_kb_index embed w = (Ret None, w') ->
  kb_index_data w = None /\ pickle_file w = PickleAbsent /\ pdf_pages w = None.
Proof.
  unfold ensure_kb_index.
  destruct (kb_index_data w) as [d|] eqn:Hc; [discriminate|].
  unfold load_kb_index, pickle_exists, bind, log_io, set_kb_index_data, ret.
  cbn.
  destruct (pickle_file w) as [| |d] eqn:Hp; cbn; rewrite ?Hp;
    try discriminate.
  unfold pdf_exists, bind, log_io, ret. cbn.
  destruct (pdf_pages w) as [pages|] eqn:Hd; cbn; [|auto].
  unfold build_kb_index, extract_text_from_pdf, pdf_exists, bind, log_io,
    write_pickle, lift, ret, raise.
  cbn. rewrite ?Hd. cbn.
  destruct (Chunker.chunk_text _ 300 50) as [[|p passages]|e|]; cbn;
    discriminate.
Qed.

(** An index built from the document has one vector per passage. *)
Lemma build_kb_index_well_formed (w w' : World) (d : kb_data) :
  build_kb_index embed w = (Ret d, w') ->
  List.length (kb_index d) = List.length (kb_passages d).
Proof.
  unfold build_kb_index, extract_text_from_pdf, pdf_exists, bind, log_io,
    write_pickle, lift, ret, raise.
  cbn.
  destruct (pdf_pages w) as [pages|]; cbn; [|discriminate].
  destruct (Chunker.chunk_text _ 300 50) as [[|p passages]|e|]; cbn;
    try discriminate.
  intros H. injection H as <- _. cbn. now rewrite length_map.
Qed.

(** The retriever on an available, well-formed index: the selected pairs
    turned into hits, position by position. *)
Lemma rag_lookup_kb_available (query : string) (k : Z) (w w' : World)
      (kb : kb_data) :
  ensure_kb_index embed w = (Ret (Some kb), w') ->
  List.length (kb_index kb) = List.length (kb_passages kb) ->
  0 < k ->
  rag_lookup_kb embed query k w
  = (Ret (map (hit_of (kb_passages kb))
              (firstn (Z.to_nat k)
                      (Faiss.rank (combine (map (Faiss.l2sq (embed query)) (kb_index kb))
                                           (Faiss.labels (List.length (kb_index kb))))))),
     w').
Proof.
  intros Hc Hlen Hk. unfold rag_lookup_kb, bind.
  rewrite Hc. unfold lift.
  rewrite (FaissFacts.search_rows _ _ _ Hk). cbn [fst snd].
  f_equal.
  apply (collect_hits_paired (kb_passages kb) _ Faiss.HUGE [] _ []).
  - cbn [app]. apply FaissFacts.best_labels_NoDup.
  - apply Forall_forall. intros [d id] Hin.
    apply FaissFacts.best_in in Hin as [j [v [Hid [Hj _]]]].
    cbn [snd]. rewrite Hid, <- Hlen.
    assert ((j < List.length (kb_index kb))%nat)
      by (apply nth_error_Some; congruence). lia.
Qed.

(** Once the index is cached, any number of further calls return it and
    leave the world as it is. *)
Lemma ensure_repeat (w : World) (d : kb_data) (n : nat) :
  kb_index_data w = Some d ->
  repeat_call n (ensure_kb_index embed) w = (Ret (repeat (Some d) n), w).
Proof.
  intros H. unfold repeat_call.
  induction n as [|n IH]; [reflexivity|].
  cbn [repeat mapM]. unfold bind, ret in *.
  now rewrite (ensure_cached w d H), IH.
Qed.

End WithEmbedder.

End KbFacts.

(* ================================================================= *)
(** ** Claims about the index cache and the retriever *)

Import Kb.

(** C5: on an available index whose vectors and passages correspond
    ([k > 0]), [rag_lookup_kb] returns [min(k, number of passages)] hits;
    the [i]-th hit carries the passage labelled [I[i]] and the score [D[i]]
    (the lookup by first occurrence of the label coincides with the
    position, whatever distances repeat), that score being the squared L2
    distance of the passage's vector to the query; the scores ascend; and no
    passage left out is nearer than a returned one. *)
Theorem rag_lookup_kb_ranking (embed : string -> vec) (query : string)
        (k : Z) (w w' : World) (kb : kb_data) :
  ensure_kb_index embed w = (Ret (Some kb), w') ->
  List.length (kb_index kb) = List.length (kb_passages kb) ->
  0 < k ->
  exists D I hits,
    Faiss.search (kb_index kb) (embed query) k = Ret (D, I)
    /\ rag_lookup_kb embed query k w = (Ret hits, w')
    /\ List.length hits = Nat.min (Z.to_nat k) (List.length (kb_passages kb))
    /\ (forall i h, nth_error hits i = Some h ->
          exists id v,
            nth_error I i = Some id
            /\ nth_error D i = Some (score h)
            /\ 0 <= id
            /\ nth_error (kb_passages kb) (Z.to_nat id) = Some (passage h)
            /\ nth_error (kb_index kb) (Z.to_nat id) = Some v
            /\ score h = Faiss.l2sq (embed query) v)
    /\ StronglySorted Z.le (map score hits)
    /\ (forall j v, nth_error (kb_index kb) j = Some v ->
          ~ In (Z.of_nat j) (firstn (List.length hits) I) ->
          forall h, In h hits -> score h <= Faiss.l2sq (embed query) v).
Proof.
  intros Hens Hlen Hk.
  set (q := embed query).
  set (best := firstn (Z.to_nat k)
                 (Faiss.rank (combine (map (Faiss.l2sq q) (kb_index kb))
                                      (Faiss.labels (List.length (kb_index kb)))))).
  set (pad := (Z.to_nat k - List.length best)%nat).
  exists (map fst best ++ repeat Faiss.HUGE pad)%list,
         (map snd best ++ repeat (-1) pad)%list,
         (map (Obs.hit_of (kb_passages kb)) best).
  split; [apply (FaissFacts.search_rows _ _ _ Hk)|].
  split; [apply (KbFacts.rag_lookup_kb_available embed query k w w' kb Hens Hlen Hk)|].
  split; [rewrite length_map, <- Hlen; apply FaissFacts.best_length|].
  split; [|split].
  - intros i h Hi. rewrite nth_error_map in Hi.
    destruct (nth_error best i) as [[d id]|] eqn:Eb; [|discriminate].
    injection Hi as <-. cbn [Obs.hit_of fst snd score passage].
    destruct (FaissFacts.best_in (kb_index kb) q k d id) as [j [v [Hid [Hj Hd]]]].
    { eapply nth_error_In. exact Eb. }
    assert (Hlt : (i < List.length best)%nat)
      by (apply nth_error_Some; congruence).
    assert (Hjlt : (j < List.length (kb_index kb))%nat)
      by (apply nth_error_Some; congruence).
    exists id, v.
    split; [rewrite nth_error_app1 by (now rewrite length_map);
            now rewrite nth_error_map, Eb|].
    split; [rewrite nth_error_app1 by (now rewrite length_map);
            now rewrite nth_error_map, Eb|].
    split; [lia|].
    rewrite Hid, Nat2Z.id.
    split; [apply nth_error_nth'; lia|].
    split; [exact Hj | exact Hd].
  - replace (map score (map (Obs.hit_of (kb_passages kb)) best))
      with (map fst best)
      by (rewrite map_map; apply map_ext; reflexivity).
    apply FaissFacts.sorted_map_fst, FaissFacts.best_sorted.
  - intros j v Hj Hout h Hin.
    rewrite length_map, <- (length_map snd best) in Hout.
    rewrite firstn_app, firstn_all, Nat.sub_diag in Hout.
    cbn [firstn] in Hout. rewrite app_nil_r in Hout.
    apply in_map_iff in Hin as [x [<- Hx]]. cbn [Obs.hit_of score].
    pose proof (FaissFacts.best_nearest (kb_index kb) q k j v Hj Hout) as H.
    rewrite Forall_forall in H. exact (H x Hx).
Qed.

Lemma rag_lookup_kb_ranking_witness :
  exists D I hits,
    Faiss.search (kb_index Scenario.small_kb)
                 (Scenario.length_embed "xxx") 3 = Ret (D, I)
    /\ fst (rag_lookup_kb Scenario.length_embed "xxx" 3
                          (Scenario.with_snapshot Scenario.small_kb []))
       = Ret hits
    /\ StronglySorted Z.le (map score hits).
Proof.
  destruct (rag_lookup_kb_ranking
              Scenario.length_embed "xxx" 3
              (Scenario.with_snapshot Scenario.small_kb [])
              (snd (ensure_kb_index Scenario.length_embed
                      (Scenario.with_snapshot Scenario.small_kb [])))
              Scenario.small_kb)
    as [D [I [hits [H1 [H2 [_ [_ [H3 _]]]]]]]].
  - reflexivity.
  - reflexivity.
  - reflexivity.
  - exists D, I, hits. split; [exact H1|]. split; [|exact H3].
    now rewrite H2.
Defined.

(** C7 (as stated) fails: a snapshot file that exists and cannot be
    unpickled is a snapshot that cannot be loaded.  With such a file, the
    source document absent and nothing cached, [load_kb_index] raises, no
    handler stands between it and the caller of [rag_lookup_kb], and the
    search raises instead of returning the empty list. *)
Lemma unreadable_snapshot_counterexample :
  kb_index_data (Scenario.with_unreadable_snapshot []) = None
  /\ pdf_pages (Scenario.with_unreadable_snapshot []) = None
  /\ fst (load_kb_index (Scenario.with_unreadable_snapshot []))
     = Raise UnpicklingError
  /\ fst (rag_lookup_kb Scenario.length_embed "fever" 4
                        (Scenario.with_unreadable_snapshot []))
     = Raise UnpicklingError
  /\ fst (rag_lookup_kb Scenario.length_embed "fever" 4
                        (Scenario.with_unreadable_snapshot []))
     <> Ret [].
Proof. repeat split; vm_compute; congruence. Qed.

(** C7 (amended): with nothing cached, no snapshot file on disk and no
    source document (the one state in which [ensure_kb_index] returns
    [None]), [rag_lookup_kb] returns the empty list for every query and
    every [k], raises nothing, and leaves the cache empty.  With nothing
    cached and a snapshot file that exists but cannot be unpickled, the
    search raises the error of [pickle.load] for every query and every [k],
    whether the source document is there or not, and the cache stays
    empty. *)
Theorem rag_lookup_kb_unavailable (embed : string -> vec) (query : string)
        (k : Z) (w : World) :
  kb_index_data w = None ->
  (pickle_file w = PickleAbsent ->
   pdf_pages w = None ->
   exists w',
     ensure_kb_index embed w = (Ret None, w')
     /\ rag_lookup_kb embed query k w = (Ret [], w')
     /\ kb_index_data w' = None)
  /\ (forall w', ensure_kb_index embed w = (Ret None, w') ->
        pickle_file w = PickleAbsent /\ pdf_pages w = None)
  /\ (pickle_file w = PickleCorrupt ->
      exists w',
        ensure_kb_index embed w = (Raise UnpicklingError, w')
        /\ rag_lookup_kb embed query k w = (Raise UnpicklingError, w')
        /\ kb_index_data w' = None).
Proof.
  intros Hc. split; [|split].
  - intros Hp Hd. unfold rag_lookup_kb, bind.
    rewrite (KbFacts.ensure_unavailable embed w Hc Hp Hd).
    eexists. repeat split.
  - intros w' H.
    destruct (KbFacts.ensure_none_inv embed w w' H) as [_ [Hp Hd]].
    split; [exact Hp | exact Hd].
  - intros Hp. unfold rag_lookup_kb, bind.
    rewrite (KbFacts.ensure_unreadable embed w Hc Hp).
    eexists. repeat split.
Qed.

Lemma rag_lookup_kb_unavailable_witness :
  (exists w',
     ensure_kb_index Scenario.length_embed (Scenario.with_replies [])
     = (Ret None, w')
     /\ rag_lookup_kb Scenario.length_embed "fever" 4 (Scenario.with_replies [])
        = (Ret [], w')
     /\ kb_index_data w' = None)
  /\ (exists w',
        rag_lookup_kb Scenario.length_embed "fever" 4
                      (Scenario.with_unreadable_snapshot [])
        = (Raise UnpicklingError, w')
        /\ kb_index_data w' = None).
Proof.
  split.
  - apply (rag_lookup_kb_unavailable Scenario.length_embed "fever" 4
             (Scenario.with_replies []) eq_refl); reflexivity.
  - destruct (rag_lookup_kb_unavailable Scenario.length_embed "fever" 4
                (Scenario.with_unreadable_snapshot []) eq_refl)
      as [_ [_ H]].
    destruct (H eq_refl) as [w' [_ [H2 H3]]].
    exists w'. split; [exact H2 | exact H3].
Defined.

(** C9: with a snapshot on disk and nothing cached, the first
    [ensure_kb_index] tests for the file and reads it once, caches the
    index and returns it; the second call, and any number of calls after
    it, return the same index and leave the world, its storage log
    included, untouched. *)
Theorem ensure_kb_index_idempotent (embed : string -> vec) (w : World)
        (d : kb_data) (n : nat) :
  kb_index_data w = None ->
  pickle_file w = PickleHolds d ->
  exists w1,
    ensure_kb_index embed w = (Ret (Some d), w1)
    /\ storage_log w1
       = (storage_log w ++ [IoExists KB_INDEX_PICKLE;
                            IoReadPickle KB_INDEX_PICKLE])%list
    /\ kb_index_data w1 = Some d
    /\ ensure_kb_index embed w1 = (Ret (Some d), w1)
    /\ Obs.repeat_call n (ensure_kb_index embed) w1
       = (Ret (repeat (Some d) n), w1).
Proof.
  intros Hc Hp.
  rewrite (KbFacts.ensure_loads embed w d Hc Hp).
  eexists. split; [reflexivity|]. split; [reflexivity|].
  split; [reflexivity|]. split.
  - now apply KbFacts.ensure_cached.
  - now apply KbFacts.ensure_repeat.
Qed.

Lemma ensure_kb_index_idempotent_witness :
  exists w1,
    ensure_kb_index Scenario.length_embed
                    (Scenario.with_snapshot Scenario.small_kb [])
    = (Ret (Some Scenario.small_kb), w1)
    /\ storage_log w1 = [IoExists KB_INDEX_PICKLE; IoReadPickle KB_INDEX_PICKLE]
    /\ Obs.repeat_call 3 (ensure_kb_index Scenario.length_embed) w1
       = (Ret (repeat (Some Scenario.small_kb) 3), w1).
Proof.
  destruct (ensure_kb_index_idempotent
              Scenario.length_embed
              (Scenario.with_snapshot Scenario.small_kb [])
              Scenario.small_kb 3 eq_refl eq_refl)
    as [w1 [H1 [H2 [_ [_ H5]]]]].
  exists w1. split; [exact H1|]. split; [exact H2 | exact H5].
Defined.

(* ================================================================= *)
(** ** Guideline dispatcher *)

Module KbAgentFacts.

Import Kb KbAgent Obs PyFacts.

#[local] Arguments get : simpl never.
#[local] Arguments truthy : simpl never.

(** The primary attempt always returns: the snippets value, or [None]. *)
Lemma fetch_result (query_text : string) (w : World) :
  _fetch_kb_via_mcp query_text w
  = (Ret (match kb_primary_result w with Some v => v | None => JNull end),
     after_request (kb_request query_text) w).
Proof.
  unfold _fetch_kb_via_mcp, kb_primary_result, next_result, after_request,
    kb_request.
  unfold bind, try_except, lift, ret, requests_post, receive, send, resp_json.
  cbn.
  destruct (http_tape w) as [|[|c [body|]] tape]; cbn; try reflexivity.
  - destruct (c =? 200); cbn; [|reflexivity].
    destruct (get body "result" (JObj [])) as [data| |] eqn:Eg; cbn;
      try reflexivity.
    + destruct data; cbn; try reflexivity.
      unfold get. destruct (assoc "guideline_snippets" m); reflexivity.
    + exfalso. exact (FdaFacts.get_halts _ _ _ Eg).
  - destruct (c =? 200); reflexivity.
Qed.

(** Primary snippets that are truthy go on unchanged; the local retriever
    is not consulted. *)
Lemma select_hits_primary (embed : string -> vec) (query_text : string)
      (top_k : Z) (w : World) (v : json) :
  kb_primary_result w = Some v -> truthy v = true ->
  select_hits embed query_text top_k w
  = (Ret (Some v), after_request (kb_request query_text) w).
Proof.
  intros Hp Ht. unfold select_hits, bind.
  rewrite fetch_result, Hp, Ht. reflexivity.
Qed.

(** No primary snippets, or falsy ones: the secondary path decides. *)
Lemma select_hits_secondary (embed : string -> vec) (query_text : string)
      (top_k : Z) (w : World) :
  (kb_primary_result w = None
   \/ exists v, kb_primary_result w = Some v /\ truthy v = false) ->
  select_hits embed query_text top_k w
  = local_selection embed query_text top_k
                    (after_request (kb_request query_text) w).
Proof.
  intros H. unfold select_hits, local_selection. unfold bind at 1.
  rewrite fetch_result.
  destruct H as [-> | [v [-> Ht]]];
    [change (truthy JNull) with false | rewrite Ht]; cbn [negb];
    unfold bind; destruct (rag_lookup_kb _ _ _ _) as [[[|h hs]|e|] w'];
    reflexivity.
Qed.

(** What the secondary path hands on is a list of strings. *)
Lemma local_selection_shape (embed : string -> vec) (query_text : string)
      (top_k : Z) (w w' : World) (hits : json) :
  local_selection embed query_text top_k w = (Ret (Some hits), w') ->
  exists l : list string, hits = JArr (map JStr l).
Proof.
  unfold local_selection, bind, ret.
  destruct (rag_lookup_kb _ _ _ _) as [[[|h hs]|e|] w1]; intros H;
    try discriminate.
  injection H as <- _. eexists. reflexivity.
Qed.

(** *** Passage cleaning *)

Lemma len_append (a b : string) : len (a ++ b) = len a + len b.
Proof.
  unfold len. rewrite <- !length_chars, chars_app, length_app. lia.
Qed.

Lemma strip_dotted (s : string) :
  strip (s ++ "...") = str (lstrip_chars (chars s)) ++ "...".
Proof.
  unfold strip. rewrite chars_app.
  change (chars "...") with (["."; "."] ++ ["."])%char%list.
  rewrite app_assoc, strip_chars_solid_end by reflexivity.
  rewrite <- (str_chars (str _ ++ "...")), chars_app, chars_str.
  f_equal.
  rewrite (lstrip_app_solid (chars s) ["."%char] "."%char) by reflexivity.
  rewrite <- app_assoc. reflexivity.
Qed.

(** A passage above the threshold: cut to 950 characters, then back to the
    last blank when there is one, dots appended, blanks at the front
    removed. *)
Lemma clean_long_passage (s : string) :
  1000 < len s ->
  let window := prefix 950 s in
  let head := rsplit1_head window in
  let kept := str (lstrip_chars (chars head)) in
  clean_passage (JStr s) = Ret (kept ++ "...")
  /\ len (kept ++ "...") <= 953
  /\ ((exists tail, chars window = (chars head ++ space :: tail)%list
                    /\ ~ In space tail)
      \/ (~ In space (chars window) /\ head = window)).
Proof.
  intros Hlen window head kept. split; [|split].
  - unfold clean_passage. destruct (1000 <? len s) eqn:E; [|lia].
    f_equal. apply strip_dotted.
  - rewrite len_append. change (len "...") with 3.
    assert (H : (String.length kept <= 950)%nat).
    { unfold kept, head, window, rsplit1_head, prefix.
      rewrite length_str, !chars_str.
      pose proof (lstrip_length (rsplit1_head_chars (firstn 950 (chars s)))).
      pose proof (rsplit1_head_chars_length (firstn 950 (chars s))).
      pose proof (firstn_le_length 950 (chars s)). lia. }
    unfold len. lia.
  - unfold head, rsplit1_head. rewrite chars_str.
    destruct (rsplit1_head_chars_spec (chars window)) as [H | [H1 H2]].
    + left. exact H.
    + right. split; [exact H1|]. now rewrite H2, str_chars.
Qed.

Lemma clean_short_passage (s : string) :
  len s <= 1000 -> clean_passage (JStr s) = Ret (strip s).
Proof.
  intros H. unfold clean_passage. destruct (1000 <? len s) eqn:E; [lia|].
  reflexivity.
Qed.

End KbAgentFacts.

(* ================================================================= *)
(** ** Claims about the dispatcher and the truncation policy *)

Import KbAgent.

(** C1 (as stated) fails for guideline retrieval: the tool server answers
    status 200 with a well-formed result body whose snippet list is empty
    (what its [search_medical_guidelines] returns when its own retriever has
    no index), and the dispatcher consults the local retriever all the
    same: the snapshot is read and the local passages are what goes on. *)
Lemma kb_empty_primary_counterexample :
  fst (search_medical_guidelines Scenario.length_embed "xxx" 4
                                 (Scenario.with_replies []))
  = Ret (JObj [("guideline_snippets", JArr []); ("query_used", JStr "xxx")])
  /\ kb_primary_result
       (Scenario.with_snapshot Scenario.small_kb [Scenario.kb_reply [] "xxx"])
     = Some (JArr [])
  /\ fst (select_hits Scenario.length_embed "xxx" 2
            (Scenario.with_snapshot Scenario.small_kb
                                    [Scenario.kb_reply [] "xxx"]))
     = Ret (Some (JArr [JStr "bbb"; JStr "ccc"]))
  /\ storage_log
       (snd (select_hits Scenario.length_embed "xxx" 2
               (Scenario.with_snapshot Scenario.small_kb
                                       [Scenario.kb_reply [] "xxx"])))
     = [IoExists Kb.KB_INDEX_PICKLE; IoReadPickle Kb.KB_INDEX_PICKLE].
Proof. repeat split; vm_compute; reflexivity. Qed.

(** C1 (amended).  Drug safety: when the primary call returns status 200
    with a dict result body, [get_openfda_warnings] returns the record built
    from that body's brand, generic and warnings under the queried name,
    after the one request to the tool server and nothing else; on every
    other primary outcome it returns what the public lookup returns, a
    record of the same type.  Guidelines: primary snippets are used without
    consulting the local retriever exactly when the primary call returns
    status 200 with a result dict whose [guideline_snippets] value is
    non-empty; otherwise the local retriever decides, and what it hands on
    is a list of strings like the primary snippets. *)
Theorem remote_first_dispatch (embed : string -> vec) (name query : string)
        (k : Z) (w : World) :
  (forall m, primary_result w = Some m ->
     exists r,
       get_openfda_warnings name w = (Ret r, after_request (mcp_request name) w)
       /\ drug_name r = name
       /\ brand r = field m "brand" (JStr "N/A")
       /\ generic r = field m "generic" (JStr "N/A")
       /\ warnings r = field m "warnings" (JStr "No warnings available.")
       /\ http_log (after_request (mcp_request name) w)
          = (http_log w ++ [mcp_request name])%list)
  /\ (primary_result w = None ->
      get_openfda_warnings name w
      = public_lookup name (after_request (mcp_request name) w))
  /\ (forall v, kb_primary_result w = Some v -> truthy v = true ->
        select_hits embed query k w
        = (Ret (Some v), after_request (kb_request query) w)
        /\ storage_log (after_request (kb_request query) w) = storage_log w
        /\ kb_index_data (after_request (kb_request query) w) = kb_index_data w)
  /\ ((kb_primary_result w = None
       \/ exists v, kb_primary_result w = Some v /\ truthy v = false) ->
      select_hits embed query k w
      = local_selection embed query k (after_request (kb_request query) w)
      /\ forall hits w',
           select_hits embed query k w = (Ret (Some hits), w') ->
           exists l : list string, hits = JArr (map JStr l)).
Proof.
  split; [|split; [|split]].
  - intros m Hm. eexists. split.
    + apply (FdaFacts.get_openfda_warnings_primary name w m Hm).
    + repeat split.
  - apply FdaFacts.get_openfda_warnings_fallback.
  - intros v Hv Ht. split; [|split; reflexivity].
    now apply KbAgentFacts.select_hits_primary.
  - intros H.
    pose proof (KbAgentFacts.select_hits_secondary embed query k w H) as Hs.
    split; [exact Hs|].
    intros hits w' Hh. rewrite Hs in Hh.
    eapply KbAgentFacts.local_selection_shape. exact Hh.
Qed.

Lemma remote_first_dispatch_witness :
  exists r,
    get_openfda_warnings "aspirin"
      (Scenario.with_replies [Scenario.tool_reply Scenario.aspirin_result])
    = (Ret r, after_request (mcp_request "aspirin")
                (Scenario.with_replies [Scenario.tool_reply Scenario.aspirin_result]))
    /\ warnings r = JStr "Reye syndrome.".
Proof.
  destruct (remote_first_dispatch
              Scenario.length_embed "aspirin" "xxx" 4
              (Scenario.with_replies [Scenario.tool_reply Scenario.aspirin_result]))
    as [H _].
  destruct (H [("drug_name", JStr "aspirin"); ("brand", JStr "Bayer");
               ("generic", JStr "ASPIRIN"); ("warnings", JStr "Reye syndrome.");
               ("found", JBool true)] eq_refl)
    as [r [H1 [_ [_ [_ [H5 _]]]]]].
  exists r. split; [exact H1 | exact H5].
Defined.

(** C6 (as stated) fails: the batch verifier stores a warning of 1100
    characters as it came from the lookup, all 1100 characters of it. *)
Lemma batch_keeps_long_warning_counterexample :
  len Scenario.long_warning = 1100
  /\ fst (get_openfda_warnings_batch
            ["aspirin"]
            (Scenario.with_replies
               [NetError;
                Scenario.openfda_label "Bayer" "ASPIRIN" Scenario.long_warning]))
     = Ret (mkReport "success" 1
              [mkRecord "aspirin" (JStr "Bayer") (JStr "ASPIRIN")
                        (JStr Scenario.long_warning) true]).
Proof. split; vm_compute; reflexivity. Qed.

(** C6 (amended): the batch verifier truncates nothing; its records are
    those of the single lookups, and a record of the primary path carries
    the body's warning as it is.  The truncation lives in [kb_agent]'s
    cleaning of guideline passages: a passage longer than 1000 characters is
    cut to its first 950 characters, then back to the last blank among them
    when there is one (kept whole when there is none), followed by three
    dots, with leading blanks removed, so it has at most 953 characters and
    ends in the dots; a passage of at most 1000 characters is only
    stripped. *)
Theorem truncation_policy (names : list string) (w : World) (s : string) :
  get_openfda_warnings_batch names w
  = bind (mapM get_openfda_warnings (clean_names names))
         (fun rs => ret (report_of rs)) w
  /\ (forall name m, primary_result w = Some m ->
        exists r w',
          get_openfda_warnings name w = (Ret r, w')
          /\ warnings r = field m "warnings" (JStr "No warnings available."))
  /\ (1000 < len s ->
      exists kept,
        clean_passage (JStr s) = Ret (kept ++ "...")
        /\ len (kept ++ "...") <= 953
        /\ kept = str (lstrip_chars (chars (rsplit1_head (prefix 950 s))))
        /\ ((exists tail,
               chars (prefix 950 s)
               = (chars (rsplit1_head (prefix 950 s)) ++ space :: tail)%list
               /\ ~ In space tail)
            \/ (~ In space (chars (prefix 950 s))
                /\ rsplit1_head (prefix 950 s) = prefix 950 s)))
  /\ (len s <= 1000 -> clean_passage (JStr s) = Ret (strip s)).
Proof.
  split; [|split; [|split]].
  - unfold get_openfda_warnings_batch. unfold bind at 1.
    rewrite BatchFacts.batch_loop_mapM. unfold bind, ret.
    destruct (mapM _ _ w) as [[rs|e|] w']; reflexivity.
  - intros name m Hm. eexists _, _. split.
    + apply (FdaFacts.get_openfda_warnings_primary name w m Hm).
    + reflexivity.
  - intros Hlen.
    destruct (KbAgentFacts.clean_long_passage s Hlen) as [H1 [H2 H3]].
    eexists. split; [exact H1|]. split; [exact H2|]. split; [reflexivity|].
    exact H3.
  - apply KbAgentFacts.clean_short_passage.
Qed.

Lemma truncation_policy_witness :
  1000 < len Scenario.long_warning
  /\ exists kept,
       clean_passage (JStr Scenario.long_warning) = Ret (kept ++ "...")
       /\ len (kept ++ "...") <= 953.
Proof.
  split; [reflexivity|].
  destruct (truncation_policy [] (Scenario.with_replies []) Scenario.long_warning)
    as [_ [_ [H _]]].
  destruct H as [kept [H1 [H2 _]]]; [reflexivity|].
  exists kept. split; [exact H1 | exact H2].
Defined.

(* ================================================================= *)
(** * Further properties of the code *)

(** ** Text helpers *)

Module TextFacts.

Import Obs2 PyFacts Planner.

Lemma lstrip_head (c : ascii) (t : list ascii) :
  lstrip_chars (c :: t) = c :: t -> is_space c = false.
Proof.
  cbn. destruct (is_space c); [|reflexivity].
  intros H. pose proof (lstrip_length t) as Hl.
  rewrite H in Hl. cbn in Hl. lia.
Qed.

Lemma lstrip_idem (l : list ascii) :
  lstrip_chars (lstrip_chars l) = lstrip_chars l.
Proof.
  induction l as [|c l IH]; cbn; [reflexivity|].
  destruct (is_space c) eqn:E; [exact IH|].
  cbn. now rewrite E.
Qed.

(** [lstrip] removes a prefix of blanks. *)
Lemma lstrip_suffix (l : list ascii) :
  exists pre, l = (pre ++ lstrip_chars l)%list
              /\ Forall (fun c => is_space c = true) pre.
Proof.
  induction l as [|c l [pre [H Hp]]]; cbn.
  - exists []. split; [reflexivity | constructor].
  - destruct (is_space c) eqn:E.
    + exists (c :: pre). split; [cbn; now rewrite <- H | now constructor].
    + exists []. split; [reflexivity | constructor].
Qed.

Lemma strip_chars_of_trimmed (l : list ascii) :
  trimmed_chars l -> strip_chars l = l.
Proof.
  intros [H1 H2]. unfold strip_chars. rewrite H1, H2. apply rev_involutive.
Qed.

Lemma strip_chars_trimmed (l : list ascii) : trimmed_chars (strip_chars l).
Proof.
  unfold strip_chars, trimmed_chars.
  set (X := lstrip_chars l). set (Y := lstrip_chars (rev X)).
  split.
  - destruct (lstrip_suffix (rev X)) as [pre [Hpre _]]. fold Y in Hpre.
    assert (HX : X = (rev Y ++ rev pre)%list).
    { rewrite <- (rev_involutive X), Hpre, rev_app_distr. reflexivity. }
    destruct (rev Y) as [|c t] eqn:E; [reflexivity|].
    assert (Hc : is_space c = false).
    { apply (lstrip_head c (t ++ rev pre)).
      change (c :: t ++ rev pre)%list with ((c :: t) ++ rev pre)%list.
      rewrite <- HX. apply lstrip_idem. }
    cbn. now rewrite Hc.
  - rewrite rev_involutive. apply lstrip_idem.
Qed.

Lemma strip_trimmed (s : string) : trimmed (strip s).
Proof. unfold trimmed, strip. rewrite chars_str. apply strip_chars_trimmed. Qed.

Lemma strip_of_trimmed (s : string) : trimmed s -> strip s = s.
Proof.
  intros H. unfold strip. rewrite strip_chars_of_trimmed by exact H.
  apply str_chars.
Qed.

Lemma strip_idem (s : string) : strip (strip s) = strip s.
Proof. apply strip_of_trimmed, strip_trimmed. Qed.

Lemma strip_length (s : string) :
  (String.length (strip s) <= String.length s)%nat.
Proof.
  unfold strip. rewrite length_str, <- length_chars.
  apply strip_chars_length.
Qed.

(** *** lower *)

Lemma lower_char_space (c : ascii) : is_space (lower_char c) = is_space c.
Proof. destruct c as [[] [] [] [] [] [] [] []]; reflexivity. Qed.

Lemma lower_char_sep (c : ascii) : is_sep (lower_char c) = is_sep c.
Proof. destruct c as [[] [] [] [] [] [] [] []]; reflexivity. Qed.

Lemma lower_char_idem (c : ascii) : lower_char (lower_char c) = lower_char c.
Proof. destruct c as [[] [] [] [] [] [] [] []]; reflexivity. Qed.

Lemma lstrip_map_lower (l : list ascii) :
  lstrip_chars (map lower_char l) = map lower_char (lstrip_chars l).
Proof.
  induction l as [|c l IH]; cbn; [reflexivity|].
  rewrite lower_char_space. destruct (is_space c); [exact IH | reflexivity].
Qed.

Lemma trimmed_lower (s : string) : trimmed s -> trimmed (lower s).
Proof.
  unfold trimmed, trimmed_chars, lower. rewrite chars_str.
  intros [H1 H2]. split.
  - now rewrite lstrip_map_lower, H1.
  - now rewrite <- map_rev, lstrip_map_lower, H2.
Qed.

Lemma lower_idem (s : string) : lower (lower s) = lower s.
Proof.
  unfold lower. rewrite chars_str, map_map. f_equal.
  apply map_ext. apply lower_char_idem.
Qed.

Lemma lower_empty (s : string) : lower s = "" -> s = "".
Proof.
  unfold lower. intros H. apply (f_equal chars) in H.
  rewrite chars_str in H. cbn in H. apply map_eq_nil in H.
  rewrite <- (str_chars s), H. reflexivity.
Qed.

(** *** re.split *)

(** No piece of [re.split] holds a separator. *)
Lemma re_split_chars_pieces (cs cur : list ascii) (after_sep : bool) :
  Forall (fun c => is_sep c = false) cur ->
  Forall (Forall (fun c => is_sep c = false)) (re_split_chars cs cur after_sep).
Proof.
  revert cur after_sep. induction cs as [|c cs IH]; intros cur after_sep Hcur.
  - cbn. now repeat constructor.
  - cbn. destruct (is_sep c) eqn:E.
    + destruct after_sep; [|constructor; [exact Hcur|]]; apply IH; constructor.
    + apply IH. apply Forall_app. split; [exact Hcur | now repeat constructor].
Qed.

Lemma lstrip_keeps (P : ascii -> Prop) (l : list ascii) :
  Forall P l -> Forall P (lstrip_chars l).
Proof.
  induction 1 as [|c l Hc Hl IH]; cbn; [constructor|].
  destruct (is_space c); [exact IH | now constructor].
Qed.

Lemma strip_chars_keeps (P : ascii -> Prop) (l : list ascii) :
  Forall P l -> Forall P (strip_chars l).
Proof.
  intros H. unfold strip_chars.
  apply Forall_rev, lstrip_keeps, Forall_rev, lstrip_keeps, H.
Qed.

End TextFacts.

(* ================================================================= *)
(** ** More on the chunker *)

Module ChunkerMore.

Import Chunker Obs2 PyFacts ChunkerFacts.

Lemma split_collapse_chars (cs cur : list ascii) :
  split_chars (Kb.collapse_newlines_chars cs) cur = split_chars cs cur.
Proof.
  revert cur. induction cs as [|c cs IH]; intros cur; [reflexivity|].
  cbn [Kb.collapse_newlines_chars].
  destruct (Ascii.eqb c Kb.newline) eqn:Ec.
  - apply Ascii.eqb_eq in Ec. subst c.
    destruct cs as [|c' cs']; [reflexivity|].
    destruct (Ascii.eqb c' Kb.newline) eqn:Ec'.
    + apply Ascii.eqb_eq in Ec'. subst c'.
      rewrite IH. cbn [split_chars].
      change (is_space Kb.newline) with true. cbv iota.
      destruct cur; reflexivity.
    + cbn [split_chars]. change (is_space Kb.newline) with true. cbv iota.
      destruct cur; now rewrite IH.
  - cbn [split_chars]. destruct (is_space c); [destruct cur|]; now rewrite IH.
Qed.

Lemma split_collapse (text : string) :
  split (Kb.collapse_newlines text) = split text.
Proof.
  unfold split, Kb.collapse_newlines. rewrite chars_str.
  now rewrite split_collapse_chars.
Qed.

Lemma adjacent_map {A B} (f : A -> B) (l : list A) :
  adjacent (map f l) = map (fun p => (f (fst p), f (snd p))) (adjacent l).
Proof.
  induction l as [|x [|y l] IH]; try reflexivity.
  cbn [map adjacent] in *. now rewrite IH.
Qed.

Section Windows.

Variable tokens : list string.
Variables w o : Z.
Hypothesis overlap_ok : 0 <= o < w.

Local Abbreviation n := (Z.of_nat (List.length tokens)).

Lemma window_size (i : Z) :
  0 <= i < n ->
  (1 <= List.length (slice tokens i (i + w)) <= Z.to_nat w)%nat.
Proof.
  intros Hi. rewrite slice_window by lia.
  rewrite length_firstn, length_skipn. lia.
Qed.

Lemma windows_sizes (fuel : nat) (i : Z) :
  0 <= i ->
  Forall (fun x => (1 <= List.length x <= Z.to_nat w)%nat)
         (windows fuel tokens w o i).
Proof.
  revert i. induction fuel as [|fuel IH]; intros i Hi; cbn [windows];
    [constructor|].
  destruct (i <? n) eqn:E; constructor.
  - apply window_size. lia.
  - apply IH. lia.
Qed.

Lemma windows_adjacent (fuel : nat) (i : Z) :
  0 <= i ->
  Forall (fun p => skipn (Z.to_nat (w - o)) (fst p) = firstn (Z.to_nat o) (snd p))
         (adjacent (windows fuel tokens w o i)).
Proof.
  revert i. induction fuel as [|fuel IH]; intros i Hi; cbn [windows];
    [constructor|].
  destruct (i <? n) eqn:E; [|constructor].
  specialize (IH (i + (w - o)) ltac:(lia)).
  destruct fuel as [|fuel]; [constructor|].
  cbn [windows] in *.
  destruct (i + (w - o) <? n) eqn:E2; [|constructor].
  cbn [adjacent]. constructor; [|exact IH].
  cbn [fst snd]. rewrite !slice_window by lia.
  rewrite skipn_firstn_comm, skipn_skipn, firstn_firstn.
  replace (Z.to_nat (w - o) + Z.to_nat i)%nat with (Z.to_nat (i + (w - o))) by lia.
  f_equal. lia.
Qed.

End Windows.

Lemma chunks_of_text (text : string) (w o : Z) (chunks : list string) :
  1 <= w - o ->
  chunk_text text w o = Ret chunks ->
  chunks = map (join " ")
               (windows (S (List.length (split text))) (split text) w o 0).
Proof.
  intros Hs H. destruct (chunk_text_returns text w o Hs) as [Hr _].
  rewrite Hr in H. now apply Ret_inj in H.
Qed.

Lemma map_split_join (wins : list (list string)) :
  Forall (Forall (fun t => is_token t = true)) wins ->
  map split (map (join " ") wins) = wins.
Proof.
  induction 1 as [|x l Hx Hl IH]; [reflexivity|].
  cbn [map]. now rewrite split_join, IH.
Qed.

Lemma chunk_text_stuck (text : string) (w o : Z) :
  w - o <= 0 -> split text <> [] -> chunk_text text w o = Diverge.
Proof.
  intros Hs Hne. unfold chunk_text.
  rewrite chunk_loop_stuck; [reflexivity | lia |].
  destruct (split text); [contradiction | cbn [List.length]; lia].
Qed.

End ChunkerMore.

Import Chunker.

(** X1: [chunk_text] returns the empty list exactly for a text without a
    token (empty or all blanks), and it does so for any window and overlap,
    the ones with [overlap >= chunk_size] included. *)
Theorem chunk_text_empty_iff (text : string) (w o : Z) :
  chunk_text text w o = Ret [] <-> split text = [].
Proof.
  split.
  - intros H. destruct (split text) as [|t ts] eqn:E; [reflexivity|].
    exfalso.
    destruct (Z_le_gt_dec 1 (w - o)) as [Hs | Hs].
    + apply (ChunkerMore.chunks_of_text text w o [] Hs) in H.
      rewrite E in H. cbn in H. discriminate H.
    + rewrite ChunkerMore.chunk_text_stuck in H; [discriminate H | lia |].
      rewrite E. discriminate.
  - intros E. unfold chunk_text. rewrite E. reflexivity.
Qed.

Lemma chunk_text_empty_iff_witness :
  split "  " = [] /\ chunk_text "  " 1 5 = Ret [].
Proof.
  split; [reflexivity|].
  apply (chunk_text_empty_iff "  " 1 5). reflexivity.
Defined.

(** X2: for [0 <= o < w] and a text with at least one token, [chunk_text]
    returns a single chunk exactly when the text has at most [w - o] tokens
    (not: fewer than [w]), and that chunk is the tokens joined by single
    blanks. *)
Theorem chunk_text_single_chunk (text : string) (w o : Z)
        (chunks : list string) :
  0 <= o < w ->
  split text <> [] ->
  chunk_text text w o = Ret chunks ->
  (List.length chunks = 1%nat
   <-> Z.of_nat (List.length (split text)) <= w - o)
  /\ (Z.of_nat (List.length (split text)) <= w - o ->
      chunks = [join " " (split text)]).
Proof.
  intros Ho Hne H.
  pose proof (ChunkerFacts.chunk_text_count text w o chunks ltac:(lia) H) as Hc.
  pose proof (ChunkerMore.chunks_of_text text w o chunks ltac:(lia) H) as Hw.
  set (n := Z.of_nat (List.length (split text))) in *.
  assert (Hn : 0 < n).
  { subst n. destruct (split text); [contradiction | cbn [List.length]; lia]. }
  split.
  - unfold ceil_div in Hc. split; intros Hl.
    + rewrite Hl in Hc.
      destruct (Z_le_gt_dec n (w - o)) as [Hle | Hgt]; [exact Hle|].
      exfalso.
      assert (2 <= (n + (w - o) - 1) / (w - o))
        by (apply Z.div_le_lower_bound; lia).
      lia.
    + assert (E : (n + (w - o) - 1) / (w - o) = 1).
      { symmetry. apply (Z.div_unique _ _ 1 (n - 1)); lia. }
      lia.
  - intros Hle. rewrite Hw. cbn [windows]. fold n.
    destruct (0 <? n) eqn:E; [|apply Z.ltb_ge in E; lia].
    assert (Hrest : windows (List.length (split text)) (split text) w o
                            (0 + (w - o)) = []).
    { destruct (List.length (split text)) eqn:El; [reflexivity|].
      cbn [windows]. rewrite El.
      destruct (0 + (w - o) <? Z.of_nat (S n0)) eqn:E2; [|reflexivity].
      apply Z.ltb_lt in E2. subst n. lia. }
    rewrite Hrest. cbn [map]. do 2 f_equal.
    rewrite PyFacts.slice_window by lia. cbn [Z.to_nat skipn].
    apply firstn_all2. subst n. lia.
Qed.

Lemma chunk_text_single_chunk_witness :
  chunk_text "a b c" 5 2 = Ret ["a b c"]
  /\ (List.length ["a b c"] = 1%nat
      <-> Z.of_nat (List.length (split "a b c")) <= 5 - 2).
Proof.
  assert (H : chunk_text "a b c" 5 2 = Ret ["a b c"]) by reflexivity.
  split; [exact H|].
  apply (chunk_text_single_chunk "a b c" 5 2 ["a b c"]);
    [lia | discriminate | exact H].
Defined.

(** X3: for [0 <= o < w], every chunk [chunk_text] returns holds at least
    one and at most [w] tokens. *)
Theorem chunk_text_chunk_sizes (text : string) (w o : Z)
        (chunks : list string) :
  0 <= o < w ->
  chunk_text text w o = Ret chunks ->
  Forall (fun c => (1 <= List.length (split c) <= Z.to_nat w)%nat) chunks.
Proof.
  intros Ho H.
  rewrite (ChunkerMore.chunks_of_text text w o chunks ltac:(lia) H).
  set (wins := windows _ _ _ _ _).
  assert (Htok : Forall (Forall (fun t => is_token t = true)) wins)
    by apply ChunkerFacts.windows_tokens, PyFacts.split_tokens.
  assert (Hsz : Forall (fun x => (1 <= List.length x <= Z.to_nat w)%nat) wins)
    by (apply ChunkerMore.windows_sizes; lia).
  apply Forall_map. revert Hsz. induction Htok as [|x l Hx Hl IH];
    intros Hsz; [constructor|].
  apply Forall_cons_iff in Hsz as [Hx' Hl'].
  constructor; [now rewrite PyFacts.split_join | now apply IH].
Qed.

Lemma chunk_text_chunk_sizes_witness :
  Forall (fun c => (1 <= List.length (split c) <= Z.to_nat 2)%nat)
         ["a b"; "b c"; "c"].
Proof.
  apply (chunk_text_chunk_sizes "a b c" 2 1); [lia | reflexivity].
Defined.

(** X4: for [0 <= o < w], any two consecutive chunks overlap as asked:
    what is left of a chunk after its first [w - o] tokens is the first
    [o] tokens of the next chunk. *)
Theorem chunk_text_overlap (text : string) (w o : Z) (chunks : list string) :
  0 <= o < w ->
  chunk_text text w o = Ret chunks ->
  Forall (fun p => skipn (Z.to_nat (w - o)) (split (fst p))
                   = firstn (Z.to_nat o) (split (snd p)))
         (Obs2.adjacent chunks).
Proof.
  intros Ho H.
  rewrite (ChunkerMore.chunks_of_text text w o chunks ltac:(lia) H).
  set (wins := windows _ _ _ _ _).
  assert (Htok : Forall (Forall (fun t => is_token t = true)) wins)
    by apply ChunkerFacts.windows_tokens, PyFacts.split_tokens.
  assert (Hadj : Forall (fun p => skipn (Z.to_nat (w - o)) (fst p)
                                  = firstn (Z.to_nat o) (snd p))
                        (Obs2.adjacent wins))
    by (apply ChunkerMore.windows_adjacent; lia).
  clearbody wins. clear H.
  induction wins as [|x [|y l] IH]; try constructor.
  - cbn [fst snd].
    apply Forall_cons_iff in Htok as [Hx Htok].
    apply Forall_cons_iff in Htok as [Hy _].
    rewrite !PyFacts.split_join by assumption.
    cbn [Obs2.adjacent] in Hadj. apply Forall_cons_iff in Hadj as [Hp _].
    exact Hp.
  - apply IH.
    + now apply Forall_cons_iff in Htok as [_ Htok].
    + cbn [Obs2.adjacent] in Hadj. now apply Forall_cons_iff in Hadj as [_ Hadj].
Qed.

Lemma chunk_text_overlap_witness :
  Forall (fun p => skipn (Z.to_nat (3 - 1)) (split (fst p))
                   = firstn (Z.to_nat 1) (split (snd p)))
         (Obs2.adjacent ["a b c"; "c d e"; "e"]).
Proof.
  apply (chunk_text_overlap "a b c d e" 3 1); [lia | reflexivity].
Defined.

(** X5: the newline normalisation that [build_kb_index] applies before
    chunking has no effect on the chunks: [chunk_text] gives the same result
    on the text with runs of newlines collapsed as on the text itself. *)
Theorem chunk_text_ignores_newline_runs (text : string) (w o : Z) :
  chunk_text (Kb.collapse_newlines text) w o = chunk_text text w o.
Proof.
  unfold chunk_text. now rewrite ChunkerMore.split_collapse.
Qed.

(* ================================================================= *)
(** ** More on the drug-safety lookup *)

Module FdaMore.

Import Fda FdaServer Obs Obs2.

#[local] Arguments get : simpl never.
#[local] Arguments index0 : simpl never.
#[local] Arguments truthy : simpl never.

Ltac run_world := FdaFacts.run_world.
Ltac step_outcome := FdaFacts.step_outcome.
Ltac no_diverge := FdaFacts.no_diverge.

(** The requests of the public lookup: the brand query, and the generic
    query only after a brand query without match. *)
Lemma openfda_attempt_log (name : string) (w : World) :
  http_log (snd (openfda_attempt name w))
  = (http_log w
     ++ brand_query name
     :: (if no_match (next_result w) then [generic_query name] else []))%list.
Proof.
  unfold openfda_attempt, no_match, next_result, brand_query, generic_query.
  cbn [openfda_loop]. run_world.
  destruct (http_tape w) as [|[|c body] tape]; cbn; try reflexivity.
  destruct (c =? 200); cbn.
  - destruct body as [body|]; cbn; [|reflexivity].
    destruct (get body "results" (JArr [])) as [data| |] eqn:Eg; cbn;
      try reflexivity.
    destruct (truthy data); cbn.
    + repeat (step_outcome; cbn; try reflexivity).
    + destruct tape as [|[|c2 body2] tape2]; cbn; rewrite <- ?app_assoc;
        try reflexivity.
      repeat (step_outcome; cbn; try reflexivity).
  - destruct tape as [|[|c2 body2] tape2]; cbn; rewrite <- ?app_assoc;
      try reflexivity.
    repeat (step_outcome; cbn; try reflexivity).
Qed.

Lemma public_lookup_log (name : string) (w : World) :
  http_log (snd (public_lookup name w))
  = http_log (snd (openfda_attempt name w)).
Proof.
  unfold public_lookup, bind, try_except, ret.
  destruct (openfda_attempt name w) as [[[r|]|e|] w']; reflexivity.
Qed.

(** A brand query that raises ends the lookup with the sentinel. *)
Lemma openfda_attempt_raises (name : string) (w : World) (e : exn) :
  fst (openfda_loop ["brand_name"] name w) = Raise e ->
  public_lookup name w
  = (Ret (not_found_record name), after_request (brand_query name) w).
Proof.
  unfold public_lookup, openfda_attempt, after_request, brand_query.
  cbn [openfda_loop]. run_world.
  destruct (http_tape w) as [|[|c body] tape]; cbn; try reflexivity.
  destruct (c =? 200); cbn; [|discriminate].
  destruct body as [body|]; cbn; [|reflexivity].
  destruct (get body "results" (JArr [])) as [data| |] eqn:Eg; cbn;
    try reflexivity; try discriminate.
  destruct (truthy data); cbn; [|discriminate].
  repeat (step_outcome; cbn; try reflexivity; try discriminate).
Qed.

End FdaMore.

Import Fda FdaServer Obs Obs2.

(** X6: [get_openfda_warnings] always returns a record for the queried
    name, after one POST to the tool server and, only when that path did not
    answer, the brand query and then, only when the brand query came back
    without raising and without a match, the generic query: at most three
    requests, in that order. *)
Theorem get_openfda_warnings_requests (name : string) (w : World) :
  exists r w',
    get_openfda_warnings name w = (Ret r, w')
    /\ drug_name r = name
    /\ http_log w'
       = (http_log w
          ++ mcp_request name
          :: match primary_result w with
             | Some _ => []
             | None =>
                 brand_query name
                 :: (if no_match (next_result (after_request (mcp_request name) w))
                     then [generic_query name] else [])
             end)%list.
Proof.
  destruct (FdaFacts.get_openfda_warnings_returns name w) as [r [w' [H [Hn _]]]].
  exists r, w'. split; [exact H|]. split; [exact Hn|].
  replace w' with (snd (get_openfda_warnings name w)) by now rewrite H.
  destruct (primary_result w) as [m|] eqn:E.
  - now rewrite (FdaFacts.get_openfda_warnings_primary name w m E).
  - rewrite (FdaFacts.get_openfda_warnings_fallback name w E).
    rewrite FdaMore.public_lookup_log, FdaMore.openfda_attempt_log.
    unfold after_request at 1. cbn [send snd http_log].
    now rewrite <- app_assoc.
Qed.

(** X7: the public lookup gives up at the first exception.  When the brand
    query fails to connect, or its 200 body is not JSON, or is JSON of any
    kind but a dict, or is a dict whose first label, whatever else the body
    and the label hold, has an empty [brand_name] list, the sentinel record
    is returned and the generic name is never queried. *)
Theorem public_lookup_gives_up (name : string) (w : World) :
  (next_result w = NetError
   \/ next_result w = Reply 200 None
   \/ (exists body,
         next_result w = Reply 200 (Some body) /\ is_dict body = false)
   \/ (exists body m o rest,
         next_result w = Reply 200 (Some (JObj body))
         /\ field body "results" (JArr []) = JArr (JObj m :: rest)
         /\ field m "openfda" (JObj []) = JObj o
         /\ field o "brand_name" (JArr [JStr "N/A"]) = JArr [])) ->
  _call_openfda_api name w
  = (Ret (not_found_record name), after_request (brand_query name) w)
  /\ public_lookup name w
     = (Ret (not_found_record name), after_request (brand_query name) w)
  /\ http_log (after_request (brand_query name) w)
     = (http_log w ++ [brand_query name])%list.
Proof.
  intros H.
  assert (He : exists e, fst (openfda_loop ["brand_name"] name w) = Raise e).
  { unfold next_result, field in H. cbn [openfda_loop].
    unfold bind, lift, ret, raise, requests_get, receive, send, resp_json.
    cbn.
    destruct (http_tape w) as [|x tape].
    - eexists. reflexivity.
    - destruct H as [-> | [-> | [[body [-> Hb]] | [body [m [o [rest H]]]]]]].
      + eexists. reflexivity.
      + eexists. reflexivity.
      + destruct body; try discriminate Hb; eexists; reflexivity.
      + destruct H as [-> [Hr [Ho Hbn]]]. cbn. unfold get.
        rewrite Hr. cbn. rewrite Ho. cbn. rewrite Hbn. cbn.
        eexists. reflexivity. }
  destruct He as [e He].
  pose proof (FdaMore.openfda_attempt_raises name w e He) as Hp.
  split; [exact Hp|]. split; [exact Hp | reflexivity].
Qed.

Lemma public_lookup_gives_up_witness :
  (public_lookup "aspirin"
     (Scenario.with_replies [NetError; Scenario.openfda_label "B" "G" "W"])
   = (Ret (not_found_record "aspirin"),
      after_request (brand_query "aspirin")
        (Scenario.with_replies [NetError; Scenario.openfda_label "B" "G" "W"])))
  /\ (public_lookup "aspirin"
        (Scenario.with_replies [Reply 200 (Some (JStr "busy"));
                                Scenario.openfda_label "B" "G" "W"])
      = (Ret (not_found_record "aspirin"),
         after_request (brand_query "aspirin")
           (Scenario.with_replies [Reply 200 (Some (JStr "busy"));
                                   Scenario.openfda_label "B" "G" "W"])))
  /\ (public_lookup "aspirin"
        (Scenario.with_replies [Scenario.openfda_unbranded "G" "W";
                                Scenario.openfda_label "B" "G" "W"])
      = (Ret (not_found_record "aspirin"),
         after_request (brand_query "aspirin")
           (Scenario.with_replies [Scenario.openfda_unbranded "G" "W";
                                   Scenario.openfda_label "B" "G" "W"]))).
Proof.
  split; [|split].
  - apply (public_lookup_gives_up "aspirin"
             (Scenario.with_replies [NetError; Scenario.openfda_label "B" "G" "W"])).
    left. reflexivity.
  - apply (public_lookup_gives_up "aspirin"
             (Scenario.with_replies [Reply 200 (Some (JStr "busy"));
                                     Scenario.openfda_label "B" "G" "W"])).
    right. right. left. exists (JStr "busy"). split; reflexivity.
  - apply (public_lookup_gives_up "aspirin"
             (Scenario.with_replies [Scenario.openfda_unbranded "G" "W";
                                     Scenario.openfda_label "B" "G" "W"])).
    right. right. right. eexists _, _, _, _.
    split; [reflexivity|]. split; [reflexivity|]. split; reflexivity.
Defined.

(** X8: a match is reported from the first label of the reply and the
    first entry of each of its lists, with defaults for what is absent: a
    label without [openfda] block gives the names "N/A", a label without
    [warnings] the text "No warnings available.", and the record is
    [found = true] all the same. *)
Theorem public_lookup_first_label (name : string) (w : World)
        (body m o : list (string * json)) (rest : list json)
        (bv gv wv : json) :
  next_result w = Reply 200 (Some (JObj body)) ->
  field body "results" (JArr []) = JArr (JObj m :: rest) ->
  field m "openfda" (JObj []) = JObj o ->
  index0 (field o "brand_name" (JArr [JStr "N/A"])) = Ret bv ->
  index0 (field o "generic_name" (JArr [JStr "N/A"])) = Ret gv ->
  index0 (field m "warnings" (JArr [JStr "No warnings available."])) = Ret wv ->
  public_lookup name w
  = (Ret (mkRecord name bv gv wv true), after_request (brand_query name) w).
Proof.
  unfold next_result, field. intros Hn Hr Ho Hb Hg Hw.
  unfold public_lookup, openfda_attempt, after_request, brand_query.
  cbn [openfda_loop].
  unfold bind, try_except, lift, ret, raise, requests_get, receive, send,
    resp_json.
  cbn. destruct (http_tape w) as [|x tape]; [discriminate Hn|].
  subst x. cbn. unfold get. rewrite Hr. cbn.
  rewrite Ho. cbn. rewrite Hb. cbn. rewrite Hg. cbn. rewrite Hw. cbn.
  reflexivity.
Qed.

Lemma public_lookup_first_label_witness :
  public_lookup "aspirin"
    (Scenario.with_replies [Reply 200 (Some (JObj [("results", JArr [JObj []])]))])
  = (Ret (mkRecord "aspirin" (JStr "N/A") (JStr "N/A")
                   (JStr "No warnings available.") true),
     after_request (brand_query "aspirin")
       (Scenario.with_replies
          [Reply 200 (Some (JObj [("results", JArr [JObj []])]))])).
Proof.
  apply (public_lookup_first_label
           "aspirin"
           (Scenario.with_replies
              [Reply 200 (Some (JObj [("results", JArr [JObj []])]))])
           [("results", JArr [JObj []])] [] [] []);
    reflexivity.
Defined.

(* ================================================================= *)
(** ** More on the batch verifier *)

Module BatchMore.

Import Fda FdaServer Obs Obs2.

Lemma mapM_app {A B} (f : A -> M B) (l1 l2 : list A) (w : World) :
  mapM f (l1 ++ l2) w
  = bind (mapM f l1) (fun xs =>
    bind (mapM f l2) (fun ys => ret (xs ++ ys)%list)) w.
Proof.
  revert w. induction l1 as [|x l1 IH]; intros w; cbn [app mapM];
    unfold bind, ret in *.
  - destruct (mapM f l2 w) as [[ys|e|] w']; reflexivity.
  - destruct (f x w) as [[y|e|] w1]; try reflexivity.
    rewrite IH.
    destruct (mapM f l1 w1) as [[xs|e|] w2]; try reflexivity.
    destruct (mapM f l2 w2) as [[ys|e|] w3]; reflexivity.
Qed.

Lemma clean_names_app (a b : list string) :
  clean_names (a ++ b) = (clean_names a ++ clean_names b)%list.
Proof. unfold clean_names. now rewrite map_app, filter_app. Qed.

Lemma clean_names_idem (names : list string) :
  clean_names (clean_names names) = clean_names names.
Proof.
  unfold clean_names. induction names as [|x names IH]; [reflexivity|].
  cbn [map filter].
  destruct (String.eqb (strip x) "") eqn:E; cbn [negb]; [exact IH|].
  cbn [map filter]. rewrite TextFacts.strip_idem, E. cbn [negb].
  now rewrite IH.
Qed.

Lemma answers_names (names : list string) (rs : list DrugSafetyRecord) :
  Forall2 answers names rs -> map drug_name rs = names.
Proof.
  induction 1 as [|x r l rs [Hn _] _ IH]; [reflexivity|].
  cbn. now rewrite Hn, IH.
Qed.

Lemma report_of_inj (a b : list DrugSafetyRecord) :
  report_of a = report_of b -> a = b.
Proof. intros H. apply (f_equal results) in H. exact H. Qed.

(** The client batch, as a traversal of the cleaned names. *)
Lemma batch_as_mapM (names : list string) (w : World) :
  get_openfda_warnings_batch names w
  = bind (mapM get_openfda_warnings (clean_names names))
         (fun rs => ret (report_of rs)) w.
Proof.
  unfold get_openfda_warnings_batch. unfold bind at 1.
  rewrite BatchFacts.batch_loop_mapM. unfold bind, ret.
  destruct (mapM _ _ w) as [[rs|e|] w']; reflexivity.
Qed.

End BatchMore.

(** X9: a batch over a concatenated list is the batch over the first part
    followed, in the world it leaves, by the batch over the second part: the
    results are appended in order and the counts add up. *)
Theorem batch_of_concatenation (a b : list string) (w : World) :
  exists ra rb w1 w2,
    get_openfda_warnings_batch a w = (Ret (report_of ra), w1)
    /\ get_openfda_warnings_batch b w1 = (Ret (report_of rb), w2)
    /\ get_openfda_warnings_batch (a ++ b) w
       = (Ret (report_of (ra ++ rb)), w2)
    /\ count (report_of (ra ++ rb))
       = count (report_of ra) + count (report_of rb).
Proof.
  destruct (BatchFacts.get_openfda_warnings_batch_returns a w)
    as [ra [w1 [Ha _]]].
  destruct (BatchFacts.get_openfda_warnings_batch_returns b w1)
    as [rb [w2 [Hb _]]].
  exists ra, rb, w1, w2. split; [exact Ha|]. split; [exact Hb|]. split.
  - rewrite BatchMore.batch_as_mapM in *.
    rewrite BatchMore.clean_names_app. unfold bind at 1.
    rewrite BatchMore.mapM_app.
    unfold bind, ret in *.
    destruct (mapM get_openfda_warnings (clean_names a) w) as [[xs|e|] w1'];
      try discriminate.
    assert (Hxa : report_of xs = report_of ra /\ w1' = w1)
      by (split; congruence).
    destruct Hxa as [Hxs ->].
    destruct (mapM get_openfda_warnings (clean_names b) w1) as [[ys|e|] w2'];
      try discriminate.
    assert (Hyb : report_of ys = report_of rb /\ w2' = w2)
      by (split; congruence).
    destruct Hyb as [Hys ->].
    apply BatchMore.report_of_inj in Hxs, Hys.
    now subst.
  - unfold report_of. cbn [count]. rewrite length_app. lia.
Qed.

(** X10: the batch depends on its input only through the cleaned names:
    blank entries and blanks around a name change nothing, the records carry
    the cleaned names in input order, and [count] is their number. *)
Theorem batch_depends_on_clean_names (names : list string) (w : World) :
  exists rs w',
    get_openfda_warnings_batch names w = (Ret (report_of rs), w')
    /\ get_openfda_warnings_batch (clean_names names) w
       = (Ret (report_of rs), w')
    /\ map drug_name rs = clean_names names
    /\ count (report_of rs) = Z.of_nat (List.length (clean_names names)).
Proof.
  destruct (BatchFacts.get_openfda_warnings_batch_returns names w)
    as [rs [w' [H HP]]].
  exists rs, w'. split; [exact H|].
  pose proof (BatchMore.answers_names _ _ HP) as Hn.
  split; [|split; [exact Hn|]].
  - rewrite BatchMore.batch_as_mapM in *.
    now rewrite BatchMore.clean_names_idem.
  - unfold report_of. cbn [count]. now rewrite <- Hn, length_map.
Qed.

(* ================================================================= *)
(** ** The FDA tool server *)

Module ServerFacts.

Import Fda FdaServer FdaEndpoint Obs Obs2.

Lemma make_single_cases (name : string) (r : DrugSafetyRecord) :
  (exists b g wn,
     brand r = JStr b /\ generic r = JStr g /\ warnings r = JStr wn
     /\ make_single name r = Ret (mkSingle name b g wn (found r)))
  \/ make_single name r = Raise ValidationError.
Proof.
  unfold make_single, as_str.
  destruct (brand r) as [| | |b| |]; cbn; auto.
  destruct (generic r) as [| | |g| |]; cbn; auto.
  destruct (warnings r) as [| | |wn| |]; cbn; auto.
  left. exists b, g, wn. auto.
Qed.

Lemma make_results_halts (rs : list DrugSafetyRecord) :
  make_results rs <> Diverge.
Proof.
  induction rs as [|r rs IH]; cbn; [discriminate|].
  destruct (make_single_cases (drug_name r) r) as [[b [g [wn [_ [_ [_ ->]]]]]] | ->];
    cbn; [|discriminate].
  destruct (make_results rs); cbn; [discriminate | discriminate | contradiction].
Qed.

Lemma check_drug_safety_halts (name : string) (w : World) :
  fst (check_drug_safety name w) <> Diverge.
Proof.
  unfold check_drug_safety.
  destruct (String.eqb name "" || String.eqb (strip name) ""); [discriminate|].
  unfold bind, lift.
  destruct (BatchFacts._call_openfda_api_returns name w) as [r [w' [-> _]]].
  cbn. destruct (make_single_cases name r) as [[b [g [wn [_ [_ [_ ->]]]]]] | ->];
    discriminate.
Qed.

Lemma batch_loop_any_halts (l : list json) (acc : list DrugSafetyRecord)
      (w : World) :
  fst (batch_loop_any _call_openfda_api l acc w) <> Diverge.
Proof.
  revert acc w. induction l as [|x l IH]; intros acc w; [discriminate|].
  cbn [batch_loop_any].
  destruct x; try discriminate.
  destruct (String.eqb (strip s) ""); [apply IH|].
  unfold bind.
  destruct (BatchFacts._call_openfda_api_returns (strip s) w) as [r [w' [-> _]]].
  apply IH.
Qed.

Lemma any_strip_halts (l : list json) : any_strip l <> Diverge.
Proof.
  induction l as [|x l IH]; [discriminate|]. cbn.
  destruct x; try discriminate.
  destruct (String.eqb (strip s) ""); [exact IH | discriminate].
Qed.

Lemma check_multiple_drugs_any_halts (v : json) (w : World) :
  fst (check_multiple_drugs_any v w) <> Diverge.
Proof.
  unfold check_multiple_drugs_any.
  destruct (has_len v); cbn [negb]; [|discriminate].
  destruct (truthy v); cbn [negb]; [|discriminate].
  unfold bind, lift, ret.
  destruct (iter v) as [l|e|] eqn:Ei; cbn; try discriminate.
  - pose proof (any_strip_halts l) as Ha.
    destruct (any_strip l) as [[]|e|]; cbn; try discriminate; [|contradiction].
    pose proof (batch_loop_any_halts l [] w) as Hb.
    destruct (batch_loop_any _call_openfda_api l [] w) as [[rs|e|] w'];
      cbn in *; try discriminate; [|contradiction].
    pose proof (make_results_halts rs) as Hm.
    destruct (make_results rs); cbn; try discriminate. contradiction.
  - destruct v; discriminate Ei.
Qed.

(** On a list of strings the raw-argument version is [check_multiple_drugs]. *)
Lemma batch_loop_any_strings (lookup : string -> M DrugSafetyRecord)
      (names : list string) (acc : list DrugSafetyRecord) (w : World) :
  batch_loop_any lookup (map JStr names) acc w = batch_loop lookup names acc w.
Proof.
  revert acc w. induction names as [|x names IH]; intros acc w; [reflexivity|].
  cbn [map batch_loop_any batch_loop].
  destruct (String.eqb (strip x) ""); [apply IH|].
  unfold bind. destruct (lookup (strip x) w) as [[r|e|] w']; try reflexivity.
  apply IH.
Qed.

Lemma any_strip_strings (names : list string) :
  any_strip (map JStr names) = Ret (any_nonblank names).
Proof.
  induction names as [|x names IH]; [reflexivity|].
  cbn. destruct (String.eqb (strip x) ""); [exact IH | reflexivity].
Qed.

Lemma check_multiple_drugs_any_strings (names : list string) (w : World) :
  check_multiple_drugs_any (JArr (map JStr names)) w
  = check_multiple_drugs names w.
Proof.
  unfold check_multiple_drugs_any, check_multiple_drugs, _call_openfda_api_batch.
  cbn [has_len negb iter].
  destruct names as [|x names]; [reflexivity|].
  cbn [truthy map negb orb].
  change (JStr x :: map JStr names) with (map JStr (x :: names)).
  unfold bind at 1 2. unfold lift at 1 2.
  rewrite (any_strip_strings (x :: names)).
  destruct (any_nonblank (x :: names)); cbn [negb]; [|reflexivity].
  unfold bind, ret.
  rewrite (batch_loop_any_strings _call_openfda_api (x :: names) [] w).
  destruct (batch_loop _call_openfda_api (x :: names) [] w) as [[rs|e|] w'];
    reflexivity.
Qed.

End ServerFacts.

Import FdaEndpoint.

(** What [check_drug_safety] does with a non-blank name. *)
Lemma check_drug_safety_total (name : string) (w : World) :
  strip name <> "" ->
  exists r w',
    _call_openfda_api name w = (Ret r, w')
    /\ ((exists b g wn,
           brand r = JStr b /\ generic r = JStr g /\ warnings r = JStr wn
           /\ check_drug_safety name w
              = (Ret (mkSingle name b g wn (found r)), w'))
        \/ check_drug_safety name w = (Raise ValidationError, w')).
Proof.
  intros H.
  assert (Hn : String.eqb name "" = false).
  { apply String.eqb_neq. intros ->. now apply H. }
  apply String.eqb_neq in H.
  destruct (BatchFacts._call_openfda_api_returns name w) as [r [w' [Hr _]]].
  exists r, w'. split; [exact Hr|].
  unfold check_drug_safety. rewrite Hn, H. cbn [orb].
  unfold bind, lift. rewrite Hr.
  destruct (ServerFacts.make_single_cases name r)
    as [[b [g [wn [Hb [Hg [Hw Hs]]]]]] | Hs]; rewrite Hs.
  - left. exists b, g, wn. auto.
  - right. reflexivity.
Qed.

(** X11: [check_drug_safety] answers a blank name with the invalid-name
    record without any request.  For any other name it looks the name up as
    given, blanks around it included (the brand query is the first request),
    and then either returns the lookup's values under that name with its
    [found] flag, or raises a validation error because a value of the lookup
    is not a string; it raises nothing else. *)
Theorem check_drug_safety_cases (name : string) (w : World) :
  (strip name = "" ->
   check_drug_safety name w
   = (Ret (mkSingle "N/A" "N/A" "N/A"
                    "Invalid or empty drug name provided." false), w))
  /\ (strip name <> "" ->
      exists r w',
        _call_openfda_api name w = (Ret r, w')
        /\ firstn (S (List.length (http_log w))) (http_log w')
           = (http_log w ++ [brand_query name])%list
        /\ ((exists b g wn,
               brand r = JStr b /\ generic r = JStr g /\ warnings r = JStr wn
               /\ check_drug_safety name w
                  = (Ret (mkSingle name b g wn (found r)), w'))
            \/ check_drug_safety name w = (Raise ValidationError, w'))).
Proof.
  split.
  - intros H. unfold check_drug_safety. rewrite H. cbn.
    now rewrite orb_true_r.
  - intros H.
    assert (Hn : String.eqb name "" = false).
    { apply String.eqb_neq. intros ->. now apply H. }
    apply String.eqb_neq in H.
    destruct (BatchFacts._call_openfda_api_returns name w) as [r [w' [Hr _]]].
    exists r, w'. split; [exact Hr|]. split.
    + replace w' with (snd (public_lookup name w))
        by (unfold _call_openfda_api in Hr; unfold public_lookup; now rewrite Hr).
      rewrite FdaMore.public_lookup_log, FdaMore.openfda_attempt_log.
      rewrite firstn_app, firstn_all2 by lia.
      replace (S (List.length (http_log w)) - List.length (http_log w))%nat
        with 1%nat by lia.
      reflexivity.
    + unfold check_drug_safety. rewrite Hn, H. cbn [orb].
      unfold bind, lift. rewrite Hr.
      destruct (ServerFacts.make_single_cases name r)
        as [[b [g [wn [Hb [Hg [Hw Hs]]]]]] | Hs]; rewrite Hs.
      * left. exists b, g, wn. auto.
      * right. reflexivity.
Qed.

Lemma check_drug_safety_cases_witness :
  check_drug_safety "  " (Scenario.with_replies [NetError])
  = (Ret (mkSingle "N/A" "N/A" "N/A"
                   "Invalid or empty drug name provided." false),
     Scenario.with_replies [NetError]).
Proof.
  apply (check_drug_safety_cases "  " (Scenario.with_replies [NetError])).
  reflexivity.
Defined.

(** X12: the endpoint of the FDA tool server always answers, with status
    200 or 500 and nothing else: an unknown tool name is answered with 500,
    not 400, because the exception raised for it is caught by the handler's
    own [except], and in that case no outside request is made. *)
Theorem invoke_tool_status (tool_name : string)
        (arguments : list (string * json)) (w : World) :
  exists c body w',
    invoke_tool tool_name arguments w = (Ret (Reply c (Some body)), w')
    /\ (c = 200 \/ c = 500)
    /\ (tool_name <> "check_drug_safety" ->
        tool_name <> "check_multiple_drugs" ->
        c = 500 /\ w' = w).
Proof.
  unfold invoke_tool, try_except.
  destruct (String.eqb tool_name "check_drug_safety") eqn:E1.
  - apply String.eqb_eq in E1.
    unfold bind, ret, ok_reply, error_reply.
    set (v := field arguments "drug_name" (JStr "")).
    assert (Hh : fst (check_drug_safety_any v w) <> Diverge).
    { unfold check_drug_safety_any.
      destruct v; try destruct (truthy _); try discriminate;
        apply ServerFacts.check_drug_safety_halts. }
    destruct (check_drug_safety_any v w) as [[r|e|] w']; cbn in Hh;
      [| |contradiction]; eexists _, _, _;
      (split; [reflexivity|]); (split; [auto | intros H; contradiction]).
  - destruct (String.eqb tool_name "check_multiple_drugs") eqn:E2.
    + apply String.eqb_eq in E2.
      unfold bind, ret, ok_reply, error_reply.
      set (v := field arguments "drug_list" (JArr [])).
      pose proof (ServerFacts.check_multiple_drugs_any_halts v w) as Hh.
      destruct (check_multiple_drugs_any v w) as [[r|e|] w']; cbn in Hh;
        [| |contradiction]; eexists _, _, _;
        (split; [reflexivity|]); (split; [auto | intros _ H; contradiction]).
    + unfold raise, ret, error_reply. eexists _, _, _.
      split; [reflexivity|]. split; auto.
Qed.

(** X13: a list of strings sent to the batch tool is handled exactly as
    [check_multiple_drugs] on those strings; a list whose second element is
    not a string, after a non-blank name, is answered with 500, and only
    after the first name has been looked up. *)
Theorem invoke_tool_batch (names : list string) (name : string) (v : json)
        (rest : list json) (w : World) :
  invoke_tool "check_multiple_drugs"
              [("drug_list", JArr (map JStr names))] w
  = try_except
      (bind (check_multiple_drugs names)
            (fun result => ret (ok_reply (dump_batch result))))
      (fun e => ret (error_reply e)) w
  /\ (strip name <> "" -> (forall s, v <> JStr s) ->
      invoke_tool "check_multiple_drugs"
                  [("drug_list", JArr (JStr name :: v :: rest))] w
      = (Ret (error_reply AttributeError),
         snd (_call_openfda_api (strip name) w))).
Proof.
  split.
  - unfold invoke_tool. cbn [String.eqb Ascii.eqb Bool.eqb field assoc].
    unfold try_except, bind.
    now rewrite ServerFacts.check_multiple_drugs_any_strings.
  - intros Hn Hv. apply String.eqb_neq in Hn.
    unfold invoke_tool. cbn [String.eqb Ascii.eqb Bool.eqb field assoc].
    unfold try_except, bind, check_multiple_drugs_any.
    cbn [has_len truthy negb iter]. unfold bind, lift.
    cbn [any_strip]. rewrite Hn. cbn [negb batch_loop_any]. rewrite Hn.
    unfold bind.
    destruct (BatchFacts._call_openfda_api_returns (strip name) w)
      as [r [w' [-> _]]].
    cbn [snd]. destruct v; try reflexivity.
    exfalso. now apply (Hv s).
Qed.

Lemma invoke_tool_batch_witness :
  invoke_tool "check_multiple_drugs"
              [("drug_list", JArr [JStr "aspirin"; JNum 7])]
              (Scenario.with_replies [])
  = (Ret (error_reply AttributeError),
     snd (_call_openfda_api (strip "aspirin") (Scenario.with_replies []))).
Proof.
  apply (invoke_tool_batch [] "aspirin" (JNum 7) []
           (Scenario.with_replies [])).
  - discriminate.
  - discriminate.
Defined.

(** X14: client and tool server together.  For a non-blank name the tool
    server looks the name up and answers either 200 with the lookup's values,
    or 500 when one of them is not a string.  Given the 200 answer, the
    client's [get_openfda_warnings] returns the server's brand, generic and
    warnings under the name, with [found = true] whatever the server found,
    and asks nobody else; given the 500 answer it runs its own public
    lookup. *)
Theorem lookup_through_tool_server (name : string) (ws : World) :
  strip name <> "" ->
  exists r ws',
    _call_openfda_api name ws = (Ret r, ws')
    /\ ((exists b g wn,
           brand r = JStr b /\ generic r = JStr g /\ warnings r = JStr wn
           /\ invoke_tool "check_drug_safety" [("drug_name", JStr name)] ws
              = (Ret (ok_reply (dump_single (mkSingle name b g wn (found r)))),
                 ws')
           /\ forall wc,
                next_result wc
                = ok_reply (dump_single (mkSingle name b g wn (found r))) ->
                get_openfda_warnings name wc
                = (Ret (mkRecord name (brand r) (generic r) (warnings r) true),
                   after_request (mcp_request name) wc))
        \/ (invoke_tool "check_drug_safety" [("drug_name", JStr name)] ws
            = (Ret (error_reply ValidationError), ws')
            /\ forall wc,
                 next_result wc = error_reply ValidationError ->
                 get_openfda_warnings name wc
                 = public_lookup name (after_request (mcp_request name) wc))).
Proof.
  intros Hn.
  destruct (check_drug_safety_total name ws Hn) as [r [ws' [Hr Hc]]].
  exists r, ws'. split; [exact Hr|].
  unfold invoke_tool. cbn [String.eqb Ascii.eqb Bool.eqb field assoc].
  unfold check_drug_safety_any, try_except, bind, ret.
  destruct Hc as [[b [g [wn [Hb [Hg [Hw Hs]]]]]] | Hs]; rewrite Hs.
  - left. exists b, g, wn. repeat (split; [assumption || reflexivity|]).
    intros wc Hwc.
    rewrite (FdaFacts.get_openfda_warnings_primary name wc
               [("drug_name", JStr name); ("brand", JStr b);
                ("generic", JStr g); ("warnings", JStr wn);
                ("found", JBool (found r))]).
    + unfold field. cbn. now rewrite Hb, Hg, Hw.
    + unfold primary_result. rewrite Hwc. reflexivity.
  - right. split; [reflexivity|].
    intros wc Hwc. apply FdaFacts.get_openfda_warnings_fallback.
    unfold primary_result. rewrite Hwc. reflexivity.
Qed.

Lemma lookup_through_tool_server_witness :
  strip "aspirin" <> ""
  /\ exists r ws',
       _call_openfda_api "aspirin"
         (Scenario.with_replies [Scenario.openfda_label "Bayer" "ASPIRIN" "Reye"])
       = (Ret r, ws').
Proof.
  assert (H : strip "aspirin" <> "") by discriminate.
  split; [exact H|].
  destruct (lookup_through_tool_server
              "aspirin"
              (Scenario.with_replies [Scenario.openfda_label "Bayer" "ASPIRIN" "Reye"])
              H)
    as [r [ws' [Hr _]]].
  exists r, ws'. exact Hr.
Defined.

(* ================================================================= *)
(** ** More on the index cache and the retriever *)

Module KbMore.

Import Kb Obs Obs2.

#[local] Arguments Chunker.chunk_text : simpl never.
#[local] Arguments collapse_newlines : simpl never.
#[local] Arguments join : simpl never.

Lemma getitem_halts {A} (l : list A) (i : Z) : getitem l i <> Diverge.
Proof.
  unfold getitem.
  destruct ((_ <? 0) || _); [discriminate|].
  destruct (nth_error l _); discriminate.
Qed.

Lemma index_of_halts (x : Z) (l : list Z) : index_of x l <> Diverge.
Proof.
  induction l as [|y l IH]; cbn; [discriminate|].
  destruct (x =? y); [discriminate|].
  destruct (index_of x l); cbn; [discriminate | discriminate | contradiction].
Qed.

Lemma collect_hits_halts (todo D I : list Z) (passages : list string)
      (acc : list hit) :
  collect_hits todo D I passages acc <> Diverge.
Proof.
  revert acc. induction todo as [|idx todo IH]; intros acc; cbn;
    [discriminate|].
  destruct ((0 <=? idx) && _); [|apply IH].
  pose proof (getitem_halts passages idx) as H1.
  destruct (getitem passages idx) as [p|e|]; cbn;
    [|discriminate|contradiction].
  pose proof (index_of_halts idx I) as H2.
  destruct (index_of idx I) as [pos|e|]; cbn; [|discriminate|contradiction].
  pose proof (getitem_halts D pos) as H3.
  destruct (getitem D pos) as [s|e|]; cbn; [apply IH|discriminate|contradiction].
Qed.

Lemma chunk_text_kb_returns (text : string) :
  exists passages, Chunker.chunk_text text 300 50 = Ret passages.
Proof.
  destruct (ChunkerFacts.chunk_text_returns text 300 50) as [H _]; [lia|].
  eexists. exact H.
Qed.

(** Collapsing runs of newlines does not change the chunks. *)
Lemma chunk_text_ignores_newline_runs_aux (text : string) (w o : Z) :
  Chunker.chunk_text (collapse_newlines text) w o = Chunker.chunk_text text w o.
Proof.
  unfold Chunker.chunk_text. now rewrite ChunkerMore.split_collapse.
Qed.

Section WithEmbedder.

Variable embed : string -> vec.

(** At window 300 and overlap 50 there is no passage exactly when the text
    has no token. *)
Lemma chunk_text_kb_empty (text : string) (passages : list string) :
  Chunker.chunk_text text 300 50 = Ret passages ->
  (passages = [] <-> split text = []).
Proof.
  intros H.
  apply (ChunkerMore.chunks_of_text text 300 50 passages) in H; [|lia].
  subst passages. destruct (split text) as [|t ts]; cbn.
  - split; reflexivity.
  - split; discriminate.
Qed.

(** The build from a present document: the dimension of the embeddings is
    read before anything is written. *)
Lemma build_kb_index_present (w : World) (pages : list string) :
  pdf_pages w = Some pages ->
  exists passages,
    Chunker.chunk_text (join (String newline "") pages) 300 50 = Ret passages
    /\ build_kb_index embed w
       = match passages with
         | [] =>
             (Raise IndexError,
              mkWorld (http_tape w) (http_log w) (kb_index_data w)
                      (pickle_file w) (pdf_pages w)
                      (storage_log w ++ [IoExists STG_PDF; IoExists STG_PDF;
                                         IoReadPdf STG_PDF])
                      (llm_tape w) (llm_log w))
         | _ :: _ =>
             (Ret (mkKb (map embed passages) passages),
              mkWorld (http_tape w) (http_log w) (kb_index_data w)
                      (PickleHolds (mkKb (map embed passages) passages))
                      (pdf_pages w)
                      (storage_log w ++ [IoExists STG_PDF; IoExists STG_PDF;
                                         IoReadPdf STG_PDF;
                                         IoWritePickle KB_INDEX_PICKLE])
                      (llm_tape w) (llm_log w))
         end.
Proof.
  intros Hd.
  destruct (chunk_text_kb_returns (join (String newline "") pages))
    as [passages Hp].
  exists passages. split; [exact Hp|].
  unfold build_kb_index, extract_text_from_pdf, pdf_exists, bind, log_io,
    write_pickle, lift, ret, raise.
  cbn. rewrite Hd. cbn. rewrite ?Hd.
  rewrite chunk_text_ignores_newline_runs_aux. cbn in Hp. rewrite Hp.
  destruct passages as [|p passages]; cbn; now rewrite <- !app_assoc.
Qed.

Lemma build_kb_index_halts (w : World) :
  fst (build_kb_index embed w) <> Diverge.
Proof.
  destruct (pdf_pages w) as [pages|] eqn:Hd.
  - destruct (build_kb_index_present w pages Hd) as [[|p passages] [_ ->]];
      discriminate.
  - unfold build_kb_index, pdf_exists, bind, log_io, ret, raise. cbn.
    rewrite Hd. discriminate.
Qed.

Lemma ensure_kb_index_halts (w : World) :
  fst (ensure_kb_index embed w) <> Diverge.
Proof.
  unfold ensure_kb_index.
  destruct (kb_index_data w) as [d|] eqn:Hc; [discriminate|].
  unfold load_kb_index, pickle_exists, bind, log_io, set_kb_index_data, ret.
  cbn -[build_kb_index].
  destruct (pickle_file w) as [| |d] eqn:Hp; cbn -[build_kb_index];
    rewrite ?Hp; try discriminate.
  unfold pdf_exists, bind, log_io, ret. cbn -[build_kb_index].
  destruct (pdf_pages w) as [pages|] eqn:Hd; cbn -[build_kb_index];
    [|discriminate].
  match goal with
  | |- context [build_kb_index embed ?w0] =>
      pose proof (build_kb_index_halts w0) as Hb;
      destruct (build_kb_index embed w0) as [[d|e|] w1]
  end; cbn in *; [discriminate | discriminate | contradiction].
Qed.

Lemma rag_lookup_kb_halts (query : string) (k : Z) (w : World) :
  fst (rag_lookup_kb embed query k w) <> Diverge.
Proof.
  unfold rag_lookup_kb, bind.
  pose proof (ensure_kb_index_halts w) as He.
  destruct (ensure_kb_index embed w) as [[[kb|]|e|] w']; cbn in *;
    try discriminate; [|contradiction].
  unfold lift, Faiss.search.
  destruct (k <=? 0); [discriminate|]. cbn.
  apply collect_hits_halts.
Qed.

End WithEmbedder.

End KbMore.

Import Kb.

(** X15: with nothing cached and no snapshot, but the document present,
    [ensure_kb_index] builds the index from a document that holds at least
    one word: the passages are the chunks (window 300, overlap 50) of the
    page texts joined by newlines, with one vector per passage, the
    embedding of that passage.  The index is cached and written to disk, so
    that [load_kb_index] afterwards, and [ensure_kb_index] in any other
    process that finds this snapshot, return the same index.  A document
    without a word has no passage: reading the dimension of the embeddings
    raises [IndexError], after the document was read and before anything is
    written or cached. *)
Theorem ensure_kb_index_builds (embed : string -> vec) (w : World)
        (pages : list string) :
  kb_index_data w = None ->
  pickle_file w = PickleAbsent ->
  pdf_pages w = Some pages ->
  (split (join (String newline "") pages) <> [] ->
   exists passages w1,
     Chunker.chunk_text (join (String newline "") pages) 300 50 = Ret passages
     /\ passages <> []
     /\ ensure_kb_index embed w
        = (Ret (Some (mkKb (map embed passages) passages)), w1)
     /\ kb_index_data w1 = Some (mkKb (map embed passages) passages)
     /\ pickle_file w1 = PickleHolds (mkKb (map embed passages) passages)
     /\ fst (load_kb_index w1)
        = Ret (Some (mkKb (map embed passages) passages))
     /\ (forall w2, kb_index_data w2 = None ->
                    pickle_file w2 = pickle_file w1 ->
                    fst (ensure_kb_index embed w2)
                    = Ret (Some (mkKb (map embed passages) passages)))
     /\ storage_log w1
        = (storage_log w
           ++ [IoExists KB_INDEX_PICKLE; IoExists STG_PDF; IoExists STG_PDF;
               IoExists STG_PDF; IoReadPdf STG_PDF;
               IoWritePickle KB_INDEX_PICKLE])%list)
  /\ (split (join (String newline "") pages) = [] ->
      exists w1,
        Chunker.chunk_text (join (String newline "") pages) 300 50 = Ret []
        /\ ensure_kb_index embed w = (Raise IndexError, w1)
        /\ kb_index_data w1 = None
        /\ pickle_file w1 = PickleAbsent
        /\ storage_log w1
           = (storage_log w
              ++ [IoExists KB_INDEX_PICKLE; IoExists STG_PDF; IoExists STG_PDF;
                  IoExists STG_PDF; IoReadPdf STG_PDF])%list).
Proof.
  intros Hc Hp Hd.
  set (w0 := mkWorld (http_tape w) (http_log w) (kb_index_data w)
                     (pickle_file w) (pdf_pages w)
                     (storage_log w ++ [IoExists KB_INDEX_PICKLE;
                                        IoExists STG_PDF])
                     (llm_tape w) (llm_log w)).
  destruct (KbMore.build_kb_index_present embed w0 pages Hd)
    as [passages [Hch Hb]].
  pose proof (KbMore.chunk_text_kb_empty _ _ Hch) as Hempty.
  assert (He : ensure_kb_index embed w
               = bind (build_kb_index embed)
                      (fun d => bind (set_kb_index_data (Some d))
                                     (fun _ => ret (Some d))) w0).
  { unfold w0, ensure_kb_index. rewrite Hc.
    unfold load_kb_index, pickle_exists, pdf_exists, bind, log_io,
      set_kb_index_data, ret.
    cbn -[build_kb_index]. rewrite Hp. cbn -[build_kb_index].
    rewrite Hd. cbn -[build_kb_index]. rewrite ?Hc, <- ?app_assoc.
    reflexivity. }
  rewrite He. unfold bind, set_kb_index_data, ret. rewrite Hb.
  split.
  - intros Hne. exists passages.
    destruct passages as [|p passages]; [now destruct Hne; apply Hempty|].
    eexists. split; [exact Hch|]. split; [discriminate|].
    cbn [http_tape http_log kb_index_data pickle_file pdf_pages storage_log
         llm_tape llm_log].
    split; [reflexivity|]. split; [reflexivity|]. split; [reflexivity|].
    split; [reflexivity|]. split.
    + intros w2 Hc2 Hp2. cbn [pickle_file] in Hp2.
      now rewrite (KbFacts.ensure_loads embed w2 _ Hc2 Hp2).
    + unfold w0. cbn [storage_log]. now rewrite <- app_assoc.
  - intros Hnil. apply Hempty in Hnil. subst passages.
    eexists. split; [exact Hch|]. split; [reflexivity|].
    unfold w0.
    cbn [http_tape http_log kb_index_data pickle_file pdf_pages storage_log
         llm_tape llm_log].
    split; [exact Hc|]. split; [exact Hp|]. now rewrite <- app_assoc.
Qed.

Lemma ensure_kb_index_builds_witness :
  (exists passages w1,
     Chunker.chunk_text (join (String newline "") ["a b c"; "d e"]) 300 50
     = Ret passages
     /\ passages <> []
     /\ ensure_kb_index Scenario.length_embed
          (mkWorld [] [] None PickleAbsent (Some ["a b c"; "d e"]) [] [] [])
        = (Ret (Some (mkKb (map Scenario.length_embed passages) passages)), w1))
  /\ (exists w1,
        ensure_kb_index Scenario.length_embed
          (mkWorld [] [] None PickleAbsent (Some [" "; ""]) [] [] [])
        = (Raise IndexError, w1)
        /\ pickle_file w1 = PickleAbsent).
Proof.
  split.
  - destruct (ensure_kb_index_builds
                Scenario.length_embed
                (mkWorld [] [] None PickleAbsent (Some ["a b c"; "d e"]) [] [] [])
                ["a b c"; "d e"] eq_refl eq_refl eq_refl)
      as [H _].
    destruct H as [passages [w1 [H1 [H2 [H3 _]]]]]; [vm_compute; discriminate|].
    exists passages, w1. split; [exact H1|]. split; [exact H2 | exact H3].
  - destruct (ensure_kb_index_builds
                Scenario.length_embed
                (mkWorld [] [] None PickleAbsent (Some [" "; ""]) [] [] [])
                [" "; ""] eq_refl eq_refl eq_refl)
      as [_ H].
    destruct H as [w1 [_ [H2 [_ [H4 _]]]]]; [vm_compute; reflexivity|].
    exists w1. split; [exact H2 | exact H4].
Defined.

(** X16: a snapshot file that cannot be unpickled is not repaired.
    [ensure_kb_index] raises, does not fall back to building from the
    document even when it is present, and caches nothing, so the next call
    reads the file again and fails the same way; [rag_lookup_kb] passes the
    exception on. *)
Theorem ensure_kb_index_corrupt (embed : string -> vec) (query : string)
        (k : Z) (w : World) :
  kb_index_data w = None ->
  pickle_file w = PickleCorrupt ->
  exists w1,
    ensure_kb_index embed w = (Raise UnpicklingError, w1)
    /\ rag_lookup_kb embed query k w = (Raise UnpicklingError, w1)
    /\ kb_index_data w1 = None
    /\ pickle_file w1 = PickleCorrupt
    /\ storage_log w1
       = (storage_log w ++ [IoExists KB_INDEX_PICKLE;
                            IoReadPickle KB_INDEX_PICKLE])%list
    /\ fst (ensure_kb_index embed w1) = Raise UnpicklingError.
Proof.
  intros Hc Hp.
  assert (He : forall w0, kb_index_data w0 = None ->
                          pickle_file w0 = PickleCorrupt ->
               ensure_kb_index embed w0
               = (Raise UnpicklingError,
                  mkWorld (http_tape w0) (http_log w0) (kb_index_data w0)
                          (pickle_file w0) (pdf_pages w0)
                          (storage_log w0 ++ [IoExists KB_INDEX_PICKLE;
                                              IoReadPickle KB_INDEX_PICKLE])
                          (llm_tape w0) (llm_log w0))).
  { intros w0 Hc0 Hp0. unfold ensure_kb_index. rewrite Hc0.
    unfold load_kb_index, pickle_exists, bind, log_io, ret. cbn.
    rewrite Hp0. cbn. rewrite ?Hp0, ?Hc0. now rewrite <- ?app_assoc. }
  eexists. split; [apply (He w Hc Hp)|].
  split; [unfold rag_lookup_kb, bind; now rewrite (He w Hc Hp)|].
  cbn. split; [exact Hc|]. split; [exact Hp|]. split; [reflexivity|].
  rewrite He; [reflexivity | exact Hc | exact Hp].
Qed.

Lemma ensure_kb_index_corrupt_witness :
  exists w1,
    ensure_kb_index Scenario.length_embed
      (mkWorld [] [] None PickleCorrupt (Some ["a b"]) [] [] [])
    = (Raise UnpicklingError, w1)
    /\ pickle_file w1 = PickleCorrupt.
Proof.
  destruct (ensure_kb_index_corrupt
              Scenario.length_embed "q" 4
              (mkWorld [] [] None PickleCorrupt (Some ["a b"]) [] [] [])
              eq_refl eq_refl)
    as [w1 [H1 [_ [_ [H4 _]]]]].
  exists w1. split; [exact H1 | exact H4].
Defined.

(** X17: the unavailable state is not cached.  With no snapshot and no
    document, every one of [n] calls of [rag_lookup_kb] returns the empty
    list and tests again for both files, so the storage is touched [2n]
    times. *)
Theorem rag_lookup_kb_unavailable_retries (embed : string -> vec)
        (query : string) (k : Z) (n : nat) (w : World) :
  kb_index_data w = None ->
  pickle_file w = PickleAbsent ->
  pdf_pages w = None ->
  exists w',
    repeat_call n (rag_lookup_kb embed query k) w = (Ret (repeat [] n), w')
    /\ kb_index_data w' = None
    /\ pickle_file w' = PickleAbsent
    /\ pdf_pages w' = None
    /\ storage_log w'
       = (storage_log w
          ++ List.concat (repeat [IoExists KB_INDEX_PICKLE; IoExists STG_PDF] n))%list.
Proof.
  unfold repeat_call. revert w.
  induction n as [|n IH]; intros w Hc Hp Hd.
  - exists w. cbn. rewrite app_nil_r. auto.
  - set (w0 := mkWorld (http_tape w) (http_log w) None (pickle_file w)
                       (pdf_pages w)
                       (storage_log w ++ [IoExists KB_INDEX_PICKLE;
                                          IoExists STG_PDF])
                       (llm_tape w) (llm_log w)).
    assert (Hr : rag_lookup_kb embed query k w = (Ret [], w0)).
    { unfold rag_lookup_kb, bind.
      now rewrite (KbFacts.ensure_unavailable embed w Hc Hp Hd). }
    destruct (IH w0 eq_refl Hp Hd) as [w' [Hm [H1 [H2 [H3 H4]]]]].
    exists w'. cbn [repeat mapM List.concat]. unfold bind, ret.
    rewrite Hr, Hm.
    split; [reflexivity|]. split; [exact H1|]. split; [exact H2|].
    split; [exact H3|]. rewrite H4. unfold w0. cbn [storage_log].
    now rewrite <- app_assoc.
Qed.

Lemma rag_lookup_kb_unavailable_retries_witness :
  exists w',
    repeat_call 3 (rag_lookup_kb Scenario.length_embed "q" 4)
                (Scenario.with_replies [])
    = (Ret (repeat [] 3), w')
    /\ List.length (storage_log w') = 6%nat.
Proof.
  destruct (rag_lookup_kb_unavailable_retries
              Scenario.length_embed "q" 4 3 (Scenario.with_replies [])
              eq_refl eq_refl eq_refl)
    as [w' [H1 [_ [_ [_ H5]]]]].
  exists w'. split; [exact H1|]. now rewrite H5.
Defined.

(* ================================================================= *)
(** ** More on the guideline path *)

Module KbAgentMore.

Import Kb KbAgent Obs Obs2 PyFacts.

Lemma clean_passage_text (s : string) :
  clean_passage (JStr s) = Ret (clean_text s).
Proof.
  unfold clean_passage, clean_text. destruct (1000 <? len s); reflexivity.
Qed.

Lemma clean_text_short (s : string) : len s <= 1000 -> clean_text s = strip s.
Proof.
  intros H. unfold clean_text. destruct (1000 <? len s) eqn:E; [lia|].
  reflexivity.
Qed.

Lemma clean_text_length (s : string) : len (clean_text s) <= 1000.
Proof.
  destruct (Z_le_gt_dec (len s) 1000) as [H | H].
  - rewrite clean_text_short by exact H.
    pose proof (TextFacts.strip_length s). unfold len in *. lia.
  - destruct (KbAgentFacts.clean_long_passage s) as [H1 [H2 _]]; [lia|].
    rewrite clean_passage_text in H1. apply ChunkerFacts.Ret_inj in H1.
    rewrite H1. lia.
Qed.

Lemma clean_text_trimmed (s : string) : trimmed (clean_text s).
Proof.
  unfold clean_text. destruct (1000 <? len s); apply TextFacts.strip_trimmed.
Qed.

Lemma clean_loop_strings (snippets : list string) (acc : list string) :
  clean_loop (map JStr snippets) acc
  = Ret (acc ++ map clean_text snippets)%list.
Proof.
  revert acc. induction snippets as [|s l IH]; intros acc; cbn [map clean_loop].
  - now rewrite app_nil_r.
  - rewrite clean_passage_text. cbn [obind]. rewrite IH.
    now rewrite <- app_assoc.
Qed.

Lemma clean_loop_halts (l : list json) (acc : list string) :
  clean_loop l acc <> Diverge.
Proof.
  revert acc. induction l as [|p l IH]; intros acc; cbn; [discriminate|].
  destruct (clean_passage p) as [s|e|] eqn:E; cbn;
    [apply IH | discriminate |].
  destruct p; cbn in E; try discriminate E.
  - destruct (1000 <? len s); discriminate E.
  - destruct (1000 <? _); discriminate E.
Qed.

Lemma clean_hits_halts (hits : json) : clean_hits hits <> Diverge.
Proof.
  unfold clean_hits. destruct hits; cbn; try discriminate;
    apply clean_loop_halts.
Qed.

Section WithEmbedder.

Variable embed : string -> vec.

Lemma select_hits_halts (query_text : string) (top_k : Z) (w : World) :
  fst (select_hits embed query_text top_k w) <> Diverge.
Proof.
  unfold select_hits. unfold bind at 1. rewrite KbAgentFacts.fetch_result.
  destruct (negb (truthy _)); [|discriminate].
  unfold bind.
  pose proof (KbMore.rag_lookup_kb_halts embed query_text top_k
                (after_request (kb_request query_text) w)) as H.
  destruct (rag_lookup_kb embed query_text top_k _) as [[[|h hs]|e|] w'];
    cbn in *; try discriminate. contradiction.
Qed.

Lemma kb_agent_halts (query_text : string) (top_k : Z) (language : string)
      (w : World) :
  fst (kb_agent embed query_text top_k language w) <> Diverge.
Proof.
  unfold kb_agent. unfold bind at 1.
  pose proof (select_hits_halts query_text top_k w) as Hs.
  destruct (select_hits embed query_text top_k w) as [[[hits|]|e|] w1];
    cbn in *; try discriminate; [|contradiction].
  unfold bind, lift.
  pose proof (clean_hits_halts hits) as Hc.
  destruct (clean_hits hits) as [raw|e|]; cbn; [|discriminate|contradiction].
  unfold try_except, bind, chat_completion, ret.
  destruct (llm_tape w1) as [|[reply|] tape]; discriminate.
Qed.

End WithEmbedder.

End KbAgentMore.

Import Kb KbAgent.

(** X18: the guideline tool of the KB server always returns a well-formed
    result, a list of strings with the query echoed: the passages of the
    retriever's hits when it returns, and a single error text when it
    raises, whatever it raises. *)
Theorem search_medical_guidelines_returns (embed : string -> vec)
        (query : string) (top_k : Z) (w : World) :
  exists snippets w',
    search_medical_guidelines embed query top_k w
    = (Ret (JObj [("guideline_snippets", JArr (map JStr snippets));
                  ("query_used", JStr query)]), w')
    /\ w' = snd (rag_lookup_kb embed query top_k w)
    /\ (forall hits, fst (rag_lookup_kb embed query top_k w) = Ret hits ->
                     snippets = map passage hits)
    /\ (forall e, fst (rag_lookup_kb embed query top_k w) = Raise e ->
                  snippets = ["Error during search"]).
Proof.
  unfold search_medical_guidelines, try_except, bind, ret.
  pose proof (KbMore.rag_lookup_kb_halts embed query top_k w) as Hh.
  destruct (rag_lookup_kb embed query top_k w) as [[hits|e|] w']; cbn in Hh.
  - exists (map passage hits), w'. rewrite map_map.
    split; [reflexivity|]. split; [reflexivity|]. split.
    + intros h H. now injection H as <-.
    + discriminate.
  - exists ["Error during search"], w'.
    split; [reflexivity|]. split; [reflexivity|]. split.
    + discriminate.
    + reflexivity.
  - contradiction.
Qed.

(** X19: an error on the KB server hides the client's local index.  When
    the server's retriever raises, the server still answers 200 with its
    error text as the only snippet, and a client that receives this answer
    takes the error text as its guideline passage and does not consult its
    own retriever. *)
Theorem server_error_masks_local_index (embed embed' : string -> vec)
        (query : string) (top_k top_k' : Z) (ws wc : World) (e : exn) :
  fst (rag_lookup_kb embed query top_k ws) = Raise e ->
  next_result wc
  = Obs2.kb_ok_reply
      (JObj [("guideline_snippets", JArr [JStr "Error during search"]);
             ("query_used", JStr query)]) ->
  fst (search_medical_guidelines embed query top_k ws)
  = Ret (JObj [("guideline_snippets", JArr [JStr "Error during search"]);
               ("query_used", JStr query)])
  /\ select_hits embed' query top_k' wc
     = (Ret (Some (JArr [JStr "Error during search"])),
        Obs.after_request (Obs.kb_request query) wc)
  /\ storage_log (Obs.after_request (Obs.kb_request query) wc) = storage_log wc.
Proof.
  intros Hr Hn. split; [|split; [|reflexivity]].
  - unfold search_medical_guidelines, try_except, bind, ret.
    destruct (rag_lookup_kb embed query top_k ws) as [[hits|e'|] w'];
      cbn in Hr; try discriminate Hr. reflexivity.
  - apply KbAgentFacts.select_hits_primary; [|reflexivity].
    unfold Obs.kb_primary_result. rewrite Hn. reflexivity.
Qed.

Lemma server_error_masks_local_index_witness :
  select_hits Scenario.length_embed "q" 4
    (Scenario.with_snapshot Scenario.small_kb
       [Scenario.kb_reply ["Error during search"] "q"])
  = (Ret (Some (JArr [JStr "Error during search"])),
     Obs.after_request (Obs.kb_request "q")
       (Scenario.with_snapshot Scenario.small_kb
          [Scenario.kb_reply ["Error during search"] "q"])).
Proof.
  apply (server_error_masks_local_index
           Scenario.length_embed Scenario.length_embed "q" 4 4
           (mkWorld [] [] None PickleCorrupt None [] [] [])
           (Scenario.with_snapshot Scenario.small_kb
              [Scenario.kb_reply ["Error during search"] "q"])
           UnpicklingError);
    reflexivity.
Defined.

(** X20: the cleaning step of [kb_agent] turns every passage text into a
    text of at most 1000 characters without blanks at either end, and
    cleaning a cleaned text changes nothing. *)
Theorem clean_passage_normalises (s : string) :
  clean_passage (JStr s) = Ret (Obs2.clean_text s)
  /\ len (Obs2.clean_text s) <= 1000
  /\ Obs2.trimmed (Obs2.clean_text s)
  /\ clean_passage (JStr (Obs2.clean_text s)) = Ret (Obs2.clean_text s).
Proof.
  split; [apply KbAgentMore.clean_passage_text|].
  split; [apply KbAgentMore.clean_text_length|].
  split; [apply KbAgentMore.clean_text_trimmed|].
  rewrite KbAgentMore.clean_passage_text. f_equal.
  rewrite KbAgentMore.clean_text_short by apply KbAgentMore.clean_text_length.
  apply TextFacts.strip_of_trimmed, KbAgentMore.clean_text_trimmed.
Qed.

(** X21: when the primary path gives no snippets and the local retriever
    returns no hit, [kb_agent] returns the no-passages message at once: the
    world it leaves is the retriever's, so the language model is not
    called. *)
Theorem kb_agent_no_passages (embed : string -> vec) (query : string)
        (k : Z) (language : string) (w w' : World) :
  (Obs.kb_primary_result w = None
   \/ exists v, Obs.kb_primary_result w = Some v /\ truthy v = false) ->
  rag_lookup_kb embed query k (Obs.after_request (Obs.kb_request query) w)
  = (Ret [], w') ->
  kb_agent embed query k language w = (Ret NO_PASSAGES, w').
Proof.
  intros Hp Hr. unfold kb_agent. unfold bind at 1.
  rewrite (KbAgentFacts.select_hits_secondary embed query k w Hp).
  unfold Obs.local_selection, bind, ret. now rewrite Hr.
Qed.

Lemma kb_agent_no_passages_witness :
  fst (kb_agent Scenario.length_embed "q" 4 "English"
         (mkWorld [NetError] [] None PickleAbsent None [] [Some "x"] []))
  = Ret NO_PASSAGES.
Proof.
  rewrite (kb_agent_no_passages
             Scenario.length_embed "q" 4 "English"
             (mkWorld [NetError] [] None PickleAbsent None [] [Some "x"] [])
             (snd (rag_lookup_kb Scenario.length_embed "q" 4
                     (Obs.after_request (Obs.kb_request "q")
                        (mkWorld [NetError] [] None PickleAbsent None []
                                 [Some "x"] []))))).
  - reflexivity.
  - left. reflexivity.
  - reflexivity.
Defined.

(** X22: with a non-empty list of string snippets from the primary path,
    [kb_agent] cleans each snippet, sends the language model exactly one
    prompt, the one built from the language and the cleaned snippets joined
    by blank lines, and returns the stripped reply, or the formatting-error
    text when the call raises; it asks neither the local retriever nor the
    storage. *)
Theorem kb_agent_primary_prompt (embed : string -> vec) (query : string)
        (k : Z) (language : string) (w : World) (s : string)
        (snippets : list string) :
  Obs.kb_primary_result w = Some (JArr (map JStr (s :: snippets))) ->
  exists w',
    kb_agent embed query k language w
    = (Ret (match llm_tape w with
            | Some reply :: _ => strip reply
            | _ => FORMAT_ERROR
            end), w')
    /\ llm_log w'
       = (llm_log w
          ++ [prompt_of language
                (join (String newline (String newline ""))
                      (map Obs2.clean_text (s :: snippets)))])%list
    /\ storage_log w' = storage_log w
    /\ http_log w' = (http_log w ++ [Obs.kb_request query])%list.
Proof.
  intros Hp. unfold kb_agent. unfold bind at 1.
  rewrite (KbAgentFacts.select_hits_primary embed query k w _ Hp eq_refl).
  unfold bind at 1. unfold lift at 1. unfold clean_hits.
  cbn [iter obind]. rewrite KbAgentMore.clean_loop_strings. cbn [app].
  unfold try_except, bind, chat_completion, ret.
  unfold Obs.after_request. cbn [send snd llm_tape llm_log storage_log http_log].
  destruct (llm_tape w) as [|[reply|] tape]; eexists;
    (split; [reflexivity|]); cbn [llm_log storage_log http_log]; auto.
Qed.

Lemma kb_agent_primary_prompt_witness :
  exists w',
    kb_agent Scenario.length_embed "q" 4 "English"
      (mkWorld [Scenario.kb_reply ["  rest  "] "q"] [] None PickleAbsent None
               [] [Some " ok "] [])
    = (Ret "ok", w').
Proof.
  destruct (kb_agent_primary_prompt
              Scenario.length_embed "q" 4 "English"
              (mkWorld [Scenario.kb_reply ["  rest  "] "q"] [] None
                       PickleAbsent None [] [Some " ok "] [])
              "  rest  " [] eq_refl)
    as [w' [H _]].
  exists w'. exact H.
Defined.

(** X23: the KB stage of the crew never fails and never hangs: whatever the
    tool server, the file system and the language model do, and whatever
    the retriever raises, [safe_task] around [kb_agent] returns a text. *)
Theorem kb_lookup_stage_returns (embed : string -> vec)
        (reasoning_output language : string) (w : World) :
  exists text w',
    Crew.kb_lookup_stage embed reasoning_output language w = (Ret text, w')
    /\ (forall e, fst (kb_agent embed reasoning_output 4 language w) = Raise e ->
                  text = Crew.TASK_FAILED "KB Lookup")
    /\ (forall t, fst (kb_agent embed reasoning_output 4 language w) = Ret t ->
                  text = t).
Proof.
  unfold Crew.kb_lookup_stage, Crew.safe_task, try_except, ret.
  pose proof (KbAgentMore.kb_agent_halts embed reasoning_output 4 language w)
    as Hh.
  destruct (kb_agent embed reasoning_output 4 language w) as [[t|e|] w'];
    cbn in Hh; [| |contradiction]; eexists _, _;
    (split; [reflexivity|]); split; intros x Hx; cbn in Hx;
    try discriminate Hx; try reflexivity.
  now injection Hx as <-.
Qed.

(* ================================================================= *)
(** ** Language helper and drug extraction *)

Module PlannerFacts.

Import Planner Obs Obs2 PyFacts.

Lemma drugs_of_clean (output : string) :
  Forall (fun d => d <> ""
                   /\ trimmed d
                   /\ lower d = d
                   /\ Forall (fun c => is_sep c = false) (chars d))
         (drugs_of output).
Proof.
  unfold drugs_of. apply Forall_map. apply Forall_forall.
  intros d Hd. apply filter_In in Hd as [Hin Hne].
  apply negb_true_iff, String.eqb_neq in Hne.
  split; [|split; [|split]].
  - intros H. apply Hne. now apply TextFacts.lower_empty.
  - apply TextFacts.trimmed_lower, TextFacts.strip_trimmed.
  - apply TextFacts.lower_idem.
  - unfold lower, strip. rewrite !chars_str. apply Forall_map.
    assert (Hp : Forall (fun c => is_sep c = false) (chars d)).
    { unfold re_split in Hin. apply in_map_iff in Hin as [cs [<- Hcs]].
      rewrite chars_str.
      pose proof (TextFacts.re_split_chars_pieces (chars output) [] false
                    (Forall_nil _)) as Hall.
      rewrite Forall_forall in Hall. exact (Hall cs Hcs). }
    eapply Forall_impl; [|apply TextFacts.strip_chars_keeps, Hp].
    intros c Hc. cbn beta. now rewrite TextFacts.lower_char_sep.
Qed.

Lemma clean_names_of_clean (names : list string) :
  Forall (fun d => d <> "" /\ trimmed d) names -> clean_names names = names.
Proof.
  unfold clean_names. induction 1 as [|d l [Hne Ht] Hl IH]; [reflexivity|].
  cbn [map filter]. rewrite (TextFacts.strip_of_trimmed d Ht).
  apply String.eqb_neq in Hne. rewrite Hne. cbn [negb]. now rewrite IH.
Qed.

End PlannerFacts.

Import Planner Lang.

(** X24: [build_ai_prompt] keeps the base text as it is and appends one
    line that names a language; the language named is always one of the six
    supported ones: the given language when it is among them (the
    comparison is exact), English otherwise. *)
Theorem build_ai_prompt_language (base_text language : string) :
  exists named,
    build_ai_prompt base_text language
    = base_text ++ String Kb.newline ""
                ++ "Please generate the output in " ++ named ++ "."
    /\ In named SUPPORTED_LANGUAGES
    /\ (In language SUPPORTED_LANGUAGES -> named = language)
    /\ (~ In language SUPPORTED_LANGUAGES -> named = "English").
Proof.
  unfold build_ai_prompt.
  destruct (supported language) eqn:E.
  - exists language. split; [reflexivity|].
    unfold supported in E. apply existsb_exists in E as [x [Hx Hb]].
    apply String.eqb_eq in Hb. subst x.
    split; [exact Hx|]. split; [reflexivity | contradiction].
  - exists "English". split; [reflexivity|].
    split; [now left|]. split; [|reflexivity].
    intros Hin. exfalso.
    assert (supported language = true).
    { unfold supported. apply existsb_exists. exists language.
      split; [exact Hin | apply String.eqb_refl]. }
    congruence.
Qed.

(** X25: [extract_drugs_with_groq] never raises: it sends one prompt and
    returns the empty list when the call fails.  Every name it returns is
    non-empty, has no blank at either end, is in lower case and holds
    neither comma nor newline. *)
Theorem extract_drugs_clean (text : string) (w : World) :
  exists drugs w',
    extract_drugs_with_groq text w = (Ret drugs, w')
    /\ llm_log w' = (llm_log w ++ [extract_prompt text])%list
    /\ (forall reply tape, llm_tape w = Some reply :: tape ->
                           drugs = drugs_of (strip reply))
    /\ ((forall reply tape, llm_tape w <> Some reply :: tape) -> drugs = [])
    /\ Forall (fun d => d <> ""
                        /\ Obs2.trimmed d
                        /\ lower d = d
                        /\ Forall (fun c => is_sep c = false) (chars d))
              drugs.
Proof.
  unfold extract_drugs_with_groq, try_except, bind, chat_completion, ret.
  destruct (llm_tape w) as [|[reply|] tape] eqn:E; cbn.
  - exists []. eexists. repeat split; try discriminate; auto.
  - exists (drugs_of (strip reply)). eexists.
    split; [reflexivity|]. split; [reflexivity|]. split.
    + intros r t H. now injection H as <- _.
    + split; [|apply PlannerFacts.drugs_of_clean].
      intros H. exfalso. now apply (H reply tape).
  - exists []. eexists. repeat split; try discriminate; auto.
Qed.

(** X26: extraction and verification compose without loss.  The batch
    verifier run on the names [extract_drugs_with_groq] returns drops none
    of them: it returns one record per extracted name, in order, under that
    very name. *)
Theorem extracted_drugs_all_verified (text : string) (w : World) :
  exists drugs w1 rs w2,
    extract_drugs_with_groq text w = (Ret drugs, w1)
    /\ Fda.get_openfda_warnings_batch drugs w1
       = (Ret (Fda.report_of rs), w2)
    /\ map Fda.drug_name rs = drugs
    /\ Fda.count (Fda.report_of rs) = Z.of_nat (List.length drugs).
Proof.
  assert (Hx : exists drugs w1,
             extract_drugs_with_groq text w = (Ret drugs, w1)
             /\ Forall (fun d => d <> "" /\ Obs2.trimmed d) drugs).
  { unfold extract_drugs_with_groq, try_except, bind, chat_completion, ret.
    destruct (llm_tape w) as [|[reply|] tape]; cbn; eexists _, _;
      (split; [reflexivity|]); try constructor.
    eapply Forall_impl; [|apply PlannerFacts.drugs_of_clean].
    intros d [H1 [H2 _]]. auto. }
  destruct Hx as [drugs [w1 [He Hc]]].
  destruct (BatchFacts.get_openfda_warnings_batch_returns drugs w1)
    as [rs [w2 [Hb HP]]].
  exists drugs, w1, rs, w2. split; [exact He|]. split; [exact Hb|].
  rewrite (PlannerFacts.clean_names_of_clean drugs Hc) in HP.
  pose proof (BatchMore.answers_names _ _ HP) as Hn.
  split; [exact Hn|].
  unfold Fda.report_of. cbn [Fda.count]. now rewrite <- Hn, length_map.
Qed.
